(** * MagTag offline literary quote clock: a shallow embedding of [code.py]

    The program is a single CircuitPython script.  Its text handling
    (CSV loader, caret markup splitter, greedy word wrap), its quote
    selection and its render / refresh / set-time routines are embedded
    below as Rocq functions, in the order of the script.

    Conventions.
    - A Python [str] is a list of Unicode code points ([N]); literals are
      written [py "..."] (ASCII literals) so that the typographic table of
      [sanitize_ascii] keeps its real code points.
    - Python [int] is [Z]; [//] and [%] are [Z.div] and [Z.modulo] (both
      round towards minus infinity for a positive divisor, as in Python).
    - The built-ins ([str] methods, [int], f-strings) are those of CPython
      3.11 with its Unicode 14.0 tables: [str.strip] and [str.split] work
      on Unicode whitespace, [int] reads every Unicode decimal digit.
    - A call that may raise returns a [result]; the stateful routines
      (module globals, the RTC, the display) live in a small state and
      exception monad [M].
    - The e-ink panel, the font metrics and the monotonic clock are
      collaborators of the script: they are Section variables.  The file
      system is an argument of the loader. *)

From Stdlib Require Import List ZArith NArith Lia Bool String Ascii.
From Stdlib Require Import PrimFloat.
Import ListNotations.

Local Open Scope Z_scope.

(* ================================================================== *)
(** * Python strings *)
(* ================================================================== *)

Module PyStr.

(** A character is its code point, a string the list of its characters. *)
Definition char : Type := N.
Definition str : Type := list char.

Definition chr (a : ascii) : char := N_of_ascii a.

(** [py "abc"]: the Python literal ["abc"]. *)
Fixpoint py (s : string) : str :=
  match s with
  | EmptyString => []
  | String a s' => chr a :: py s'
  end.

Definition char_eqb (a b : char) : bool := N.eqb a b.

(** [a == b] on strings. *)
Fixpoint str_eqb (a b : str) : bool :=
  match a, b with
  | [], [] => true
  | x :: a', y :: b' => char_eqb x y && str_eqb a' b'
  | _, _ => false
  end.

(** [len(s)] *)
Definition len {A : Type} (l : list A) : Z := Z.of_nat (List.length l).

(** [s[i]] for [0 <= i]; [None] stands for IndexError. *)
Definition get_item {A : Type} (l : list A) (i : Z) : option A :=
  if i <? 0 then None else nth_error l (Z.to_nat i).

(** [s[i] == c], used only under a guard on [len(s)]. *)
Definition char_at_is (s : str) (i : Z) (c : char) : bool :=
  match get_item s i with
  | Some x => char_eqb x c
  | None => false
  end.

(** [s[:n]] and [s[n:]] for [0 <= n]. *)
Definition slice_to (s : str) (n : Z) : str := firstn (Z.to_nat n) s.
Definition slice_from (s : str) (n : Z) : str := skipn (Z.to_nat n) s.
(** [s[a:b]] for [0 <= a], [0 <= b]. *)
Definition slice (s : str) (a b : Z) : str :=
  firstn (Z.to_nat b - Z.to_nat a)%nat (skipn (Z.to_nat a) s).

(** [s.find(c)] for a one-character needle, scanning from the head of [s];
    [pos] is the index of the head.  Returns [-1] when absent. *)
Fixpoint find_at (c : char) (s : str) (pos : Z) : Z :=
  match s with
  | [] => -1
  | x :: s' => if char_eqb x c then pos else find_at c s' (pos + 1)
  end.

(** [s.find(c)] *)
Definition find (s : str) (c : char) : Z := find_at c s 0.

(** [s.find(c, start)] for [0 <= start]. *)
Definition find_from (s : str) (c : char) (start : Z) : Z :=
  find_at c (slice_from s start) start.

(** [s.replace(c, "")] for a one-character [c]. *)
Definition remove_char (c : char) (s : str) : str :=
  filter (fun x => negb (char_eqb x c)) s.

(** [s.startswith(c)] for a one-character prefix. *)
Definition startswith_char (s : str) (c : char) : bool :=
  match s with
  | x :: _ => char_eqb x c
  | [] => false
  end.

(** Membership of a character in a set of characters given as a string. *)
Definition char_in (c : char) (set : str) : bool :=
  existsb (char_eqb c) set.

(** Drop the leading characters that satisfy [p]. *)
Fixpoint lstrip_by (p : char -> bool) (s : str) : str :=
  match s with
  | [] => []
  | x :: s' => if p x then lstrip_by p s' else s
  end.

(** Drop the trailing characters that satisfy [p]. *)
Definition rstrip_by (p : char -> bool) (s : str) : str :=
  rev (lstrip_by p (rev s)).

(** [s.rstrip(chars)] *)
Definition rstrip_chars (s chars : str) : str :=
  rstrip_by (fun c => char_in c chars) s.

(** [c.isspace()]: the characters Python strips and splits on. *)
Definition isspace (c : char) : bool :=
  (((9 <=? c) && (c <=? 13)) || ((28 <=? c) && (c <=? 32))
   || (c =? 133) || (c =? 160) || (c =? 5760)
   || ((8192 <=? c) && (c <=? 8202))
   || (c =? 8232) || (c =? 8233) || (c =? 8239) || (c =? 8287)
   || (c =? 12288))%N.

(** [s.strip()] *)
Definition strip (s : str) : str := rstrip_by isspace (lstrip_by isspace s).

(** [s.split(sep)] for a one-character [sep]: [cur] is the field being
    read, in reverse. *)
Fixpoint split_on_aux (sep : char) (s : str) (cur : str) : list str :=
  match s with
  | [] => [rev cur]
  | x :: s' =>
      if char_eqb x sep then rev cur :: split_on_aux sep s' []
      else split_on_aux sep s' (x :: cur)
  end.

Definition split_on (s : str) (sep : char) : list str := split_on_aux sep s [].

(** [s.split(sep, maxsplit)]: at most [maxsplit] cuts, the rest of the
    string is the last field. *)
Fixpoint split_max_aux (sep : char) (maxsplit : nat) (s : str) (cur : str)
  : list str :=
  match maxsplit with
  | O => [rev cur ++ s]
  | S k =>
      match s with
      | [] => [rev cur]
      | x :: s' =>
          if char_eqb x sep then rev cur :: split_max_aux sep k s' []
          else split_max_aux sep maxsplit s' (x :: cur)
      end
  end.

Definition split_max (s : str) (sep : char) (maxsplit : nat) : list str :=
  split_max_aux sep maxsplit s [].

(** [s.split()]: cut on runs of whitespace, no empty word. *)
Fixpoint split_ws_aux (s : str) (cur : str) : list str :=
  match s with
  | [] => match cur with [] => [] | _ => [rev cur] end
  | x :: s' =>
      if isspace x then
        match cur with
        | [] => split_ws_aux s' []
        | _ => rev cur :: split_ws_aux s' []
        end
      else split_ws_aux s' (x :: cur)
  end.

Definition split_ws (s : str) : list str := split_ws_aux s [].

(** Decimal digits of a natural number. *)
Fixpoint uint_str (u : Decimal.uint) : str :=
  match u with
  | Decimal.Nil => []
  | Decimal.D0 u' => 48%N :: uint_str u'
  | Decimal.D1 u' => 49%N :: uint_str u'
  | Decimal.D2 u' => 50%N :: uint_str u'
  | Decimal.D3 u' => 51%N :: uint_str u'
  | Decimal.D4 u' => 52%N :: uint_str u'
  | Decimal.D5 u' => 53%N :: uint_str u'
  | Decimal.D6 u' => 54%N :: uint_str u'
  | Decimal.D7 u' => 55%N :: uint_str u'
  | Decimal.D8 u' => 56%N :: uint_str u'
  | Decimal.D9 u' => 57%N :: uint_str u'
  end.

Definition digits (z : Z) : str := uint_str (N.to_uint (Z.abs_N z)).

(** [f"{z}"] *)
Definition fmt_d (z : Z) : str :=
  if z <? 0 then chr "-" :: digits z else digits z.

(** [f"{z:02d}"]: sign first, then zeros up to a total width of two. *)
Definition fmt_02d (z : Z) : str :=
  let sign := if z <? 0 then [chr "-"] else [] in
  let d := digits z in
  sign ++ repeat (chr "0") (2 - List.length sign - List.length d)%nat ++ d.

End PyStr.
Import PyStr.


(* ================================================================== *)
(** * Exceptions *)
(* ================================================================== *)

(** The exceptions the script can meet. *)
Inductive exn : Type :=
| OSError
| ValueError
| RuntimeError
| IndexError
| KeyError
| StopIteration
| ZeroDivisionError.

Definition exn_eqb (a b : exn) : bool :=
  match a, b with
  | OSError, OSError | ValueError, ValueError | RuntimeError, RuntimeError
  | IndexError, IndexError | KeyError, KeyError
  | StopIteration, StopIteration
  | ZeroDivisionError, ZeroDivisionError => true
  | _, _ => false
  end.

(** The outcome of a call: a value, or a raised exception. *)
Inductive result (A : Type) : Type :=
| Ok (a : A)
| Raise (e : exn).
Arguments Ok {A} a.
Arguments Raise {A} e.

Definition rbind {A B : Type} (r : result A) (k : A -> result B) : result B :=
  match r with
  | Ok a => k a
  | Raise e => Raise e
  end.

Notation "'let?' x ':=' r 'in' k" := (rbind r (fun x => k))
  (at level 10, x name, r at level 100, k at level 200).

(* ================================================================== *)
(** * Config *)
(* ================================================================== *)

Definition UPDATE_MINUTES : Z := 5.
Definition TIME_24H : bool := true.
Definition CSV_PATH : str := py "/quotes.csv".
Definition MARGIN : Z := 10.

(* ================================================================== *)
(** * [int(s)] *)
(* ================================================================== *)

(** [int(s)] of CPython 3.11 on a [str], in base ten.  The text is first
    brought to ASCII: a character above 127 that is Unicode whitespace
    becomes a space, one that is a decimal digit becomes its ASCII digit.
    Then leading and trailing C-locale whitespace is dropped, an optional
    sign is read, and the rest must be decimal digits with single
    underscores between them, at most [sys.get_int_max_str_digits()] of
    them.  Anything else is a ValueError. *)

(** The zero of every block of ten decimal digits (Unicode 14.0: ASCII,
    Arabic-Indic, ..., fullwidth, mathematical, segmented digits). *)
Definition decimal_zeros : list N :=
  [48; 1632; 1776; 1984; 2406; 2534; 2662; 2790; 2918; 3046; 3174; 3302;
   3430; 3558; 3664; 3792; 3872; 4160; 4240; 6112; 6160; 6470; 6608; 6784;
   6800; 6992; 7088; 7232; 7248; 42528; 43216; 43264; 43472; 43504; 43600;
   44016; 65296; 66720; 68912; 69734; 69872; 69942; 70096; 70384; 70736;
   70864; 71248; 71360; 71472; 71904; 72016; 72784; 73040; 73120; 92768;
   92864; 93008; 120782; 120792; 120802; 120812; 120822; 123200; 123632;
   125264; 130032]%N.

(** [Py_UNICODE_TODECIMAL(c)] *)
Definition digit_val (c : char) : option Z :=
  match List.find (fun z => (z <=? c) && (c <? z + 10))%N decimal_zeros with
  | Some z => Some (Z.of_N (c - z))
  | None => None
  end.

(** What [int] drops around the number: tab, newline, vertical tab, form
    feed, carriage return and space, and the whitespace above 127.  Unlike
    [str.strip], the separators U+001C..U+001F are not dropped. *)
Definition int_space (c : char) : bool :=
  isspace c && negb ((28 <=? c) && (c <=? 31))%N.

(** Digits with single underscores between them; [prev] tells whether the
    previous character was a digit. *)
Fixpoint parse_digits (acc : Z) (prev : bool) (s : str) : option Z :=
  match s with
  | [] => if prev then Some acc else None
  | c :: s' =>
      if char_eqb c (chr "_") then
        if prev then parse_digits acc false s' else None
      else
        match digit_val c with
        | Some d => parse_digits (10 * acc + d) true s'
        | None => None
        end
  end.

(** [sys.get_int_max_str_digits()] *)
Definition INT_MAX_STR_DIGITS : Z := 4300.

Definition py_int (s : str) : result Z :=
  let t := rstrip_by int_space (lstrip_by int_space s) in
  let '(neg, body) :=
    match t with
    | c :: t' =>
        if char_eqb c (chr "-") then (true, t')
        else if char_eqb c (chr "+") then (false, t')
        else (false, t)
    | [] => (false, t)
    end in
  match parse_digits 0 false body with
  | Some n =>
      if INT_MAX_STR_DIGITS <? len (remove_char (chr "_") body)
      then Raise ValueError
      else Ok (if neg then - n else n)
  | None => Raise ValueError
  end.

(* ================================================================== *)
(** * CSV loader *)
(* ================================================================== *)

(** A loaded record: [(raw_quote_with_carets, work, author, tag)]. *)
Definition quote : Type := (str * str * str * str)%type.

(** The mapping ['HH:MM' -> [records]]: a Python dict keeps its keys in
    insertion order, which [pick_for_time] observes through [iter]. *)
Definition dict : Type := list (str * list quote).

(** [d.get(k)] *)
Fixpoint dict_get (d : dict) (k : str) : option (list quote) :=
  match d with
  | [] => None
  | (k', v) :: d' => if str_eqb k' k then Some v else dict_get d' k
  end.

(** [d.setdefault(k, []).append(q)] *)
Fixpoint setdefault_append (d : dict) (k : str) (q : quote) : dict :=
  match d with
  | [] => [(k, [q])]
  | (k', v) :: d' =>
      if str_eqb k' k then (k', v ++ [q]) :: d'
      else (k', v) :: setdefault_append d' k q
  end.

Definition dict_keys (d : dict) : list str := map fst d.

(** The body of the [for raw in f] loop.  The mapping is only touched by
    the last statement, so a raise leaves it as it was. *)
Definition load_line (mapping : dict) (raw : str) : result dict :=
  let raw := rstrip_chars raw [13%N; 10%N] in
  if (match raw with [] => true | _ => false end)
     || startswith_char raw (chr "#") then Ok mapping
  else
    let parts := split_max raw (chr "|") 4 in
    if len parts <? 5 then Ok mapping
    else
      match parts with
      | hhmm :: quote :: work :: author :: tag :: _ =>
          let hhmm := strip hhmm in
          let? hhmm :=
            (if (len hhmm =? 4) && char_at_is hhmm 1 (chr ":") then
               match split_on hhmm (chr ":") with
               | [h; m] =>
                   let? ih := py_int h in
                   let? im := py_int m in
                   Ok (fmt_02d ih ++ py ":" ++ fmt_02d im)
               | _ => Raise ValueError
               end
             else Ok hhmm) in
          if (len hhmm =? 5) && char_at_is hhmm 2 (chr ":") then
            Ok (setdefault_append mapping hhmm (quote, work, author, tag))
          else Ok mapping
      | _ => Raise IndexError
      end.

(** The [for] loop: the mapping built so far, and the exception that ended
    the loop, if any. *)
Fixpoint load_lines (lines : list str) (mapping : dict) : dict * option exn :=
  match lines with
  | [] => (mapping, None)
  | raw :: rest =>
      match load_line mapping raw with
      | Ok mapping' => load_lines rest mapping'
      | Raise e => (mapping, Some e)
      end
  end.

(** The files of the device: a path has no file ([open] raises OSError), or
    the lines that iterating over the open file yields, each with its
    line terminator. *)
Definition filesystem : Type := str -> option (list str).

Definition load_quotes_csv (fs : filesystem) (path : str) : result dict :=
  let '(mapping, exc) :=
    match fs path with
    | None => ([], Some OSError)
    | Some lines => load_lines lines []
    end in
  match exc with
  | None => Ok mapping
  | Some OSError => Ok mapping
  | Some e => Raise e
  end.

Definition fallback_quotes : dict :=
  [ (py "00:00",
     [(py "^Midnight^.", py "Fallback", py "System", py "unknown")]);
    (py "12:00",
     [(py "High ^noon^.", py "Fallback", py "System", py "unknown")]) ].

(** The module-level [QUOTES_BY_HHMM]: the loaded mapping, or the built-in
    one when the loaded mapping is empty. *)
Definition QUOTES_BY_HHMM (fs : filesystem) : result dict :=
  let? loaded := load_quotes_csv fs CSV_PATH in
  Ok (match loaded with [] => fallback_quotes | _ => loaded end).

(* ================================================================== *)
(** * Text layout helpers *)
(* ================================================================== *)

Definition caret : char := chr "^".

(** Return (pre, mid, post) where mid is the highlighted span, or
    (text, None, "") if none. *)
Definition split_caret_span (text : str) : str * option str * str :=
  let a := find text caret in
  if a =? -1 then (text, None, [])
  else
    let b := find_from text caret (a + 1) in
    if b =? -1 then (remove_char caret text, None, [])
    else
      (remove_char caret (slice_to text a),
       Some (remove_char caret (slice text (a + 1) b)),
       remove_char caret (slice_from text (b + 1))).


(** A placed label: its text and its anchored position.  The quote labels
    are anchored at their top-left corner, the two footer labels at their
    bottom-left corner; all are black on white. *)
Record Label : Type := mkLabel {
  lab_text : str;
  lab_x : Z;
  lab_y : Z
}.

(** A word of the quote, and whether it is drawn twice (faux bold). *)
Definition token : Type := (str * bool)%type.

Definition nonempty {A : Type} (l : list A) : bool :=
  match l with
  | [] => false
  | _ :: _ => true
  end.

(** The token list built at the top of [layout_quote_into_group]. *)
Definition quote_tokens (quote_text : str) : list token :=
  let '(pre, mid, post) := split_caret_span quote_text in
  (if nonempty pre then map (fun w => (w, false)) (split_ws pre) else [])
  ++ (match mid with Some m => [(m, true)] | None => [] end)
  ++ (if nonempty post then map (fun w => (w, false)) (split_ws post) else []).

Section Layout.

(** [label.Label(font, text=t).bounding_box[2:4]]: the pixel width and
    height of a text in the terminal font. *)
Variable measure : str -> Z * Z.
(** [display.width] *)
Variable display_width : Z.

(** The [for txt, bold in line] loop of [flush_line]: one label per token
    at [(x, y)], a second one at [(x+1, y)] for a bold token, [x] advanced
    by the token's width and a space. *)
Fixpoint place_line (space_w : Z) (x y : Z) (line : list token) : list Label :=
  match line with
  | [] => []
  | (txt, bold) :: rest =>
      (mkLabel txt x y :: (if bold then [mkLabel txt (x + 1) y] else []))
      ++ place_line space_w (x + fst (measure txt) + space_w) y rest
  end.

(** [flush_line()], on the labels appended so far: whether the line was
    placed, and the labels afterwards.  ([x] is reset to [MARGIN] on entry
    and read nowhere else; [line] is cleared on both exits.) *)
Definition flush_line (space_w line_h : Z) (y_max : option Z) (y : Z)
  (line : list token) (qgroup : list Label) : bool * list Label :=
  if (match y_max with
      | Some ym => y + line_h >? ym
      | None => false
      end)
  then (false, qgroup)
  else (true, qgroup ++ place_line space_w MARGIN y line).

(** The [for txt, bold in tokens] loop and the final flush, from the state
    [(y, line, line_w)] and the labels appended so far. *)
Fixpoint layout_loop (space_w line_h : Z) (y_max : option Z)
  (tokens : list token) (y : Z) (line : list token) (line_w : Z)
  (qgroup : list Label) : list Label :=
  match tokens with
  | [] =>
      if nonempty line
      then snd (flush_line space_w line_h y_max y line qgroup)
      else qgroup
  | (txt, bold) :: rest =>
      let w := fst (measure txt) in
      let next_w := if nonempty line then line_w + space_w + w else w in
      if nonempty line && (MARGIN + next_w + MARGIN >? display_width) then
        match flush_line space_w line_h y_max y line qgroup with
        | (false, qgroup') => qgroup'
        | (true, qgroup') =>
            layout_loop space_w line_h y_max rest (y + (line_h + 2))
              [(txt, bold)] w qgroup'
        end
      else
        layout_loop space_w line_h y_max rest y (line ++ [(txt, bold)])
          next_w qgroup
  end.

(** The labels of the group after the call (the group is emptied first). *)
Definition layout_quote_into_group (quote_text : str) (y_start : Z)
  (y_max : option Z) : list Label :=
  let tokens := quote_tokens quote_text in
  let '(space_w, line_h) := measure (py " ") in
  layout_loop space_w line_h y_max tokens y_start [] 0 [].

End Layout.

(** [fmt_time(h, m)] *)
Definition fmt_time (h m : Z) : str :=
  if TIME_24H then fmt_02d h ++ py ":" ++ fmt_02d m
  else
    let suf := if h <? 12 then py "AM" else py "PM" in
    let hh := h mod 12 in
    let hh := if hh =? 0 then 12 else hh in
    fmt_d hh ++ py ":" ++ fmt_02d m ++ py " " ++ suf.

(** The replacement table of [sanitize_ascii]: dashes, ellipsis, curly
    quotes, bullets, non-breaking space. *)
Definition repl (ch : char) : option str :=
  if (ch =? 8212)%N then Some (py "-")
  else if (ch =? 8211)%N then Some (py "-")
  else if (ch =? 8230)%N then Some (py "...")
  else if (ch =? 8220)%N then Some [34%N]
  else if (ch =? 8221)%N then Some [34%N]
  else if (ch =? 8216)%N then Some (py "'")
  else if (ch =? 8217)%N then Some (py "'")
  else if (ch =? 8226)%N then Some (py "*")
  else if (ch =? 183)%N then Some (py "*")
  else if (ch =? 160)%N then Some (py " ")
  else None.

(** Replace unsupported Unicode so tiny fonts do not crash. *)
Definition sanitize_ascii (s : str) : str :=
  if negb (nonempty s) then s
  else
    flat_map
      (fun ch =>
         match repl ch with
         | Some r => r
         | None => if (ch <? 128)%N then [ch] else py "?"
         end)
      s.

(* ================================================================== *)
(** * Quote selection *)
(* ================================================================== *)

(** [not lst] for the result of [dict.get]: [None] or an empty list. *)
Definition falsy (lst : option (list quote)) : bool :=
  match lst with
  | Some (_ :: _) => false
  | _ => true
  end.

(** [pick_for_time(h, m)], reading the global mapping [Q]. *)
Definition pick_for_time (Q : dict) (h m : Z) : result quote :=
  let key := fmt_02d h ++ py ":" ++ fmt_02d m in
  let lst := dict_get Q key in
  let lst :=
    if falsy lst then
      let bucket_m := (m / UPDATE_MINUTES) * UPDATE_MINUTES in
      dict_get Q (fmt_02d h ++ py ":" ++ fmt_02d bucket_m)
    else lst in
  let? lst :=
    (if falsy lst then
       match dict_keys Q with
       | [] => Raise StopIteration
       | any_key :: _ =>
           match dict_get Q any_key with
           | Some l => Ok l
           | None => Raise KeyError
           end
       end
     else
       match lst with
       | Some l => Ok l
       | None => Ok []
       end) in
  if len lst =? 0 then Raise ZeroDivisionError
  else
    let idx := h mod len lst in
    match get_item lst idx with
    | Some q => Ok q
    | None => Raise IndexError
    end.


(* ================================================================== *)
(** * Device state and the monad of the stateful routines *)
(* ================================================================== *)

(** [time.struct_time] *)
Record struct_time : Type := mkTime {
  tm_year : Z;
  tm_mon : Z;
  tm_mday : Z;
  tm_hour : Z;
  tm_min : Z;
  tm_sec : Z;
  tm_wday : Z;
  tm_yday : Z;
  tm_isdst : Z
}.

(** [SET_NONE, SET_H, SET_M, SET_SAVE = range(4)] *)
Inductive mode : Type := SET_NONE | SET_H | SET_M | SET_SAVE.

(** What the script asks of the hardware, in order: a panel refresh (and
    whether it went through), a sleep. *)
Inductive event : Type :=
| EvRefresh (done : bool)
| EvSleep (seconds : float).

(** The module globals, the RTC register, the display groups, and the
    history of the calls made to the hardware. *)
Record State : Type := mkState {
  rtc_datetime : struct_time;
  last_refresh : float;
  last_bucket : option Z;
  quote_group : list Label;
  time_label : Label;
  meta_label : Label;
  set_mode : mode;
  edit_h : Z;
  edit_m : Z;
  n_monotonic : nat;
  n_refresh : nat;
  trace : list event
}.

Definition with_rtc (v : struct_time) (s : State) : State :=
  mkState v (last_refresh s) (last_bucket s) (quote_group s) (time_label s)
    (meta_label s) (set_mode s) (edit_h s) (edit_m s) (n_monotonic s)
    (n_refresh s) (trace s).

Definition with_last_refresh (v : float) (s : State) : State :=
  mkState (rtc_datetime s) v (last_bucket s) (quote_group s) (time_label s)
    (meta_label s) (set_mode s) (edit_h s) (edit_m s) (n_monotonic s)
    (n_refresh s) (trace s).

Definition with_last_bucket (v : option Z) (s : State) : State :=
  mkState (rtc_datetime s) (last_refresh s) v (quote_group s) (time_label s)
    (meta_label s) (set_mode s) (edit_h s) (edit_m s) (n_monotonic s)
    (n_refresh s) (trace s).

Definition with_quote_group (v : list Label) (s : State) : State :=
  mkState (rtc_datetime s) (last_refresh s) (last_bucket s) v (time_label s)
    (meta_label s) (set_mode s) (edit_h s) (edit_m s) (n_monotonic s)
    (n_refresh s) (trace s).

Definition with_time_label (v : Label) (s : State) : State :=
  mkState (rtc_datetime s) (last_refresh s) (last_bucket s) (quote_group s) v
    (meta_label s) (set_mode s) (edit_h s) (edit_m s) (n_monotonic s)
    (n_refresh s) (trace s).

Definition with_meta_label (v : Label) (s : State) : State :=
  mkState (rtc_datetime s) (last_refresh s) (last_bucket s) (quote_group s)
    (time_label s) v (set_mode s) (edit_h s) (edit_m s) (n_monotonic s)
    (n_refresh s) (trace s).

Definition with_set_mode (v : mode) (s : State) : State :=
  mkState (rtc_datetime s) (last_refresh s) (last_bucket s) (quote_group s)
    (time_label s) (meta_label s) v (edit_h s) (edit_m s) (n_monotonic s)
    (n_refresh s) (trace s).

Definition with_edit (h m : Z) (s : State) : State :=
  mkState (rtc_datetime s) (last_refresh s) (last_bucket s) (quote_group s)
    (time_label s) (meta_label s) (set_mode s) h m (n_monotonic s)
    (n_refresh s) (trace s).

Definition with_hardware (nm nr : nat) (tr : list event) (s : State) : State :=
  mkState (rtc_datetime s) (last_refresh s) (last_bucket s) (quote_group s)
    (time_label s) (meta_label s) (set_mode s) (edit_h s) (edit_m s) nm nr tr.

(** A routine: from a state, an outcome and the state it leaves (a raise
    keeps the assignments made before it). *)
Definition M (A : Type) : Type := State -> result A * State.

Definition ret {A : Type} (a : A) : M A := fun s => (Ok a, s).

Definition bind {A B : Type} (c : M A) (k : A -> M B) : M B :=
  fun s =>
    match c s with
    | (Ok a, s') => k a s'
    | (Raise e, s') => (Raise e, s')
    end.

Definition raise {A : Type} (e : exn) : M A := fun s => (Raise e, s).

(** A pure call that may raise. *)
Definition lift {A : Type} (r : result A) : M A := fun s => (r, s).

Definition gets {A : Type} (f : State -> A) : M A := fun s => (Ok (f s), s).

Definition modify (f : State -> State) : M unit := fun s => (Ok tt, f s).

(** [try: body / except e: handler] *)
Definition try_except (body : M unit) (e : exn) (handler : M unit) : M unit :=
  fun s =>
    match body s with
    | (Raise e', s') => if exn_eqb e' e then handler s' else (Raise e', s')
    | r => r
    end.

Declare Scope monad_scope.
Delimit Scope monad_scope with monad.
Notation "x <- c ;; k" := (bind c (fun x => k))
  (at level 61, c at next level, right associativity) : monad_scope.
Notation "c ;; k" := (bind c (fun _ => k))
  (at level 61, right associativity) : monad_scope.
Local Open Scope monad_scope.

(* ------------- RTC helpers ------------- *)

Definition get_now : M struct_time := gets rtc_datetime.

(** [set_now(year, month, mday, hour, minute, second=0, wday=-1, yday=-1,
    isdst=-1)]; the callers below pass the defaults. *)
Definition set_now (year month mday hour minute second wday yday isdst : Z)
  : M unit :=
  modify (with_rtc (mkTime year month mday hour minute second wday yday isdst)).

Definition ensure_default_time_if_unset : M unit :=
  now <- get_now ;;
  if tm_year now <? 2023 then set_now 2025 1 1 12 0 0 (-1) (-1) (-1)
  else ret tt.

(* ------------- Safe refresh ------------- *)

Definition MIN_REFRESH_GAP : float := 0.5%float.

Section Device.

(** The font metrics and the panel size. *)
Variable measure : str -> Z * Z.
Variable display_width : Z.
Variable display_height : Z.
(** [monotonic k]: what the [k]-th call of [time.monotonic()] returns. *)
Variable monotonic : nat -> float.
(** [refresh_busy k]: whether the [k]-th call of [display.refresh()] raises
    RuntimeError (refresh too soon) instead of refreshing. *)
Variable refresh_busy : nat -> bool.
(** The global [QUOTES_BY_HHMM], assigned once when the module is loaded. *)
Variable quotes_by_hhmm : dict.

Definition time_monotonic : M float :=
  fun s =>
    (Ok (monotonic (n_monotonic s)),
     with_hardware (S (n_monotonic s)) (n_refresh s) (trace s) s).

Definition time_sleep (seconds : float) : M unit :=
  modify (fun s =>
    with_hardware (n_monotonic s) (n_refresh s)
      (trace s ++ [EvSleep seconds]) s).

Definition display_refresh : M unit :=
  fun s =>
    let busy := refresh_busy (n_refresh s) in
    ((if busy then Raise RuntimeError else Ok tt),
     with_hardware (n_monotonic s) (S (n_refresh s))
       (trace s ++ [EvRefresh (negb busy)]) s).

Definition safe_refresh : M unit :=
  nowm <- time_monotonic ;;
  last <- gets last_refresh ;;
  if PrimFloat.ltb (PrimFloat.sub nowm last) MIN_REFRESH_GAP then ret tt
  else
    try_except
      (display_refresh ;;
       modify (with_last_refresh nowm))
      RuntimeError
      (time_sleep 0.5%float ;;
       try_except
         (display_refresh ;;
          t <- time_monotonic ;;
          modify (with_last_refresh t))
         RuntimeError
         (ret tt)).

(* ------------- Render ------------- *)

Definition is_none {A : Type} (o : option A) : bool :=
  match o with
  | None => true
  | Some _ => false
  end.

(** [bucket == _last_bucket] *)
Definition bucket_eqb (bucket : Z) (last : option Z) : bool :=
  match last with
  | Some b => bucket =? b
  | None => false
  end.

Definition set_text (t : str) (l : Label) : Label :=
  mkLabel t (lab_x l) (lab_y l).

Definition set_anchored_position (x y : Z) (l : Label) : Label :=
  mkLabel (lab_text l) x y.

Definition render (force : bool) (live_preview_time : option (Z * Z))
  : M unit :=
  now <- get_now ;;
  let '(h, m) :=
    match live_preview_time with
    | Some hm => hm
    | None => (tm_hour now, tm_min now)
    end in
  let bucket := (m / UPDATE_MINUTES) * UPDATE_MINUTES in
  last <- gets last_bucket ;;
  if negb force && is_none live_preview_time && bucket_eqb bucket last
  then ret tt
  else
    q <- lift (pick_for_time quotes_by_hhmm h m) ;;
    let '(quote_text, work, author, tag) := q in
    (* 1) bottom-left meta *)
    let meta_text := sanitize_ascii (work ++ py " - " ++ author) in
    modify (fun s => with_meta_label (set_text meta_text (meta_label s)) s) ;;
    let meta_y := display_height - MARGIN in
    modify (fun s =>
      with_meta_label (set_anchored_position MARGIN meta_y (meta_label s)) s) ;;
    let meta_h := snd (measure meta_text) in
    (* 2) time directly above meta *)
    let time_text := sanitize_ascii (py "Time: " ++ fmt_time h m) in
    modify (fun s => with_time_label (set_text time_text (time_label s)) s) ;;
    let time_y := meta_y - meta_h - 4 in
    modify (fun s =>
      with_time_label (set_anchored_position MARGIN time_y (time_label s)) s) ;;
    (* 3) quote from the top down, leaving space above the time *)
    let quote_top := MARGIN in
    let quote_bottom_limit := time_y - 8 in
    modify (with_quote_group
      (layout_quote_into_group measure display_width quote_text quote_top
         (Some quote_bottom_limit))) ;;
    safe_refresh ;;
    if is_none live_preview_time
    then modify (with_last_bucket (Some bucket))
    else ret tt.

(* ------------- Set-time UI ------------- *)

Definition enter_set : M unit :=
  now <- get_now ;;
  modify (with_edit (tm_hour now) (tm_min now)) ;;
  modify (with_set_mode SET_H) ;;
  modify (fun s =>
    with_meta_label
      (set_text (py "Set H  (A next  B+  C-  D save)") (meta_label s)) s).

Definition cycle_field : M unit :=
  md <- gets set_mode ;;
  match md with
  | SET_H =>
      modify (with_set_mode SET_M) ;;
      modify (fun s =>
        with_meta_label
          (set_text (py "Set M  (A next  B+  C-  D save)") (meta_label s)) s)
  | SET_M =>
      modify (with_set_mode SET_SAVE) ;;
      modify (fun s =>
        with_meta_label
          (set_text (py "Press D to Save (A cycles)") (meta_label s)) s)
  | SET_SAVE =>
      modify (with_set_mode SET_H) ;;
      modify (fun s =>
        with_meta_label
          (set_text (py "Set H  (A next  B+  C-  D save)") (meta_label s)) s)
  | SET_NONE => ret tt
  end.

Definition commit_time : M unit :=
  now <- get_now ;;
  eh <- gets edit_h ;;
  em <- gets edit_m ;;
  set_now (tm_year now) (tm_mon now) (tm_mday now) eh em 0 (-1) (-1) (-1) ;;
  modify (with_set_mode SET_NONE) ;;
  modify (fun s => with_meta_label (set_text (py "") (meta_label s)) s) ;;
  render true None.

End Device.


(* ================================================================== *)
(** * Module start-up and main loop *)
(* ================================================================== *)

(** [measure_token(wtxt)]: the width and height of a throw-away label, as
    the font gives them. *)
Definition measure_token (measure : str -> Z * Z) (wtxt : str) : Z * Z :=
  let bb := measure wtxt in
  (fst bb, snd bb).

(** An event of [keys.events]: which of the four buttons, and whether it
    went down or up. *)
Record key_event : Type := mkEvent {
  key_number : Z;
  pressed : bool
}.

Section MainLoop.

Variable measure : str -> Z * Z.
Variable display_width : Z.
Variable display_height : Z.
Variable monotonic : nat -> float.
Variable refresh_busy : nat -> bool.

(** What the module does when it is loaded, up to the first paint: the
    default time, the mapping (read from the file system [fs]), and
    [render(force=True)]. *)
Definition module_init (fs : filesystem) : M dict :=
  ensure_default_time_if_unset ;;
  Q <- lift (QUOTES_BY_HHMM fs) ;;
  render measure display_width display_height monotonic refresh_busy Q
    true None ;;
  ret Q.

(** The global [QUOTES_BY_HHMM], as [module_init] left it. *)
Variable quotes_by_hhmm : dict.

(** The statements under [if evt and evt.pressed:] when a set mode is on. *)
Definition edit_key (key : Z) : M unit :=
  (if key =? 0 then cycle_field
   else if key =? 1 then
     md <- gets set_mode ;;
     match md with
     | SET_H => modify (fun s => with_edit ((edit_h s + 1) mod 24) (edit_m s) s)
     | SET_M => modify (fun s => with_edit (edit_h s) ((edit_m s + 1) mod 60) s)
     | _ => ret tt
     end
   else if key =? 2 then
     md <- gets set_mode ;;
     match md with
     | SET_H => modify (fun s => with_edit ((edit_h s - 1) mod 24) (edit_m s) s)
     | SET_M => modify (fun s => with_edit (edit_h s) ((edit_m s - 1) mod 60) s)
     | _ => ret tt
     end
   else if key =? 3 then
     commit_time measure display_width display_height monotonic refresh_busy
       quotes_by_hhmm
   else ret tt) ;;
  (* live preview while editing *)
  md <- gets set_mode ;;
  match md with
  | SET_H | SET_M =>
      eh <- gets edit_h ;;
      em <- gets edit_m ;;
      render measure display_width display_height monotonic refresh_busy
        quotes_by_hhmm false (Some (eh, em))
  | _ => ret tt
  end.

(** One turn of [while True:], given what [keys.events.get()] returned and
    the global [last_minute_seen]; the result is [last_minute_seen] after
    the turn. *)
Definition loop_body (evt : option key_event) (last_minute_seen : Z) : M Z :=
  (match evt with
   | Some e =>
       if pressed e then
         md <- gets set_mode ;;
         match md with
         | SET_NONE => if key_number e =? 0 then enter_set else ret tt
         | _ => edit_key (key_number e)
         end
       else ret tt
   | None => ret tt
   end) ;;
  now <- get_now ;;
  md <- gets set_mode ;;
  seen <-
    (match md with
     | SET_NONE =>
         if negb (tm_min now =? last_minute_seen) then
           render measure display_width display_height monotonic
             refresh_busy quotes_by_hhmm false None ;;
           ret (tm_min now)
         else ret last_minute_seen
     | _ => ret last_minute_seen
     end) ;;
  time_sleep 0x1.999999999999ap-4%float ;;   (* time.sleep(0.1) *)
  ret seen.

End MainLoop.

(* ================================================================== *)
(** * Definitions used to state the properties *)
(* ================================================================== *)

(** How many times a character occurs in a string. *)
Definition count_char (c : char) (s : str) : nat :=
  List.length (filter (fun x => char_eqb x c) s).

(** The text of a record. *)
Definition quote_text (q : quote) : str :=
  let '(text, _, _, _) := q in text.

(** Every key of the mapping has at least one record. *)
Definition nonempty_lists (Q : dict) : Prop :=
  Forall (fun kv => snd kv <> []) Q.

(** The shape that [load_line] checks before it stores under a key: five
    characters, the third a colon. *)
Definition key_shape (k : str) : Prop :=
  len k = 5 /\ get_item k 2 = Some (chr ":").

Definition is_digit (c : char) : bool := ((48 <=? c) && (c <=? 57))%N.

(** A zero-padded [HH:MM] key of a valid 24-hour time: two digits at most
    23, a colon, two digits at most 59. *)
Definition valid_time_key (k : str) : bool :=
  match k with
  | [h1; h2; c; m1; m2] =>
      is_digit h1 && is_digit h2 && char_eqb c (chr ":")
      && is_digit m1 && is_digit m2
      && (10 * (h1 - 48) + (h2 - 48) <=? 23)%N
      && (10 * (m1 - 48) + (m2 - 48) <=? 59)%N
  | _ => false
  end.

(** A line that, loaded on its own, neither raises nor stores a record
    under [key]. *)
Definition other_time (key : str) (raw : str) : bool :=
  match load_line [] raw with
  | Ok d => is_none (dict_get d key)
  | Raise _ => false
  end.

(** A string of printable range: every code point below 128. *)
Definition is_ascii (s : str) : Prop := Forall (fun c => (c < 128)%N) s.

(** The labels of a line, text by text: one strike for a plain token, two
    for a bold one. *)
Definition strikes (line : list token) : list str :=
  flat_map (fun tk : token => if snd tk then [fst tk; fst tk] else [fst tk])
    line.

(** The integers [0 .. n-1]. *)
Definition upto (n : nat) : list Z := map Z.of_nat (seq 0 n).

(** The line of a record in the dataset: five fields with a pipe between
    them. *)
Definition record_line (time quote work author tag : str) : str :=
  time ++ chr "|" :: quote ++ chr "|" :: work ++ chr "|" :: author
  ++ chr "|" :: tag.

(** The characters of [rstrip("\r\n")]. *)
Definition is_eol (c : char) : bool := char_in c [13%N; 10%N].

(** The value of [hhmm] after the [if len(hhmm) == 4 ...] block of the
    loader, from its value before (see [load_line_fields]). *)
Definition normalized_time (hhmm : str) : result str :=
  if (len hhmm =? 4) && char_at_is hhmm 1 (chr ":") then
    match split_on hhmm (chr ":") with
    | [h; m] =>
        let? ih := py_int h in
        let? im := py_int m in
        Ok (fmt_02d ih ++ py ":" ++ fmt_02d im)
    | _ => Raise ValueError
    end
  else Ok hhmm.

(** [fmt_time(h, m)] is a valid key and reads back as [h] and [m]. *)
Definition time_reads_back (h m : Z) : bool :=
  valid_time_key (fmt_time h m)
  && match split_on (fmt_time h m) (chr ":") with
     | [a; b] =>
         match py_int a, py_int b with
         | Ok x, Ok y => (x =? h) && (y =? m)
         | _, _ => false
         end
     | _ => false
     end.

(** A time written [H:MM] is normalised to the zero-padded key. *)
Definition short_time_normalizes (h m : Z) : bool :=
  match normalized_time (fmt_d h ++ py ":" ++ fmt_02d m) with
  | Ok k => str_eqb k (fmt_02d h ++ py ":" ++ fmt_02d m)
  | Raise _ => false
  end.

(** The key of a time of day is of the shape the loader stores, has no
    pipe, no surrounding whitespace, and does not start a comment. *)
Definition time_key_plain (h m : Z) : bool :=
  let k := fmt_02d h ++ py ":" ++ fmt_02d m in
  (len k =? 5) && char_at_is k 2 (chr ":")
  && negb (char_in (chr "|") k)
  && str_eqb (strip k) k
  && negb (startswith_char k (chr "#")).

(** The width of a line of tokens: the widths of its tokens with one space
    between neighbours. *)
Fixpoint line_width (measure : str -> Z * Z) (space_w : Z)
  (line : list token) : Z :=
  match line with
  | [] => 0
  | tk :: rest =>
      match rest with
      | [] => fst (measure (fst tk))
      | _ => fst (measure (fst tk)) + space_w + line_width measure space_w rest
      end
  end.

(** The labels of lines placed one under the other from the left margin:
    the first line at [y], each next one [line_h + 2] pixels lower. *)
Fixpoint place_rows (measure : str -> Z * Z) (space_w line_h y : Z)
  (rows : list (list token)) : list Label :=
  match rows with
  | [] => []
  | row :: rest =>
      place_line measure space_w MARGIN y row
      ++ place_rows measure space_w line_h (y + (line_h + 2)) rest
  end.

(** A line as word wrap leaves it: a single token, or tokens whose widths,
    with one space between neighbours, fit between the two margins. *)
Definition row_fits (measure : str -> Z * Z) (display_width space_w : Z)
  (row : list token) : Prop :=
  List.length row = 1%nat \/
  MARGIN + line_width measure space_w row + MARGIN <= display_width.

(** Lines filled greedily: the first token of a line would not have fitted
    at the end of the line before it. *)
Fixpoint filled_greedily (measure : str -> Z * Z) (display_width space_w : Z)
  (rows : list (list token)) : Prop :=
  match rows with
  | [] => True
  | row :: rest =>
      match rest with
      | (tk :: _) :: _ =>
          MARGIN
          + (line_width measure space_w row + space_w + fst (measure (fst tk)))
          + MARGIN > display_width
      | _ => True
      end
      /\ filled_greedily measure display_width space_w rest
  end.

(** Hours and minutes of the clock and of the set-time fields are those of
    a time of day. *)
Definition times_in_range (s : State) : Prop :=
  0 <= tm_hour (rtc_datetime s) <= 23 /\ 0 <= tm_min (rtc_datetime s) <= 59 /\
  0 <= edit_h s <= 23 /\ 0 <= edit_m s <= 59.

(** The two footer labels hold only characters below 128. *)
Definition footer_is_ascii (s : State) : Prop :=
  is_ascii (lab_text (meta_label s)) /\ is_ascii (lab_text (time_label s)).

(** The records that the lines of a file, each loaded on its own, give for
    the key [k], in file order. *)
Definition records_for (k : str) (lines : list str) : list quote :=
  flat_map
    (fun raw =>
       match load_line [] raw with
       | Ok d => match dict_get d k with Some l => l | None => [] end
       | Raise _ => []
       end)
    lines.

(** A line that can be loaded on its own without a raise. *)
Definition loads_alone (raw : str) : bool :=
  match load_line [] raw with
  | Ok _ => true
  | Raise _ => false
  end.

(* ================================================================== *)
(** * Sample inputs *)
(* ================================================================== *)

Definition LF : str := [10%N].
Definition CRLF : str := [13%N; 10%N].

(** A device whose only file is [/quotes.csv], with the given lines. *)
Definition quotes_file (lines : list str) : filesystem :=
  fun path => if str_eqb path CSV_PATH then Some lines else None.

(** A dataset whose only record gives its time as four digits. *)
Definition fs_hhmm : filesystem :=
  quotes_file [py "0900|Hello ^world^.|Book|Author|tag"].

(** A dataset with a time field that is not a number. *)
Definition fs_bad_time : filesystem :=
  quotes_file
    [ py "12:00|High ^noon^.|Book|Author|tag" ++ LF;
      py "a:1x|Broken|Book|Author|tag" ++ LF;
      py "13:00|One ^o'clock^.|Book|Author|tag" ++ LF ].

(** A dataset with malformed lines of the kinds the loader guards against:
    too few fields, and time fields of the wrong shape. *)
Definition fs_skipped : filesystem :=
  quotes_file
    [ py "12:00|only|four|fields" ++ LF;
      py "noon|High ^noon^.|Book|Author|tag" ++ LF;
      py "1200|High ^noon^.|Book|Author|tag" ++ LF;
      py "13:00|One ^o'clock^.|Book|Author|tag" ++ LF ].

(** A dataset with a time field of the checked shape that is no time. *)
Definition fs_no_time : filesystem :=
  quotes_file [py "99:99|Never.|Book|Author|tag" ++ LF].

(** A small well-formed dataset. *)
Definition fs_sample : filesystem :=
  quotes_file
    [ py "# time|quote|work|author|tag" ++ LF;
      LF;
      py "12:00|High ^noon^.|Book|Author|tag" ++ LF;
      py "9:00|Hello ^world^.|Book|Author|tag" ++ LF;
      py "no fields here" ++ LF;
      py "12:00|Midday ^again^|Other|Writer|tag" ++ LF;
      py "17:45|A ^quarter to six^ it was.|Third|Someone|tag" ].

(** The mapping the script ends up with on the sample dataset. *)
Definition sample_quotes : dict :=
  match QUOTES_BY_HHMM fs_sample with
  | Ok Q => Q
  | Raise _ => []
  end.

(** A mapping whose only quote takes more lines than the panel has room
    for. *)
Definition crowded_quotes : dict :=
  [ (py "17:45",
     [ (py "It was ^a quarter to six^ when the train at last pulled in, "
        ++ py "and nobody on the platform could say how long they had been "
        ++ py "waiting there, or why the station clock had stopped, or "
        ++ py "whether the evening paper would come at all that day.",
        py "Book", py "Author", py "tag") ]) ].

(** A fixed-width font: six pixels a character, fourteen pixels high. *)
Definition fixed_font (t : str) : Z * Z := (6 * len t, 14).

(** The clock at 17:47 on the first of March 2025. *)
Definition sample_now : struct_time := mkTime 2025 3 1 17 47 30 5 60 (-1).

(** The device after a render in the 17:45 bucket, with an edited time of
    08:15 waiting to be saved. *)
Definition sample_state : State :=
  mkState sample_now 0%float (Some 45) [] (mkLabel [] 0 0) (mkLabel [] 0 0)
    SET_SAVE 8 15 O O [].

(** A monotonic clock read at 10.0 s, then 10.75 s, then 11.5 s. *)
Definition sample_monotonic (k : nat) : float :=
  match k with
  | O => 10%float
  | S O => 10.75%float
  | _ => 11.5%float
  end.

(** A panel that is busy at every refresh. *)
Definition always_busy (k : nat) : bool := true.

(* ================================================================== *)
(** * Strings: basic facts *)
(* ================================================================== *)

Lemma char_eqb_eq (a b : char) : char_eqb a b = true <-> a = b.
Proof. unfold char_eqb. apply N.eqb_eq. Qed.

Lemma char_eqb_refl (a : char) : char_eqb a a = true.
Proof. apply char_eqb_eq. reflexivity. Qed.

Lemma char_eqb_neq (a b : char) : char_eqb a b = false <-> a <> b.
Proof. unfold char_eqb. apply N.eqb_neq. Qed.

Lemma str_eqb_eq (a b : str) : str_eqb a b = true <-> a = b.
Proof.
  revert b. induction a as [|x a IH]; intros [|y b]; simpl; split;
    try congruence; try reflexivity.
  - intros H. apply andb_true_iff in H as [Hx Hr].
    apply char_eqb_eq in Hx. apply IH in Hr. congruence.
  - intros H. injection H as -> ->. rewrite char_eqb_refl. simpl.
    apply IH. reflexivity.
Qed.

Lemma str_eqb_refl (a : str) : str_eqb a a = true.
Proof. apply str_eqb_eq. reflexivity. Qed.

(** [int] at its edges: signs and single underscores are read, the
    whitespace around the number is dropped, but not the separators
    U+001C..U+001F that [str.strip] drops; decimal digits of other scripts
    count (here ARABIC-INDIC DIGIT FIVE and FULLWIDTH DIGIT SEVEN). *)
Example py_int_edges :
  py_int (py " 09 ") = Ok 9 /\ py_int (py "+7") = Ok 7 /\
  py_int (py "-0") = Ok 0 /\ py_int (py "1_0") = Ok 10 /\
  py_int (py "1__0") = Raise ValueError /\
  py_int (py "_1") = Raise ValueError /\
  py_int (py "") = Raise ValueError /\
  py_int (py "- 1") = Raise ValueError /\
  py_int [160%N; 53%N; 8195%N] = Ok 5 /\
  py_int [28%N; 53%N] = Raise ValueError /\
  strip [28%N; 53%N] = py "5" /\
  py_int [1637%N; 65303%N] = Ok 57.
Proof. vm_compute. repeat split. Qed.

Lemma count_char_app (c : char) (a b : str) :
  count_char c (a ++ b) = (count_char c a + count_char c b)%nat.
Proof. unfold count_char. rewrite filter_app, length_app. reflexivity. Qed.

Lemma count_char_cons_same (c : char) (s : str) :
  count_char c (c :: s) = S (count_char c s).
Proof. unfold count_char. simpl. rewrite char_eqb_refl. reflexivity. Qed.

Lemma count_char_zero (c : char) (s : str) :
  count_char c s = O <-> ~ In c s.
Proof.
  unfold count_char. induction s as [|x s IH]; simpl.
  - tauto.
  - destruct (char_eqb x c) eqn:E; simpl.
    + apply char_eqb_eq in E. split; [discriminate | intros H; exfalso; auto].
    + apply char_eqb_neq in E. rewrite IH. tauto.
Qed.

Lemma remove_char_absent (c : char) (s : str) :
  ~ In c s -> remove_char c s = s.
Proof.
  unfold remove_char. induction s as [|x s IH]; simpl; intros H.
  - reflexivity.
  - destruct (char_eqb x c) eqn:E; simpl.
    + apply char_eqb_eq in E. exfalso. auto.
    + f_equal. apply IH. tauto.
Qed.

Lemma remove_char_clean (c : char) (s : str) : ~ In c (remove_char c s).
Proof.
  unfold remove_char. intros H. apply filter_In in H as [_ H].
  rewrite char_eqb_refl in H. discriminate.
Qed.

(** [find] either misses ([-1], no occurrence) or returns the length of the
    occurrence-free prefix before the first occurrence. *)
Lemma find_at_spec (c : char) (s : str) (pos : Z) :
  0 <= pos ->
  (find_at c s pos = -1 /\ ~ In c s) \/
  (exists l r, s = l ++ c :: r /\ ~ In c l /\ find_at c s pos = pos + len l).
Proof.
  revert pos. induction s as [|x s IH]; intros pos Hpos; simpl.
  - left. tauto.
  - destruct (char_eqb x c) eqn:E.
    + apply char_eqb_eq in E. subst x. right. exists [], s.
      unfold len. simpl. repeat split; auto. lia.
    + apply char_eqb_neq in E.
      destruct (IH (pos + 1)) as [[H1 H2] | (l & r & H1 & H2 & H3)]; [lia | |].
      * left. split; [assumption | intros [H | H]; auto].
      * right. exists (x :: l), r. subst s. repeat split.
        -- intros [H | H]; auto.
        -- rewrite H3. unfold len. simpl List.length. lia.
Qed.

Lemma find_absent (c : char) (s : str) : ~ In c s -> find s c = -1.
Proof.
  intros H. unfold find.
  destruct (find_at_spec c s 0) as [[H1 _] | (l & r & H1 & _ & _)];
    [lia | auto |].
  subst s. exfalso. apply H. apply in_or_app. right. left. reflexivity.
Qed.

Lemma split_caret_span_clean (s : str) :
  ~ In caret s -> split_caret_span s = (s, None, []).
Proof.
  intros H. unfold split_caret_span. rewrite (find_absent _ _ H). reflexivity.
Qed.

Lemma skipn_app_cons {A : Type} (l : list A) (x : A) (r : list A) :
  skipn (S (List.length l)) (l ++ x :: r) = r.
Proof. induction l as [|y l IH]; simpl; auto. Qed.

Lemma firstn_app_exact {A : Type} (l r : list A) :
  firstn (List.length l) (l ++ r) = l.
Proof. induction l as [|y l IH]; simpl; [reflexivity | f_equal; exact IH]. Qed.

(** The three shapes of a text, by its number of carets, and what
    [split_caret_span] returns on each. *)
Lemma split_caret_span_shape (text : str) :
  (~ In caret text /\ split_caret_span text = (text, None, [])) \/
  (exists l r, text = l ++ caret :: r /\ ~ In caret l /\ ~ In caret r /\
     split_caret_span text = (remove_char caret text, None, [])) \/
  (exists l m r, text = l ++ caret :: m ++ caret :: r /\
     ~ In caret l /\ ~ In caret m /\
     split_caret_span text = (l, Some m, remove_char caret r)).
Proof.
  unfold split_caret_span, find.
  destruct (find_at_spec caret text 0) as [[H1 H2] | (l & r & H1 & H2 & H3)];
    [lia | |].
  - left. rewrite H1. simpl. tauto.
  - right. rewrite H3. simpl (0 + len l).
    assert (Hl : (len l =? -1) = false) by (apply Z.eqb_neq; unfold len; lia).
    rewrite Hl. unfold find_from, slice_from.
    assert (Hs : skipn (Z.to_nat (len l + 1)) text = r).
    { replace (Z.to_nat (len l + 1)) with (S (List.length l))
        by (unfold len; lia).
      rewrite H1. apply skipn_app_cons. }
    rewrite Hs.
    destruct (find_at_spec caret r (len l + 1))
      as [[G1 G2] | (m & r' & G1 & G2 & G3)]; [unfold len; lia | |].
    + left. rewrite G1. simpl. exists l, r. tauto.
    + right. rewrite G3.
      assert (Hb : (len l + 1 + len m =? -1) = false)
        by (apply Z.eqb_neq; unfold len; lia).
      rewrite Hb. exists l, m, r'. rewrite G1 in H1, Hs. repeat split; auto.
      assert (E1 : slice_to text (len l) = l).
      { unfold slice_to. rewrite H1.
        replace (Z.to_nat (len l)) with (List.length l) by (unfold len; lia).
        apply firstn_app_exact. }
      assert (E2 : slice text (len l + 1) (len l + 1 + len m) = m).
      { unfold slice. rewrite Hs.
        replace (Z.to_nat (len l + 1 + len m) - Z.to_nat (len l + 1))%nat
          with (List.length m) by (unfold len; lia).
        apply firstn_app_exact. }
      assert (E3 : skipn (Z.to_nat (len l + 1 + len m + 1)) text = r').
      { rewrite H1.
        replace (Z.to_nat (len l + 1 + len m + 1))
          with (S (List.length (l ++ caret :: m)))
          by (rewrite length_app; simpl; unfold len; lia).
        replace (l ++ caret :: m ++ caret :: r')
          with ((l ++ caret :: m) ++ caret :: r')
          by (rewrite <- app_assoc; reflexivity).
        apply skipn_app_cons. }
      rewrite E1, E2, E3.
      rewrite (remove_char_absent _ _ H2), (remove_char_absent _ _ G2).
      reflexivity.
Qed.

(** C5.  [split_caret_span] by the number of carets in the text: none, the
    text comes back as it is with no highlight; exactly one, the text without
    that caret and no highlight; two or more, the text before the first
    caret, the span between the first and the second caret, and the text
    after the second caret with its further carets removed, so that no
    segment holds a caret.  On ["before ^highlight^ after"] the result is
    [("before ", "highlight", " after")]. *)
Theorem split_caret_span_cases (text : str) :
  (count_char caret text = 0%nat ->
     split_caret_span text = (text, None, [])) /\
  (count_char caret text = 1%nat ->
     split_caret_span text = (remove_char caret text, None, [])) /\
  ((2 <= count_char caret text)%nat ->
     exists pre mid rest,
       text = pre ++ caret :: mid ++ caret :: rest /\
       count_char caret pre = 0%nat /\
       count_char caret mid = 0%nat /\
       count_char caret (remove_char caret rest) = 0%nat /\
       split_caret_span text = (pre, Some mid, remove_char caret rest)) /\
  split_caret_span (py "before ^highlight^ after")
    = (py "before ", Some (py "highlight"), py " after").
Proof.
  destruct (split_caret_span_shape text)
    as [[H E] | [(l & r & T & Hl & Hr & E) | (l & m & r & T & Hl & Hm & E)]].
  - apply count_char_zero in H. rewrite H, E.
    repeat split; try reflexivity; intros; try discriminate; lia.
  - assert (C : count_char caret text = 1%nat).
    { rewrite T, count_char_app, count_char_cons_same.
      apply count_char_zero in Hl, Hr. lia. }
    rewrite C, E. repeat split; try reflexivity; intros; try discriminate; lia.
  - assert (C : (2 <= count_char caret text)%nat).
    { rewrite T, count_char_app, count_char_cons_same, count_char_app,
        count_char_cons_same. lia. }
    repeat split; try reflexivity; try (intros; lia).
    intros _. exists l, m, r. repeat split; auto.
    + apply count_char_zero; assumption.
    + apply count_char_zero; assumption.
    + apply count_char_zero, remove_char_clean.
Qed.

Lemma split_caret_span_cases_witness :
  exists pre mid rest,
    py "a^b c^d^e" = pre ++ caret :: mid ++ caret :: rest /\
    count_char caret pre = 0%nat /\
    count_char caret mid = 0%nat /\
    count_char caret (remove_char caret rest) = 0%nat /\
    split_caret_span (py "a^b c^d^e") = (pre, Some mid, remove_char caret rest).
Proof.
  apply (proj1 (proj2 (proj2 (split_caret_span_cases (py "a^b c^d^e"))))).
  vm_compute. lia.
Defined.

(** The three segments returned by [split_caret_span] hold no caret. *)
Lemma split_caret_span_output_clean (text pre post : str) (mid : option str) :
  split_caret_span text = (pre, mid, post) ->
  ~ In caret pre /\ ~ In caret post /\
  (forall m, mid = Some m -> ~ In caret m).
Proof.
  intros H.
  destruct (split_caret_span_shape text)
    as [[Hc E] | [(l & r & T & Hl & Hr & E) | (l & m & r & T & Hl & Hm & E)]];
    rewrite E in H; injection H as <- <- <-.
  - repeat split; auto. discriminate.
  - repeat split; auto using remove_char_clean. discriminate.
  - repeat split; auto using remove_char_clean.
    intros m' Hm'. injection Hm' as <-. assumption.
Qed.

(** C6.  Running [split_caret_span] again on a segment it returned changes
    nothing: [pre], [post] and [mid] (when there is one) hold no caret, so
    each comes back whole, with no highlight and an empty rest. *)
Theorem split_caret_span_idempotent (text pre post : str) (mid : option str) :
  split_caret_span text = (pre, mid, post) ->
  split_caret_span pre = (pre, None, []) /\
  split_caret_span post = (post, None, []) /\
  (forall m, mid = Some m -> split_caret_span m = (m, None, [])).
Proof.
  intros H. apply split_caret_span_output_clean in H as (Hpre & Hpost & Hmid).
  repeat split; auto using split_caret_span_clean.
Qed.

Lemma split_caret_span_idempotent_witness :
  split_caret_span (py "Hello ") = (py "Hello ", None, []) /\
  split_caret_span (py ".") = (py ".", None, []) /\
  (forall m, Some (py "world") = Some m -> split_caret_span m = (m, None, [])).
Proof.
  apply (split_caret_span_idempotent (py "Hello ^world^.")). reflexivity.
Defined.

(* ================================================================== *)
(** * The mapping *)
(* ================================================================== *)

Lemma dict_get_setdefault_same (d : dict) (k : str) (q : quote) :
  dict_get (setdefault_append d k q) k
  = Some (match dict_get d k with Some l => l ++ [q] | None => [q] end).
Proof.
  induction d as [|[k' v] d IH]; simpl.
  - rewrite str_eqb_refl. reflexivity.
  - destruct (str_eqb k' k) eqn:E; simpl; rewrite E; auto.
Qed.

Lemma dict_get_setdefault_other (d : dict) (k key : str) (q : quote) :
  str_eqb k key = false ->
  dict_get (setdefault_append d k q) key = dict_get d key.
Proof.
  intros Hk. induction d as [|[k' v] d IH]; simpl.
  - rewrite Hk. reflexivity.
  - destruct (str_eqb k' k) eqn:E; simpl.
    + apply str_eqb_eq in E. subst k'. rewrite Hk. reflexivity.
    + destruct (str_eqb k' key); auto.
Qed.

Lemma dict_keys_setdefault (d : dict) (k : str) (q : quote) (k' : str) :
  In k' (dict_keys (setdefault_append d k q)) -> In k' (dict_keys d) \/ k' = k.
Proof.
  unfold dict_keys. induction d as [|[k0 v] d IH]; simpl.
  - intros [H | []]. auto.
  - destruct (str_eqb k0 k); simpl; intros [H | H]; auto.
    destruct (IH H); auto.
Qed.

Lemma nonempty_lists_setdefault (d : dict) (k : str) (q : quote) :
  nonempty_lists d -> nonempty_lists (setdefault_append d k q).
Proof.
  unfold nonempty_lists. induction d as [|[k0 v] d IH]; simpl; intros H.
  - constructor; [discriminate | constructor].
  - inversion H as [|? ? Hv Hd]; subst.
    destruct (str_eqb k0 k); constructor; auto.
    simpl. intros E. apply app_eq_nil in E as [_ E]. discriminate.
Qed.

Lemma dict_get_nonempty (Q : dict) (k : str) (lst : list quote) :
  nonempty_lists Q -> dict_get Q k = Some lst -> lst <> [].
Proof.
  unfold nonempty_lists. induction Q as [|[k0 v] Q IH]; simpl; intros H G.
  - discriminate.
  - inversion H as [|? ? Hv HQ]; subst.
    destruct (str_eqb k0 k); [injection G as <-; exact Hv | auto].
Qed.

(* ================================================================== *)
(** * Quote selection *)
(* ================================================================== *)

(** The rotation: on a list with a record, [lst[h % len(lst)]] exists. *)
Lemma rotate_in_range (h : Z) (lst : list quote) :
  lst <> [] -> exists q, get_item lst (h mod len lst) = Some q.
Proof.
  intros H. assert (L : 0 < len lst).
  { unfold len. destruct lst; [contradiction | simpl List.length; lia]. }
  pose proof (Z.mod_pos_bound h (len lst) L) as [B1 B2].
  unfold get_item. destruct (h mod len lst <? 0) eqn:E; [lia|].
  destruct (nth_error lst (Z.to_nat (h mod len lst))) as [q|] eqn:N.
  - exists q. reflexivity.
  - apply nth_error_None in N. unfold len in *. lia.
Qed.

Lemma len_zero_nil {A : Type} (l : list A) : (len l =? 0) = true -> l = [].
Proof.
  unfold len. destruct l; [reflexivity |].
  simpl List.length. intros E. apply Z.eqb_eq in E. lia.
Qed.

Lemma falsy_nonempty (lst : list quote) : lst <> [] -> falsy (Some lst) = false.
Proof. destruct lst; [contradiction | reflexivity]. Qed.

(** The last two statements of [pick_for_time] on a list with a record. *)
Lemma pick_tail (h : Z) (lst : list quote) (q : quote) :
  lst <> [] -> get_item lst (h mod len lst) = Some q ->
  (if len lst =? 0 then Raise ZeroDivisionError
   else match get_item lst (h mod len lst) with
        | Some q => Ok q
        | None => Raise IndexError
        end) = Ok q.
Proof.
  intros H G. destruct (len lst =? 0) eqn:E.
  - apply len_zero_nil in E. contradiction.
  - rewrite G. reflexivity.
Qed.

(** C3.  On a mapping with at least one key, every key with at least one
    record, and a time of day [h:m]: when the key ["HH:MM"] is there,
    [pick_for_time] returns the record at index [h mod len] of its list;
    otherwise, when the key of the minute rounded down to a multiple of
    UPDATE_MINUTES is there, the record at index [h mod len] of that list
    (minute 47 rounds down to 45); otherwise the record at index [h mod len]
    of the first key's list.  In every case a record comes back and nothing
    is raised. *)
Theorem pick_for_time_policy (Q : dict) (h m : Z) :
  0 <= h <= 23 -> 0 <= m <= 59 ->
  Q <> [] -> nonempty_lists Q ->
  let key := fmt_02d h ++ py ":" ++ fmt_02d m in
  let bucket_key :=
    fmt_02d h ++ py ":" ++ fmt_02d (m / UPDATE_MINUTES * UPDATE_MINUTES) in
  (forall lst, dict_get Q key = Some lst ->
     exists q, get_item lst (h mod len lst) = Some q /\
               pick_for_time Q h m = Ok q) /\
  (dict_get Q key = None ->
   forall lst, dict_get Q bucket_key = Some lst ->
     exists q, get_item lst (h mod len lst) = Some q /\
               pick_for_time Q h m = Ok q) /\
  (dict_get Q key = None -> dict_get Q bucket_key = None ->
   exists k lst q,
     hd_error (dict_keys Q) = Some k /\ dict_get Q k = Some lst /\
     get_item lst (h mod len lst) = Some q /\
     pick_for_time Q h m = Ok q) /\
  (exists q, pick_for_time Q h m = Ok q) /\
  fmt_02d (47 / UPDATE_MINUTES * UPDATE_MINUTES) = py "45".
Proof.
  intros _ _ Hne Hwf key bucket_key.
  assert (A : forall lst, dict_get Q key = Some lst ->
     exists q, get_item lst (h mod len lst) = Some q /\
               pick_for_time Q h m = Ok q).
  { intros lst G. pose proof (dict_get_nonempty _ _ _ Hwf G) as Hl.
    destruct (rotate_in_range h lst Hl) as [q Hq]. exists q. split; [exact Hq|].
    unfold pick_for_time. cbv zeta. fold key. fold bucket_key.
    rewrite G, (falsy_nonempty _ Hl). rewrite (falsy_nonempty _ Hl).
    unfold rbind. apply pick_tail; assumption. }
  assert (B : dict_get Q key = None ->
   forall lst, dict_get Q bucket_key = Some lst ->
     exists q, get_item lst (h mod len lst) = Some q /\
               pick_for_time Q h m = Ok q).
  { intros N lst G. pose proof (dict_get_nonempty _ _ _ Hwf G) as Hl.
    destruct (rotate_in_range h lst Hl) as [q Hq]. exists q. split; [exact Hq|].
    unfold pick_for_time. cbv zeta. fold key. fold bucket_key.
    rewrite N. simpl (falsy None). cbv iota.
    rewrite G, (falsy_nonempty _ Hl).
    unfold rbind. apply pick_tail; assumption. }
  assert (C : dict_get Q key = None -> dict_get Q bucket_key = None ->
   exists k lst q,
     hd_error (dict_keys Q) = Some k /\ dict_get Q k = Some lst /\
     get_item lst (h mod len lst) = Some q /\
     pick_for_time Q h m = Ok q).
  { intros N1 N2. destruct Q as [|[k lst] Q']; [contradiction|].
    assert (Hl : lst <> []) by (inversion Hwf; assumption).
    destruct (rotate_in_range h lst Hl) as [q Hq]. exists k, lst, q.
    split; [reflexivity|].
    split; [simpl; rewrite str_eqb_refl; reflexivity|]. split; [exact Hq|].
    unfold pick_for_time. cbv zeta. fold key. fold bucket_key.
    rewrite N1. simpl (falsy None). cbv iota.
    rewrite N2. simpl (falsy None). cbv iota.
    simpl dict_keys. cbv iota. simpl dict_get. rewrite str_eqb_refl.
    unfold rbind. apply pick_tail; assumption. }
  repeat split; auto.
  destruct (dict_get Q key) as [lst|] eqn:G1.
  - destruct (A lst eq_refl) as (q & _ & E). eauto.
  - destruct (dict_get Q bucket_key) as [lst|] eqn:G2.
    + destruct (B eq_refl lst eq_refl) as (q & _ & E). eauto.
    + destruct (C eq_refl eq_refl) as (k & lst & q & _ & _ & _ & E). eauto.
Qed.

(* ================================================================== *)
(** * CSV loader *)
(* ================================================================== *)

(** What a line does to the mapping does not depend on the mapping: it is
    skipped, or stored under a key of the checked shape, or it raises. *)
Lemma load_line_cases (raw : str) :
  (forall mapping, load_line mapping raw = Ok mapping) \/
  (exists k q, key_shape k /\
     forall mapping,
       load_line mapping raw = Ok (setdefault_append mapping k q)) \/
  (exists e, forall mapping, load_line mapping raw = Raise e).
Proof.
  unfold load_line.
  set (line := rstrip_chars raw [13%N; 10%N]).
  destruct ((match line with [] => true | _ => false end)
            || startswith_char line (chr "#")); [left; reflexivity|].
  set (parts := split_max line (chr "|") 4).
  destruct (len parts <? 5); [left; reflexivity|].
  destruct parts as [|p0 [|p1 [|p2 [|p3 [|p4 rest]]]]];
    try (right; right; exists IndexError; reflexivity).
  match goal with
  | |- context [rbind ?r _] => destruct r as [k|e]
  end; unfold rbind.
  - destruct ((len k =? 5) && char_at_is k 2 (chr ":")) eqn:D.
    + right. left. exists k, (p1, p2, p3, p4). split; [|reflexivity].
      apply andb_true_iff in D as [D1 D2]. apply Z.eqb_eq in D1.
      split; [exact D1|]. unfold char_at_is in D2.
      destruct (get_item k 2) as [c|]; [|discriminate].
      apply char_eqb_eq in D2. congruence.
    + left. reflexivity.
  - right. right. exists e. reflexivity.
Qed.

Lemma load_line_store (raw : str) (k : str) (q : quote) (mapping : dict) :
  load_line [] raw = Ok [(k, [q])] ->
  load_line mapping raw = Ok (setdefault_append mapping k q).
Proof.
  intros H.
  destruct (load_line_cases raw) as [E | [(k' & q' & _ & E) | (e & E)]];
    rewrite E in H |- *.
  - discriminate.
  - simpl in H. congruence.
  - discriminate.
Qed.

Lemma load_lines_app (l1 l2 : list str) (mapping : dict) :
  load_lines (l1 ++ l2) mapping
  = match load_lines l1 mapping with
    | (m1, None) => load_lines l2 m1
    | r => r
    end.
Proof.
  revert mapping. induction l1 as [|raw l1 IH]; intros mapping; simpl.
  - reflexivity.
  - destruct (load_line mapping raw); [apply IH | reflexivity].
Qed.

(** Lines that store nothing under [key] leave the entry of [key] alone. *)
Lemma load_lines_other (key : str) (lines : list str) (mapping : dict) :
  forallb (other_time key) lines = true ->
  exists m', load_lines lines mapping = (m', None) /\
             dict_get m' key = dict_get mapping key.
Proof.
  revert mapping. induction lines as [|raw lines IH]; intros mapping H; simpl.
  - exists mapping. split; reflexivity.
  - simpl in H. apply andb_true_iff in H as [H1 H2].
    unfold other_time in H1.
    destruct (load_line_cases raw) as [E | [(k & q & _ & E) | (e & E)]];
      rewrite E in H1 |- *.
    + apply IH. exact H2.
    + destruct (IH (setdefault_append mapping k q) H2) as (m' & L & G).
      exists m'. split; [exact L|]. rewrite G.
      apply dict_get_setdefault_other.
      simpl in H1. destruct (str_eqb k key); [discriminate | reflexivity].
    + discriminate.
Qed.

(** The loop keeps the two properties of the mapping: keys of the checked
    shape, and a record under every key. *)
Lemma load_lines_invariant (lines : list str) (mapping m' : dict)
  (exc : option exn) :
  load_lines lines mapping = (m', exc) ->
  Forall key_shape (dict_keys mapping) -> nonempty_lists mapping ->
  Forall key_shape (dict_keys m') /\ nonempty_lists m'.
Proof.
  revert mapping. induction lines as [|raw lines IH]; intros mapping H K N;
    simpl in H.
  - injection H as <- <-. split; assumption.
  - destruct (load_line_cases raw) as [E | [(k & q & S & E) | (e & E)]];
      rewrite E in H.
    + eapply IH; eassumption.
    + eapply IH; [eassumption | | apply nonempty_lists_setdefault; exact N].
      apply Forall_forall. intros k' Hk'.
      apply dict_keys_setdefault in Hk' as [Hk' | ->]; [|exact S].
      rewrite Forall_forall in K. auto.
    + injection H as <- <-. split; assumption.
Qed.

Lemma load_quotes_csv_invariant (fs : filesystem) (path : str) (Q : dict) :
  load_quotes_csv fs path = Ok Q ->
  Forall key_shape (dict_keys Q) /\ nonempty_lists Q.
Proof.
  unfold load_quotes_csv. intros H.
  destruct (fs path) as [lines|].
  - destruct (load_lines lines []) as [m exc] eqn:L.
    assert (I : Forall key_shape (dict_keys m) /\ nonempty_lists m).
    { eapply load_lines_invariant; [exact L | constructor | constructor]. }
    destruct exc as [[]|]; try discriminate; injection H as <-; exact I.
  - injection H as <-. split; constructor.
Qed.

(** The mapping the script runs with is never empty and has a record under
    every key. *)
Lemma QUOTES_BY_HHMM_well_formed (fs : filesystem) (Q : dict) :
  QUOTES_BY_HHMM fs = Ok Q -> Q <> [] /\ nonempty_lists Q.
Proof.
  unfold QUOTES_BY_HHMM, rbind. intros H.
  destruct (load_quotes_csv fs CSV_PATH) as [loaded|] eqn:L; [|discriminate].
  apply load_quotes_csv_invariant in L as [_ N].
  injection H as <-. destruct loaded.
  - split; [discriminate | repeat constructor; discriminate].
  - split; [discriminate | exact N].
Qed.

Lemma pick_for_time_policy_witness :
  exists q,
    get_item
      [(py "A ^quarter to six^ it was.", py "Third", py "Someone", py "tag")]
      (17 mod 1) = Some q /\
    pick_for_time sample_quotes 17 47 = Ok q.
Proof.
  destruct (QUOTES_BY_HHMM_well_formed fs_sample sample_quotes) as [Hne Hwf];
    [vm_compute; reflexivity|].
  refine (proj1 (proj2
    (pick_for_time_policy sample_quotes 17 47 _ _ Hne Hwf)) _ _ _).
  - lia.
  - lia.
  - vm_compute. reflexivity.
  - vm_compute. reflexivity.
Defined.

(** C9 (as amended).  Every key of a mapping that [load_quotes_csv] returns
    has five characters, the third a colon: a line whose time field, once
    normalised, has another shape is skipped.  Nothing checks that the other
    four characters are digits or in range. *)
Theorem load_quotes_csv_key_shape (fs : filesystem) (path : str) (Q : dict)
  (k : str) :
  load_quotes_csv fs path = Ok Q ->
  In k (dict_keys Q) ->
  len k = 5 /\ get_item k 2 = Some (chr ":").
Proof.
  intros H Hk. apply load_quotes_csv_invariant in H as [K _].
  rewrite Forall_forall in K. exact (K k Hk).
Qed.

Lemma load_quotes_csv_key_shape_witness :
  len (py "09:00") = 5 /\ get_item (py "09:00") 2 = Some (chr ":").
Proof.
  apply (load_quotes_csv_key_shape fs_sample CSV_PATH sample_quotes).
  - vm_compute. reflexivity.
  - vm_compute. right. left. reflexivity.
Defined.

(** C9, as stated, fails: the line ["99:99|Never.|Book|Author|tag"] is
    stored under the key ["99:99"], which is no time of day. *)
Lemma load_quotes_csv_key_not_a_time :
  exists Q k,
    load_quotes_csv fs_no_time CSV_PATH = Ok Q /\
    In k (dict_keys Q) /\
    valid_time_key k = false.
Proof.
  exists [(py "99:99", [(py "Never.", py "Book", py "Author", py "tag")])],
    (py "99:99").
  split; [vm_compute; reflexivity|]. split; [left; reflexivity|].
  vm_compute. reflexivity.
Qed.

(** C2, on the failing input: the second line of the dataset has the time
    field ["a:1x"]; [int("a")] raises ValueError, which the [except OSError]
    clause does not catch, so the load raises and the two good lines around
    it are lost with it.  Lines with too few fields or a time field of the
    wrong shape are skipped, as the claim says. *)
Theorem load_quotes_csv_raises_on_bad_time :
  load_quotes_csv fs_bad_time CSV_PATH = Raise ValueError /\
  QUOTES_BY_HHMM fs_bad_time = Raise ValueError /\
  load_quotes_csv fs_skipped CSV_PATH
  = Ok [(py "13:00",
         [(py "One ^o'clock^.", py "Book", py "Author", py "tag")])].
Proof. repeat split; vm_compute; reflexivity. Qed.

(** The record of the round-trip example. *)
Lemma hello_line_stored (tf eol : str) (mapping : dict) :
  In tf [py "09:00"; py "9:00"] -> In eol [[]; LF; CRLF] ->
  load_line mapping (tf ++ py "|Hello ^world^.|Book|Author|tag" ++ eol)
  = Ok (setdefault_append mapping (py "09:00")
          (py "Hello ^world^.", py "Book", py "Author", py "tag")).
Proof.
  intros Htf Heol. apply load_line_store.
  simpl in Htf, Heol.
  destruct Htf as [<- | [<- | []]]; destruct Heol as [<- | [<- | [<- | []]]];
    vm_compute; reflexivity.
Qed.

(** C1 (as amended).  A dataset holds the record line
    ["09:00|Hello ^world^.|Book|Author|tag"] (or the same line with the time
    written ["9:00"]), and no other line of it raises or stores a record for
    09:00.  Then the script's mapping has that record under ["09:00"],
    [pick_for_time(9, 0)] returns it, and its text splits into
    ["Hello "], ["world"], ["."].  The time field needs its colon. *)
Theorem load_then_pick_roundtrip (fs : filesystem) (before after : list str)
  (tf eol : str) :
  In tf [py "09:00"; py "9:00"] ->
  In eol [[]; LF; CRLF] ->
  fs CSV_PATH
  = Some (before
          ++ [tf ++ py "|Hello ^world^.|Book|Author|tag" ++ eol]
          ++ after) ->
  forallb (other_time (py "09:00")) (before ++ after) = true ->
  exists Q q,
    QUOTES_BY_HHMM fs = Ok Q /\
    dict_get Q (py "09:00") = Some [q] /\
    pick_for_time Q 9 0 = Ok q /\
    q = (py "Hello ^world^.", py "Book", py "Author", py "tag") /\
    split_caret_span (quote_text q) = (py "Hello ", Some (py "world"), py ".").
Proof.
  intros Htf Heol Hfs Hothers.
  rewrite forallb_app in Hothers. apply andb_true_iff in Hothers as [Hb Ha].
  set (q := (py "Hello ^world^.", py "Book", py "Author", py "tag")).
  destruct (load_lines_other _ before [] Hb) as (m1 & L1 & G1).
  destruct (load_lines_other _ after
              (setdefault_append m1 (py "09:00") q) Ha) as (m3 & L3 & G3).
  rewrite dict_get_setdefault_same, G1 in G3.
  change (dict_get [] (py "09:00")) with (@None (list quote)) in G3.
  cbv iota in G3.
  assert (L : load_quotes_csv fs CSV_PATH = Ok m3).
  { unfold load_quotes_csv. rewrite Hfs.
    rewrite load_lines_app, L1, load_lines_app. cbn [load_lines].
    rewrite (hello_line_stored tf eol m1 Htf Heol). fold q. rewrite L3.
    reflexivity. }
  assert (Hne : m3 <> []) by (intros ->; discriminate).
  exists m3, q. split; [|split; [exact G3|split; [|split; reflexivity]]].
  - unfold QUOTES_BY_HHMM, rbind. rewrite L. destruct m3; [contradiction|].
    reflexivity.
  - unfold pick_for_time. cbv zeta.
    change (fmt_02d 9 ++ py ":" ++ fmt_02d 0) with (py "09:00").
    rewrite G3. reflexivity.
Qed.

Lemma load_then_pick_roundtrip_witness :
  exists Q q,
    QUOTES_BY_HHMM fs_sample = Ok Q /\
    dict_get Q (py "09:00") = Some [q] /\
    pick_for_time Q 9 0 = Ok q /\
    q = (py "Hello ^world^.", py "Book", py "Author", py "tag") /\
    split_caret_span (quote_text q) = (py "Hello ", Some (py "world"), py ".").
Proof.
  apply (load_then_pick_roundtrip fs_sample
           [ py "# time|quote|work|author|tag" ++ LF; LF;
             py "12:00|High ^noon^.|Book|Author|tag" ++ LF ]
           [ py "no fields here" ++ LF;
             py "12:00|Midday ^again^|Other|Writer|tag" ++ LF;
             py "17:45|A ^quarter to six^ it was.|Third|Someone|tag" ]
           (py "9:00") LF).
  - right. left. reflexivity.
  - right. left. reflexivity.
  - reflexivity.
  - vm_compute. reflexivity.
Defined.

(** C1, as stated, fails: the line ["0900|Hello ^world^.|Book|Author|tag"]
    is skipped (four characters, no colon), the loaded mapping is empty, the
    built-in mapping takes its place, and [pick_for_time(9, 0)] returns the
    midnight record, whose text splits into [""], ["Midnight"], ["."]. *)
Lemma four_digit_time_is_skipped :
  load_quotes_csv fs_hhmm CSV_PATH = Ok [] /\
  exists Q q,
    QUOTES_BY_HHMM fs_hhmm = Ok Q /\
    dict_get Q (py "09:00") = None /\
    pick_for_time Q 9 0 = Ok q /\
    split_caret_span (quote_text q) = (py "", Some (py "Midnight"), py ".") /\
    split_caret_span (quote_text q)
      <> (py "Hello ", Some (py "world"), py ".").
Proof.
  split; [vm_compute; reflexivity|].
  exists fallback_quotes,
    (py "^Midnight^.", py "Fallback", py "System", py "unknown").
  repeat split; try (vm_compute; reflexivity).
  vm_compute. discriminate.
Qed.

(* ================================================================== *)
(** * Line layout *)
(* ================================================================== *)

Section LayoutFacts.

Variable measure : str -> Z * Z.
Variable display_width : Z.

Local Abbreviation place_line := (place_line measure).
Local Abbreviation layout_loop := (layout_loop measure display_width).

Lemma layout_loop_nil (space_w line_h : Z) (y_max : option Z) (y : Z)
  (line : list token) (line_w : Z) (qgroup : list Label) :
  layout_loop space_w line_h y_max [] y line line_w qgroup
  = if nonempty line
    then snd (flush_line measure space_w line_h y_max y line qgroup)
    else qgroup.
Proof. reflexivity. Qed.

Lemma layout_loop_cons (space_w line_h : Z) (y_max : option Z) (txt : str)
  (bold : bool) (rest : list token) (y : Z) (line : list token) (line_w : Z)
  (qgroup : list Label) :
  layout_loop space_w line_h y_max ((txt, bold) :: rest) y line line_w qgroup
  = let w := fst (measure txt) in
    let next_w := if nonempty line then line_w + space_w + w else w in
    if nonempty line && (MARGIN + next_w + MARGIN >? display_width) then
      match flush_line measure space_w line_h y_max y line qgroup with
      | (false, qgroup') => qgroup'
      | (true, qgroup') =>
          layout_loop space_w line_h y_max rest (y + (line_h + 2))
            [(txt, bold)] w qgroup'
      end
    else
      layout_loop space_w line_h y_max rest y (line ++ [(txt, bold)])
        next_w qgroup.
Proof. reflexivity. Qed.

(** Every label of a placed line sits at the line's [y]. *)
Lemma place_line_y (space_w x y : Z) (line : list token) :
  Forall (fun l => lab_y l = y) (place_line space_w x y line).
Proof.
  revert x. induction line as [|[txt bold] line IH]; intros x; simpl.
  - constructor.
  - constructor; [reflexivity|]. destruct bold; simpl.
    + constructor; [reflexivity | apply IH].
    + apply IH.
Qed.

(** [flush_line] appends a whole line or nothing, and what it appends does
    not depend on the labels already there. *)
Lemma flush_line_appends (space_w line_h : Z) (y_max : option Z) (y : Z)
  (line : list token) (qgroup : list Label) :
  flush_line measure space_w line_h y_max y line qgroup
  = (fst (flush_line measure space_w line_h y_max y line []),
     qgroup ++ snd (flush_line measure space_w line_h y_max y line [])).
Proof.
  unfold flush_line.
  destruct (match y_max with Some ym => y + line_h >? ym | None => false end);
    simpl; [rewrite app_nil_r|]; reflexivity.
Qed.

Lemma flush_line_bounded (space_w line_h y_max y : Z) (line : list token)
  (qgroup : list Label) :
  Forall (fun l => lab_y l + line_h <= y_max) qgroup ->
  Forall (fun l => lab_y l + line_h <= y_max)
    (snd (flush_line measure space_w line_h (Some y_max) y line qgroup)).
Proof.
  intros H. unfold flush_line.
  destruct (y + line_h >? y_max) eqn:E; simpl; [exact H|].
  apply Forall_app. split; [exact H|].
  eapply Forall_impl; [|apply place_line_y].
  simpl. intros l ->. lia.
Qed.

(** The loop keeps every label within the bound. *)
Lemma layout_loop_bounded (space_w line_h y_max : Z) (tokens : list token) :
  forall (y : Z) (line : list token) (line_w : Z) (qgroup : list Label),
  Forall (fun l => lab_y l + line_h <= y_max) qgroup ->
  Forall (fun l => lab_y l + line_h <= y_max)
    (layout_loop space_w line_h (Some y_max) tokens y line line_w qgroup).
Proof.
  induction tokens as [|[txt bold] rest IH]; intros y line line_w qgroup H.
  - rewrite layout_loop_nil.
    destruct (nonempty line); [apply flush_line_bounded|]; exact H.
  - rewrite layout_loop_cons. cbv zeta.
    destruct (nonempty line && _).
    + pose proof (flush_line_bounded space_w line_h y_max y line qgroup H) as F.
      destruct (flush_line measure space_w line_h (Some y_max) y line qgroup)
        as [[|] qgroup']; simpl in F; [apply IH|]; exact F.
    + apply IH. exact H.
Qed.

(** The loop only appends, and what it appends does not depend on the
    labels already there. *)
Lemma layout_loop_appends (space_w line_h : Z) (y_max : option Z)
  (tokens : list token) :
  forall (y : Z) (line : list token) (line_w : Z) (qgroup : list Label),
  layout_loop space_w line_h y_max tokens y line line_w qgroup
  = qgroup ++ layout_loop space_w line_h y_max tokens y line line_w [].
Proof.
  induction tokens as [|[txt bold] rest IH]; intros y line line_w qgroup.
  - rewrite !layout_loop_nil.
    destruct (nonempty line); [|rewrite app_nil_r; reflexivity].
    rewrite flush_line_appends. reflexivity.
  - rewrite !layout_loop_cons. cbv zeta.
    destruct (nonempty line && _).
    + rewrite flush_line_appends.
      destruct (flush_line measure space_w line_h y_max y line [])
        as [[|] ext]; simpl.
      * rewrite IH. rewrite (IH _ _ _ ext). symmetry. apply app_assoc.
      * reflexivity.
    + apply IH.
Qed.

(** With a bound, the loop emits a prefix of what it emits without one. *)
Lemma layout_loop_prefix (space_w line_h y_max : Z) (tokens : list token) :
  forall (y : Z) (line : list token) (line_w : Z),
  exists cut,
    layout_loop space_w line_h None tokens y line line_w []
    = layout_loop space_w line_h (Some y_max) tokens y line line_w [] ++ cut.
Proof.
  induction tokens as [|[txt bold] rest IH]; intros y line line_w.
  - rewrite !layout_loop_nil.
    destruct (nonempty line); [|exists []; reflexivity].
    unfold flush_line. destruct (y + line_h >? y_max); simpl.
    + eexists. reflexivity.
    + exists []. rewrite app_nil_r. reflexivity.
  - rewrite !layout_loop_cons. cbv zeta.
    destruct (nonempty line && _); [|apply IH].
    unfold flush_line. destruct (y + line_h >? y_max); simpl.
    + eexists. reflexivity.
    + destruct (IH (y + (line_h + 2)) [(txt, bold)] (fst (measure txt)))
        as [cut E].
      exists cut. rewrite layout_loop_appends.
      rewrite (layout_loop_appends _ _ (Some y_max)).
      rewrite E. apply app_assoc.
Qed.

(** C4.  With a bound [y_max], every label that
    [layout_quote_into_group] leaves in the group has
    [y + line_h <= y_max].  When the line to flush would cross the bound
    the loop stops there: at the end of the tokens, or at a token that
    overflows the line, the labels already placed come back unchanged,
    whatever tokens remain.  The function is total, and what it places is a
    prefix of what it places without a bound. *)
Theorem layout_respects_y_max (quote_text : str) (y_start y_max : Z) :
  let space_w := fst (measure (py " ")) in
  let line_h := snd (measure (py " ")) in
  Forall (fun l => lab_y l + line_h <= y_max)
    (layout_quote_into_group measure display_width quote_text y_start
       (Some y_max)) /\
  (forall (y : Z) (line : list token) (line_w : Z) (qgroup : list Label),
     nonempty line = true -> y + line_h > y_max ->
     layout_loop space_w line_h (Some y_max) [] y line line_w qgroup = qgroup /\
     forall (txt : str) (bold : bool) (rest : list token),
       MARGIN + (line_w + space_w + fst (measure txt)) + MARGIN
       > display_width ->
       layout_loop space_w line_h (Some y_max) ((txt, bold) :: rest)
         y line line_w qgroup = qgroup) /\
  (exists cut,
     layout_quote_into_group measure display_width quote_text y_start None
     = layout_quote_into_group measure display_width quote_text y_start
         (Some y_max) ++ cut).
Proof.
  intros space_w line_h. split; [|split].
  - unfold layout_quote_into_group. subst space_w line_h.
    destruct (measure (py " ")) as [sw lh]. simpl.
    apply layout_loop_bounded. constructor.
  - intros y line line_w qgroup Hline Hy.
    assert (Hgt : (y + line_h >? y_max) = true) by (apply Z.gtb_lt; lia).
    split.
    + rewrite layout_loop_nil, Hline. unfold flush_line. rewrite Hgt.
      reflexivity.
    + intros txt bold rest Hw. rewrite layout_loop_cons. cbv zeta.
      rewrite Hline.
      assert (Hov : (MARGIN + (line_w + space_w + fst (measure txt)) + MARGIN
                     >? display_width) = true) by (apply Z.gtb_lt; lia).
      rewrite Hov. cbn [andb]. unfold flush_line. rewrite Hgt. reflexivity.
  - unfold layout_quote_into_group. subst space_w line_h.
    destruct (measure (py " ")) as [sw lh]. apply layout_loop_prefix.
Qed.

End LayoutFacts.

Lemma layout_respects_y_max_witness :
  Forall (fun l => lab_y l + 14 <= 50)
    (layout_quote_into_group fixed_font 100
       (py "It was ^a quarter to six^ when the train at last pulled in.")
       10 (Some 50)) /\
  layout_loop fixed_font 100 6 14 (Some 50)
    [(py "train", false); (py "at", false)] 42
    [(py "when", false); (py "the", false)] 48
    [mkLabel (py "It") 10 10] = [mkLabel (py "It") 10 10].
Proof.
  pose proof (layout_respects_y_max fixed_font 100
    (py "It was ^a quarter to six^ when the train at last pulled in.") 10 50)
    as [H1 [H2 _]].
  split; [exact H1|].
  apply (proj2 (H2 42 [(py "when", false); (py "the", false)] 48
                  [mkLabel (py "It") 10 10] eq_refl ltac:(simpl; lia))).
  vm_compute. reflexivity.
Defined.

(* ================================================================== *)
(** * Safe refresh *)
(* ================================================================== *)

(** Run the monad's plumbing on a state given by its fields, leaving the
    tests on the device's answers. *)
Ltac run_monad :=
  cbv beta iota zeta delta
    [safe_refresh bind ret gets modify lift raise try_except
     time_monotonic time_sleep display_refresh exn_eqb get_now set_now
     with_rtc with_last_refresh with_last_bucket with_quote_group
     with_time_label with_meta_label with_set_mode with_edit with_hardware
     rtc_datetime last_refresh last_bucket quote_group time_label meta_label
     set_mode edit_h edit_m n_monotonic n_refresh trace].

Section RefreshFacts.

Variable monotonic : nat -> float.
Variable refresh_busy : nat -> bool.

Local Abbreviation safe_refresh := (safe_refresh monotonic refresh_busy).

(** The four runs of [safe_refresh]. *)
Lemma safe_refresh_runs (s : State) :
  let nowm := monotonic (n_monotonic s) in
  let too_soon :=
    PrimFloat.ltb (PrimFloat.sub nowm (last_refresh s)) MIN_REFRESH_GAP in
  let first_busy := refresh_busy (n_refresh s) in
  let second_busy := refresh_busy (S (n_refresh s)) in
  (too_soon = true ->
     safe_refresh s
     = (Ok tt, with_hardware (S (n_monotonic s)) (n_refresh s) (trace s) s)) /\
  (too_soon = false -> first_busy = false ->
     safe_refresh s
     = (Ok tt,
        with_last_refresh nowm
          (with_hardware (S (n_monotonic s)) (S (n_refresh s))
             (trace s ++ [EvRefresh true]) s))) /\
  (too_soon = false -> first_busy = true -> second_busy = false ->
     safe_refresh s
     = (Ok tt,
        with_last_refresh (monotonic (S (n_monotonic s)))
          (with_hardware (S (S (n_monotonic s))) (S (S (n_refresh s)))
             (((trace s ++ [EvRefresh false]) ++ [EvSleep 0.5%float])
              ++ [EvRefresh true]) s))) /\
  (too_soon = false -> first_busy = true -> second_busy = true ->
     safe_refresh s
     = (Ok tt,
        with_hardware (S (n_monotonic s)) (S (S (n_refresh s)))
          (((trace s ++ [EvRefresh false]) ++ [EvSleep 0.5%float])
           ++ [EvRefresh false]) s)).
Proof.
  destruct s as [now lr lb qg tl ml md eh em nm nr tr].
  cbv zeta. cbn [n_monotonic last_refresh n_refresh trace].
  set (nowm := monotonic nm).
  set (too_soon := PrimFloat.ltb (PrimFloat.sub nowm lr) MIN_REFRESH_GAP).
  set (first_busy := refresh_busy nr).
  set (second_busy := refresh_busy (S nr)).
  repeat split.
  - intros H. run_monad. fold nowm. fold too_soon. rewrite H. reflexivity.
  - intros H1 H2. run_monad. fold nowm. fold too_soon. rewrite H1.
    fold first_busy. rewrite H2. reflexivity.
  - intros H1 H2 H3. run_monad. fold nowm. fold too_soon. rewrite H1.
    fold first_busy. rewrite H2. cbv iota. fold second_busy. rewrite H3.
    reflexivity.
  - intros H1 H2 H3. run_monad. fold nowm. fold too_soon. rewrite H1.
    fold first_busy. rewrite H2. cbv iota. fold second_busy. rewrite H3.
    reflexivity.
Qed.

(** [safe_refresh] returns normally, and touches nothing but the last
    refresh time and the hardware history. *)
Lemma safe_refresh_frame (s : State) :
  exists lr nm nr tr,
    safe_refresh s = (Ok tt, with_hardware nm nr tr (with_last_refresh lr s)).
Proof.
  destruct (safe_refresh_runs s) as (A & B & C & D).
  destruct (PrimFloat.ltb
              (PrimFloat.sub (monotonic (n_monotonic s)) (last_refresh s))
              MIN_REFRESH_GAP).
  - rewrite (A eq_refl). exists (last_refresh s). do 3 eexists.
    destruct s; reflexivity.
  - destruct (refresh_busy (n_refresh s)).
    + destruct (refresh_busy (S (n_refresh s))).
      * rewrite (D eq_refl eq_refl eq_refl). exists (last_refresh s).
        do 3 eexists. destruct s; reflexivity.
      * rewrite (C eq_refl eq_refl eq_refl). do 4 eexists.
        destruct s; reflexivity.
    + rewrite (B eq_refl eq_refl). do 4 eexists. destruct s; reflexivity.
Qed.

(** C8.  [safe_refresh] always returns normally.  When less than
    MIN_REFRESH_GAP has passed since the last refresh it only reads the
    clock: no refresh is attempted.  Otherwise it attempts a refresh; when
    the panel is busy it sleeps 0.5 s and attempts exactly one more refresh,
    and when that one is busy too it returns with the last refresh time as
    it was, having changed nothing but the history of hardware calls. *)
Theorem safe_refresh_never_propagates (s : State) :
  let nowm := monotonic (n_monotonic s) in
  let too_soon :=
    PrimFloat.ltb (PrimFloat.sub nowm (last_refresh s)) MIN_REFRESH_GAP in
  let first_busy := refresh_busy (n_refresh s) in
  let second_busy := refresh_busy (S (n_refresh s)) in
  (exists s', safe_refresh s = (Ok tt, s')) /\
  (too_soon = true ->
     safe_refresh s
     = (Ok tt, with_hardware (S (n_monotonic s)) (n_refresh s) (trace s) s)) /\
  (too_soon = false -> first_busy = true ->
     exists s',
       safe_refresh s = (Ok tt, s') /\
       n_refresh s' = S (S (n_refresh s)) /\
       trace s'
       = trace s
         ++ [EvRefresh false; EvSleep 0.5%float;
             EvRefresh (negb second_busy)]) /\
  (too_soon = false -> first_busy = true -> second_busy = true ->
     exists s',
       safe_refresh s = (Ok tt, s') /\
       last_refresh s' = last_refresh s /\
       s' = with_hardware (S (n_monotonic s)) (S (S (n_refresh s)))
              (trace s ++ [EvRefresh false; EvSleep 0.5%float; EvRefresh false])
              s).
Proof.
  intros nowm too_soon first_busy second_busy.
  destruct (safe_refresh_runs s) as (A & B & C & D).
  fold nowm too_soon first_busy second_busy in A, B, C, D.
  split; [|split; [exact A|split]].
  - destruct (safe_refresh_frame s) as (lr & nm & nr & tr & E). eauto.
  - intros T F1. destruct second_busy eqn:F2.
    + rewrite (D T F1 eq_refl). eexists. split; [reflexivity|].
      destruct s; cbn. rewrite <- !app_assoc. split; reflexivity.
    + rewrite (C T F1 eq_refl). eexists. split; [reflexivity|].
      destruct s; cbn. rewrite <- !app_assoc. split; reflexivity.
  - intros T F1 F2. rewrite (D T F1 F2). eexists. split; [reflexivity|].
    destruct s; cbn. rewrite <- !app_assoc. split; reflexivity.
Qed.

End RefreshFacts.

(* ================================================================== *)
(** * Render and set-time *)
(* ================================================================== *)

(** The same for [render] and [commit_time], with [safe_refresh] left as a
    call. *)
Ltac run_render :=
  cbv beta iota zeta delta
    [render commit_time bind ret gets modify lift raise get_now set_now
     is_none bucket_eqb negb andb
     with_rtc with_last_refresh with_last_bucket with_quote_group
     with_time_label with_meta_label with_set_mode with_edit with_hardware
     rtc_datetime last_refresh last_bucket quote_group time_label meta_label
     set_mode edit_h edit_m n_monotonic n_refresh trace].

(** Replace the call of [safe_refresh] in the goal by its outcome. *)
Ltac run_safe_refresh :=
  match goal with
  | |- context [safe_refresh ?mono ?busy ?st] =>
      let lr := fresh "lr" in
      let nm := fresh "nm" in
      let nr := fresh "nr" in
      let tr := fresh "tr" in
      let E := fresh "E" in
      destruct (safe_refresh_frame mono busy st) as (lr & nm & nr & tr & E);
      rewrite E; clear E
  end.

Section RenderFacts.

Variable measure : str -> Z * Z.
Variable display_width : Z.
Variable display_height : Z.
Variable monotonic : nat -> float.
Variable refresh_busy : nat -> bool.
Variable quotes_by_hhmm : dict.

Local Abbreviation render :=
  (render measure display_width display_height monotonic refresh_busy
     quotes_by_hhmm).
Local Abbreviation commit_time :=
  (commit_time measure display_width display_height monotonic refresh_busy
     quotes_by_hhmm).

(** The bucket of a minute. *)
Local Abbreviation bucket_of m := (m / UPDATE_MINUTES * UPDATE_MINUTES).

(** The early return of [render]. *)
Lemma render_skip (s : State) (b : Z) :
  last_bucket s = Some b ->
  bucket_of (tm_min (rtc_datetime s)) = b ->
  render false None s = (Ok tt, s).
Proof.
  destruct s as [now lr lb qg tl ml md eh em nm nr tr].
  cbn [last_bucket rtc_datetime]. intros -> <-.
  run_render. rewrite Z.eqb_refl. reflexivity.
Qed.

(** [render] never writes the clock, whatever its outcome. *)
Lemma render_keeps_rtc (force : bool) (live_preview_time : option (Z * Z))
  (s : State) :
  rtc_datetime (snd (render force live_preview_time s)) = rtc_datetime s.
Proof.
  destruct s as [now lr lb qg tl ml md eh em nm nr tr].
  run_render.
  destruct live_preview_time as [[h m]|].
  - destruct force;
      (destruct (pick_for_time quotes_by_hhmm h m) as [[[[qt w] au] tg]|e];
       [run_safe_refresh; run_render; reflexivity | reflexivity]).
  - destruct force.
    + destruct (pick_for_time quotes_by_hhmm (tm_hour now) (tm_min now))
        as [[[[qt w] au] tg]|e];
        [run_safe_refresh; run_render; reflexivity | reflexivity].
    + destruct lb as [b|].
      * destruct (bucket_of (tm_min now) =? b); [reflexivity|].
        destruct (pick_for_time quotes_by_hhmm (tm_hour now) (tm_min now))
          as [[[[qt w] au] tg]|e];
          [run_safe_refresh; run_render; reflexivity | reflexivity].
      * destruct (pick_for_time quotes_by_hhmm (tm_hour now) (tm_min now))
          as [[[[qt w] au] tg]|e];
          [run_safe_refresh; run_render; reflexivity | reflexivity].
Qed.

(** A render on the clock's time that returns normally leaves the bucket of
    that time in [_last_bucket]. *)
Lemma render_records_bucket (force : bool) (s s' : State) :
  render force None s = (Ok tt, s') ->
  last_bucket s' = Some (bucket_of (tm_min (rtc_datetime s))) /\
  rtc_datetime s' = rtc_datetime s.
Proof.
  destruct s as [now lr lb qg tl ml md eh em nm nr tr].
  cbn [rtc_datetime]. run_render.
  destruct force.
  - destruct (pick_for_time quotes_by_hhmm (tm_hour now) (tm_min now))
      as [[[[qt w] au] tg]|e]; [|discriminate].
    run_safe_refresh. run_render. intros H. injection H as <-.
    split; reflexivity.
  - destruct lb as [b|].
    + destruct (bucket_of (tm_min now) =? b) eqn:B.
      * intros H. injection H as <-. apply Z.eqb_eq in B. subst b.
        split; reflexivity.
      * destruct (pick_for_time quotes_by_hhmm (tm_hour now) (tm_min now))
          as [[[[qt w] au] tg]|e]; [|discriminate].
        run_safe_refresh. run_render. intros H. injection H as <-.
        split; reflexivity.
    + destruct (pick_for_time quotes_by_hhmm (tm_hour now) (tm_min now))
        as [[[[qt w] au] tg]|e]; [|discriminate].
      run_safe_refresh. run_render. intros H. injection H as <-.
      split; reflexivity.
Qed.

(** C7.  Once [_last_bucket] holds the bucket of the clock's minute, a call
    [render()] (not forced, no live preview) returns at once and leaves the
    whole state as it was: labels, quote group, last refresh time and the
    history of hardware calls.  A render on the clock's time that returns
    normally records the bucket, so every later [render()] at a time of the
    same bucket is such a call. *)
Theorem render_idempotent_per_bucket :
  (forall (s : State) (b : Z),
     last_bucket s = Some b ->
     bucket_of (tm_min (rtc_datetime s)) = b ->
     render false None s = (Ok tt, s)) /\
  (forall (force : bool) (s s' : State) (later : struct_time),
     render force None s = (Ok tt, s') ->
     bucket_of (tm_min later) = bucket_of (tm_min (rtc_datetime s)) ->
     last_bucket s' = Some (bucket_of (tm_min (rtc_datetime s))) /\
     render false None (with_rtc later s') = (Ok tt, with_rtc later s')).
Proof.
  split.
  - exact render_skip.
  - intros force s s' later H B.
    apply render_records_bucket in H as [L _]. split; [exact L|].
    apply (render_skip _ (bucket_of (tm_min (rtc_datetime s)))).
    + destruct s'; exact L.
    + destruct s'; exact B.
Qed.

(** [commit_time] is the clock write, the two assignments, and a forced
    render. *)
Lemma commit_time_steps (s : State) :
  commit_time s
  = render true None
      (with_meta_label (set_text (py "") (meta_label s))
         (with_set_mode SET_NONE
            (with_rtc
               (mkTime (tm_year (rtc_datetime s)) (tm_mon (rtc_datetime s))
                  (tm_mday (rtc_datetime s)) (edit_h s) (edit_m s) 0
                  (-1) (-1) (-1))
               s))).
Proof.
  destruct s as [now lr lb qg tl ml md eh em nm nr tr].
  cbv beta iota zeta delta
    [bind gets modify get_now set_now]. reflexivity.
Qed.

(** C10.  After [commit_time], whether its render returned or raised, the
    clock holds the year, month and day it held before, the edited hour and
    minute, and zero seconds; the three remaining fields of the written
    [struct_time] are the [-1] defaults of [set_now]. *)
Theorem commit_time_preserves_date (s : State) :
  rtc_datetime (snd (commit_time s))
  = mkTime (tm_year (rtc_datetime s)) (tm_mon (rtc_datetime s))
      (tm_mday (rtc_datetime s)) (edit_h s) (edit_m s) 0 (-1) (-1) (-1).
Proof.
  rewrite commit_time_steps, render_keeps_rtc. destruct s. reflexivity.
Qed.

End RenderFacts.


Lemma safe_refresh_never_propagates_witness :
  exists s',
    safe_refresh sample_monotonic always_busy sample_state = (Ok tt, s') /\
    last_refresh s' = last_refresh sample_state /\
    s' = with_hardware 1 2
           ([] ++ [EvRefresh false; EvSleep 0.5%float; EvRefresh false])
           sample_state.
Proof.
  apply (proj2 (proj2 (proj2
    (safe_refresh_never_propagates sample_monotonic always_busy
       sample_state))));
    reflexivity.
Defined.

Lemma render_idempotent_per_bucket_witness :
  render fixed_font 296 128 sample_monotonic always_busy sample_quotes
    false None sample_state
  = (Ok tt, sample_state).
Proof.
  apply (proj1 (render_idempotent_per_bucket fixed_font 296 128
                  sample_monotonic always_busy sample_quotes)
           sample_state 45); reflexivity.
Defined.

(* ================================================================== *)
(** * Further properties: text helpers *)
(* ================================================================== *)

Lemma upto_in (n : nat) (z : Z) : 0 <= z < Z.of_nat n -> In z (upto n).
Proof.
  intros H. unfold upto. apply in_map_iff. exists (Z.to_nat z).
  split; [lia | apply in_seq; lia].
Qed.

Lemma sanitize_ascii_flat_map (s : str) :
  sanitize_ascii s
  = flat_map
      (fun ch =>
         match repl ch with
         | Some r => r
         | None => if (ch <? 128)%N then [ch] else py "?"
         end)
      s.
Proof. destruct s; reflexivity. Qed.

(** Every replacement is between one and three ASCII characters. *)
Lemma sanitize_char_ascii (ch : char) :
  let r := match repl ch with
           | Some r => r
           | None => if (ch <? 128)%N then [ch] else py "?"
           end in
  is_ascii r /\ (1 <= List.length r <= 3)%nat.
Proof.
  unfold repl, is_ascii.
  repeat match goal with
         | |- context [(ch =? ?k)%N] => destruct (ch =? k)%N
         end;
    try (simpl; split; [repeat constructor | lia]).
  destruct (ch <? 128)%N eqn:E; simpl.
  - apply N.ltb_lt in E. split; [repeat constructor; exact E | lia].
  - split; [repeat constructor | lia].
Qed.

Lemma repl_ascii_none (ch : char) : (ch < 128)%N -> repl ch = None.
Proof.
  intros H. unfold repl.
  repeat match goal with
         | |- context [(ch =? ?k)%N] =>
             let E := fresh "E" in
             destruct (ch =? k)%N eqn:E; [apply N.eqb_eq in E; lia|]
         end.
  reflexivity.
Qed.

Lemma sanitize_ascii_range (s : str) :
  is_ascii (sanitize_ascii s) /\
  len s <= len (sanitize_ascii s) <= 3 * len s.
Proof.
  rewrite sanitize_ascii_flat_map. unfold is_ascii, len.
  induction s as [|ch s [IH1 IH2]].
  - simpl. split; [constructor | lia].
  - destruct (sanitize_char_ascii ch) as [A L]. cbv zeta in A, L.
    cbn [flat_map]. split.
    + apply Forall_app. split; assumption.
    + rewrite length_app. cbn [List.length]. unfold str, char in *. lia.
Qed.

(** X1.  [sanitize_ascii] returns only characters below 128, whatever it is
    given, and it never shortens a text nor makes it more than three times
    longer. *)
Theorem sanitize_ascii_is_ascii (s : str) :
  is_ascii (sanitize_ascii s) /\
  len s <= len (sanitize_ascii s) <= 3 * len s.
Proof. exact (sanitize_ascii_range s). Qed.

(** X2.  [sanitize_ascii] leaves a text of characters below 128 as it is;
    so sanitising twice is sanitising once. *)
Theorem sanitize_ascii_fixes_ascii (s : str) :
  (is_ascii s -> sanitize_ascii s = s) /\
  sanitize_ascii (sanitize_ascii s) = sanitize_ascii s.
Proof.
  assert (F : forall t, is_ascii t -> sanitize_ascii t = t).
  { intros t H. rewrite sanitize_ascii_flat_map.
    induction H as [|ch t Hc Ht IH]; simpl; [reflexivity|].
    rewrite (repl_ascii_none ch Hc).
    apply N.ltb_lt in Hc. rewrite Hc. simpl. f_equal. exact IH. }
  split; [apply F|].
  apply F. apply sanitize_ascii_range.
Qed.

Lemma sanitize_ascii_fixes_ascii_witness :
  sanitize_ascii (py "Time: 09:05") = py "Time: 09:05".
Proof.
  apply (proj1 (sanitize_ascii_fixes_ascii (py "Time: 09:05"))).
  unfold is_ascii. repeat constructor.
Defined.

Lemma remove_char_app (c : char) (a b : str) :
  remove_char c (a ++ b) = remove_char c a ++ remove_char c b.
Proof. apply filter_app. Qed.

Lemma remove_char_cons_same (c : char) (s : str) :
  remove_char c (c :: s) = remove_char c s.
Proof. unfold remove_char. simpl. rewrite char_eqb_refl. reflexivity. Qed.

(** X3.  [split_caret_span] loses no character but carets and keeps the
    order: the three segments, put together again, are the text with its
    carets removed. *)
Theorem split_caret_span_keeps_text (text : str) :
  let '(pre, mid, post) := split_caret_span text in
  pre ++ (match mid with Some m => m | None => [] end) ++ post
  = remove_char caret text.
Proof.
  destruct (split_caret_span_shape text)
    as [[H E] | [(l & r & T & Hl & Hr & E) | (l & m & r & T & Hl & Hm & E)]];
    rewrite E.
  - simpl. rewrite app_nil_r. symmetry. apply remove_char_absent. exact H.
  - simpl. apply app_nil_r.
  - rewrite T.
    rewrite remove_char_app, remove_char_cons_same, remove_char_app,
      remove_char_cons_same.
    rewrite (remove_char_absent _ _ Hl), (remove_char_absent _ _ Hm).
    reflexivity.
Qed.

(** The words of [s.split()] are not empty and hold no whitespace. *)
Lemma split_ws_aux_words (s cur : str) :
  Forall (fun c => isspace c = false) cur ->
  Forall (fun w => w <> [] /\ Forall (fun c => isspace c = false) w)
    (split_ws_aux s cur).
Proof.
  revert cur. induction s as [|x s IH]; intros cur Hc; simpl.
  - destruct cur as [|c cur]; [constructor|].
    constructor; [|constructor]. split.
    + intros E. apply (f_equal (@List.length char)) in E.
      rewrite length_rev in E. discriminate.
    + apply Forall_rev. exact Hc.
  - destruct (isspace x) eqn:E.
    + destruct cur as [|c cur]; [apply IH; constructor|].
      constructor; [|apply IH; constructor]. split.
      * intros E'. apply (f_equal (@List.length char)) in E'.
        rewrite length_rev in E'. discriminate.
      * apply Forall_rev. exact Hc.
    + apply IH. constructor; assumption.
Qed.

(** X4.  The tokens of a quote: at most one is bold, it is the highlighted
    span, whole and without carets; every other token is a non-empty word
    without whitespace or carets. *)
Theorem quote_tokens_words (quote_text : str) :
  let tokens := quote_tokens quote_text in
  (List.length (filter (fun tk : token => snd tk) tokens) <= 1)%nat /\
  (forall t, In (t, true) tokens ->
     snd (fst (split_caret_span quote_text)) = Some t) /\
  (forall t b, In (t, b) tokens -> ~ In caret t) /\
  (forall t, In (t, false) tokens ->
     t <> [] /\ Forall (fun c => isspace c = false) t).
Proof.
  unfold quote_tokens.
  destruct (split_caret_span quote_text) as [[pre mid] post] eqn:E.
  pose proof (split_caret_span_output_clean _ _ _ _ E) as (Cpre & Cpost & Cmid).
  assert (W : forall s, ~ In caret s ->
    forall t b,
      In (t, b) (if nonempty s then map (fun w => (w, false)) (split_ws s)
                 else []) ->
      b = false /\ t <> [] /\ Forall (fun c => isspace c = false) t /\
      ~ In caret t).
  { intros s Cs t b H. destruct (nonempty s); [|contradiction].
    apply in_map_iff in H as (w & Hw & Hin). injection Hw as <- <-.
    pose proof (split_ws_aux_words s [] (Forall_nil _)) as F.
    rewrite Forall_forall in F. destruct (F w Hin) as [N Sp].
    repeat split; auto.
    intros Hc. apply Cs. clear - Hin Hc.
    unfold split_ws in Hin.
    assert (G : forall s cur w, In w (split_ws_aux s cur) ->
                forall c, In c w -> In c cur \/ In c s).
    { clear. induction s as [|x s IH]; intros cur w Hw c Hc; simpl in Hw.
      - destruct cur; [contradiction|]. destruct Hw as [<-|[]].
        left. apply in_rev. exact Hc.
      - destruct (isspace x).
        + destruct cur as [|c0 cur].
          * destruct (IH _ _ Hw c Hc) as [[]|]; auto using in_cons.
          * destruct Hw as [<-|Hw].
            -- left. apply in_rev. exact Hc.
            -- destruct (IH _ _ Hw c Hc) as [[]|]; auto using in_cons.
        + destruct (IH _ _ Hw c Hc) as [[->|]|]; simpl; auto. }
    destruct (G _ _ _ Hin _ Hc) as [[]|]; assumption. }
  cbv beta iota zeta. repeat split.
  - rewrite !filter_app, !length_app.
    assert (Z0 : forall s, ~ In caret s ->
      List.length (filter (fun tk : token => snd tk)
        (if nonempty s then map (fun w => (w, false)) (split_ws s) else []))
      = O).
    { intros s Cs. destruct (filter _ _) as [|[t b] l] eqn:F; [reflexivity|].
      assert (I : In (t, b) (filter (fun tk : token => snd tk)
        (if nonempty s then map (fun w => (w, false)) (split_ws s) else [])))
        by (rewrite F; left; reflexivity).
      apply filter_In in I as [I1 I2]. simpl in I2.
      destruct (W s Cs t b I1) as [-> _]. discriminate. }
    pose proof (Z0 pre Cpre) as Z1. pose proof (Z0 post Cpost) as Z2.
    unfold token in *. rewrite Z1, Z2. destruct mid; simpl; lia.
  - intros t H. apply in_app_or in H as [H | H].
    + destruct (W pre Cpre t true H) as [? _]. discriminate.
    + apply in_app_or in H as [H | H].
      * destruct mid as [m|]; [|contradiction].
        destruct H as [H|[]]. injection H as ->. reflexivity.
      * destruct (W post Cpost t true H) as [? _]. discriminate.
  - intros t b H. apply in_app_or in H as [H | H].
    + apply (W pre Cpre t b H).
    + apply in_app_or in H as [H | H].
      * destruct mid as [m|]; [|contradiction].
        destruct H as [H|[]]. injection H as <- <-. apply Cmid. reflexivity.
      * apply (W post Cpost t b H).
  - apply in_app_or in H as [H | H].
    + apply (W pre Cpre t false H).
    + apply in_app_or in H as [H | H].
      * destruct mid as [m|]; [|contradiction].
        destruct H as [H|[]]. discriminate.
      * apply (W post Cpost t false H).
  - apply in_app_or in H as [H | H].
    + apply (W pre Cpre t false H).
    + apply in_app_or in H as [H | H].
      * destruct mid as [m|]; [|contradiction].
        destruct H as [H|[]]. discriminate.
      * apply (W post Cpost t false H).
Qed.

(** X5.  For every time of day, [fmt_time] (24-hour setting) gives a valid
    zero-padded key, and splitting it at the colon and reading both halves
    with [int] gives the hour and the minute back. *)
Theorem fmt_time_reads_back (h m : Z) :
  0 <= h <= 23 -> 0 <= m <= 59 ->
  valid_time_key (fmt_time h m) = true /\
  exists a b,
    split_on (fmt_time h m) (chr ":") = [a; b] /\
    py_int a = Ok h /\ py_int b = Ok m.
Proof.
  intros Hh Hm.
  assert (A : forallb (fun h => forallb (time_reads_back h) (upto 60))
                (upto 24) = true) by (vm_compute; reflexivity).
  rewrite forallb_forall in A.
  pose proof (A h (upto_in 24 h ltac:(lia))) as B.
  rewrite forallb_forall in B.
  pose proof (B m (upto_in 60 m ltac:(lia))) as C.
  unfold time_reads_back in C. apply andb_true_iff in C as [C1 C2].
  split; [exact C1|].
  destruct (split_on (fmt_time h m) (chr ":")) as [|a [|b [|c l]]];
    try discriminate.
  exists a, b. split; [reflexivity|].
  destruct (py_int a) as [x|]; [|discriminate].
  destruct (py_int b) as [y|]; [|discriminate].
  apply andb_true_iff in C2 as [X Y].
  apply Z.eqb_eq in X, Y. subst. split; reflexivity.
Qed.

Lemma fmt_time_reads_back_witness :
  valid_time_key (fmt_time 7 5) = true /\
  exists a b,
    split_on (fmt_time 7 5) (chr ":") = [a; b] /\
    py_int a = Ok 7 /\ py_int b = Ok 5.
Proof. apply (fmt_time_reads_back 7 5); lia. Defined.

(* ================================================================== *)
(** * Further properties: the loader *)
(* ================================================================== *)

Lemma lstrip_by_all (p : char -> bool) (a b : str) :
  forallb p a = true -> lstrip_by p (a ++ b) = lstrip_by p b.
Proof.
  induction a as [|x a IH]; simpl; intros H; [reflexivity|].
  apply andb_true_iff in H as [Hx Ha]. rewrite Hx. auto.
Qed.

Lemma lstrip_by_stop (p : char -> bool) (a : str) (x : char) (b : str) :
  p x = false -> lstrip_by p (a ++ x :: b) = lstrip_by p a ++ x :: b.
Proof.
  intros Hx. induction a as [|y a IH]; simpl.
  - rewrite Hx. reflexivity.
  - destruct (p y); [exact IH | reflexivity].
Qed.

Lemma rstrip_by_all (p : char -> bool) (a b : str) :
  forallb p b = true -> rstrip_by p (a ++ b) = rstrip_by p a.
Proof.
  intros H. unfold rstrip_by. rewrite rev_app_distr.
  rewrite lstrip_by_all; [reflexivity|].
  rewrite forallb_forall in *. intros x Hx. apply H. apply in_rev. exact Hx.
Qed.

Lemma rstrip_by_stop (p : char -> bool) (a : str) (x : char) (b : str) :
  p x = false -> rstrip_by p (a ++ x :: b) = a ++ x :: rstrip_by p b.
Proof.
  intros Hx. unfold rstrip_by.
  rewrite rev_app_distr. simpl. rewrite <- app_assoc. simpl.
  rewrite lstrip_by_stop by exact Hx.
  rewrite rev_app_distr. simpl. rewrite rev_involutive, <- app_assoc.
  reflexivity.
Qed.

Lemma split_max_aux_field (sep : char) (k : nat) (f rest cur : str) :
  ~ In sep f ->
  split_max_aux sep (S k) (f ++ sep :: rest) cur
  = (rev cur ++ f) :: split_max_aux sep k rest [].
Proof.
  revert cur. induction f as [|x f IH]; intros cur H.
  - simpl. rewrite char_eqb_refl, app_nil_r. reflexivity.
  - simpl. destruct (char_eqb x sep) eqn:E.
    + apply char_eqb_eq in E. exfalso. apply H. left. exact E.
    + rewrite IH by (intros G; apply H; right; exact G).
      simpl. rewrite <- app_assoc. reflexivity.
Qed.

Lemma split_max_aux_last (sep : char) (s : str) :
  split_max_aux sep 0 s [] = [s].
Proof. destruct s; reflexivity. Qed.

(** The fields of a record line, as [raw.split("|", 4)] cuts them. *)
Lemma split_max_record_line (time quote work author tag : str) :
  ~ In (chr "|") time -> ~ In (chr "|") quote ->
  ~ In (chr "|") work -> ~ In (chr "|") author ->
  split_max (record_line time quote work author tag) (chr "|") 4
  = [time; quote; work; author; tag].
Proof.
  intros H0 H1 H2 H3. unfold split_max, record_line.
  rewrite !split_max_aux_field by assumption.
  rewrite split_max_aux_last. reflexivity.
Qed.

(** What the loader does with a record line whose first four fields hold
    no pipe: only the time field decides. *)
Lemma load_line_fields (mapping : dict) (time quote work author tag eol : str) :
  ~ In (chr "|") time -> ~ In (chr "|") quote ->
  ~ In (chr "|") work -> ~ In (chr "|") author ->
  startswith_char time (chr "#") = false ->
  rstrip_chars tag [13%N; 10%N] = tag ->
  forallb is_eol eol = true ->
  load_line mapping (record_line time quote work author tag ++ eol)
  = let? k := normalized_time (strip time) in
    if (len k =? 5) && char_at_is k 2 (chr ":")
    then Ok (setdefault_append mapping k (quote, work, author, tag))
    else Ok mapping.
Proof.
  intros H0 H1 H2 H3 Hc Ht He. unfold load_line.
  assert (R : rstrip_chars (record_line time quote work author tag ++ eol)
                [13%N; 10%N]
              = record_line time quote work author tag).
  { unfold rstrip_chars in *. fold is_eol in *.
    rewrite rstrip_by_all by exact He.
    unfold record_line.
    replace (time ++ chr "|" :: quote ++ chr "|" :: work ++ chr "|"
             :: author ++ chr "|" :: tag)
      with ((time ++ chr "|" :: quote ++ chr "|" :: work ++ chr "|" :: author)
            ++ chr "|" :: tag)
      by (repeat (rewrite <- app_assoc; simpl); reflexivity).
    rewrite rstrip_by_stop by reflexivity. rewrite Ht. reflexivity. }
  rewrite R.
  assert (G : (match record_line time quote work author tag with
               | [] => true
               | _ => false
               end
               || startswith_char (record_line time quote work author tag)
                    (chr "#")) = false).
  { unfold record_line. destruct time as [|c time]; simpl; [reflexivity|].
    simpl in Hc. exact Hc. }
  rewrite G. rewrite split_max_record_line by assumption.
  reflexivity.
Qed.

(** A record line with a time field of the stored shape. *)
Lemma load_line_stores (mapping : dict)
  (time quote work author tag eol : str) :
  len (strip time) = 5 -> get_item (strip time) 2 = Some (chr ":") ->
  ~ In (chr "|") time -> ~ In (chr "|") quote ->
  ~ In (chr "|") work -> ~ In (chr "|") author ->
  startswith_char time (chr "#") = false ->
  rstrip_chars tag [13%N; 10%N] = tag ->
  forallb is_eol eol = true ->
  load_line mapping (record_line time quote work author tag ++ eol)
  = Ok (setdefault_append mapping (strip time) (quote, work, author, tag)).
Proof.
  intros L5 C2 H0 H1 H2 H3 Hc Ht He.
  rewrite load_line_fields by assumption.
  unfold normalized_time. rewrite L5. simpl (5 =? 4). cbn [andb rbind].
  rewrite L5. unfold char_at_is. rewrite C2. reflexivity.
Qed.

(** X6.  A record line round-trips through the loader: when the time field,
    stripped, has five characters with a colon third, the first four fields
    hold no pipe, the line is no comment and the tag does not end in a line
    break, the line (with or without its line ending) stores exactly its
    quote, work, author and tag under the stripped time, whatever the
    mapping held before. *)
Theorem load_line_record (mapping : dict)
  (time quote work author tag eol : str) :
  len (strip time) = 5 -> get_item (strip time) 2 = Some (chr ":") ->
  ~ In (chr "|") time -> ~ In (chr "|") quote ->
  ~ In (chr "|") work -> ~ In (chr "|") author ->
  startswith_char time (chr "#") = false ->
  rstrip_chars tag [13%N; 10%N] = tag ->
  forallb is_eol eol = true ->
  load_line mapping (record_line time quote work author tag ++ eol)
  = Ok (setdefault_append mapping (strip time) (quote, work, author, tag)).
Proof. exact (load_line_stores mapping time quote work author tag eol). Qed.

Lemma load_line_record_witness :
  load_line fallback_quotes
    (record_line (py " 23:59 ") (py "Almost ^midnight^.") (py "A Book")
       (py "A. Writer") (py "tag|with|pipes") ++ CRLF)
  = Ok (setdefault_append fallback_quotes (strip (py " 23:59 "))
          (py "Almost ^midnight^.", py "A Book", py "A. Writer",
           py "tag|with|pipes")).
Proof.
  apply load_line_record; try reflexivity;
    vm_compute; intuition discriminate.
Defined.

(** X7.  A time written with a one-digit hour, [H:MM], is stored under the
    zero-padded key [0H:MM]: the key [pick_for_time] looks up at that
    time. *)
Theorem load_line_short_time (mapping : dict) (h m : Z)
  (time quote work author tag eol : str) :
  0 <= h <= 9 -> 0 <= m <= 59 ->
  strip time = fmt_d h ++ py ":" ++ fmt_02d m ->
  ~ In (chr "|") time -> ~ In (chr "|") quote ->
  ~ In (chr "|") work -> ~ In (chr "|") author ->
  startswith_char time (chr "#") = false ->
  rstrip_chars tag [13%N; 10%N] = tag ->
  forallb is_eol eol = true ->
  load_line mapping (record_line time quote work author tag ++ eol)
  = Ok (setdefault_append mapping (fmt_02d h ++ py ":" ++ fmt_02d m)
          (quote, work, author, tag)).
Proof.
  intros Hh Hm St H0 H1 H2 H3 Hc Ht He.
  rewrite load_line_fields by assumption. rewrite St.
  assert (A : forallb (fun h => forallb (short_time_normalizes h) (upto 60))
                (upto 10) = true) by (vm_compute; reflexivity).
  assert (B : forallb (fun h => forallb (time_key_plain h) (upto 60))
                (upto 10) = true) by (vm_compute; reflexivity).
  rewrite forallb_forall in A, B.
  pose proof (A h (upto_in 10 h ltac:(lia))) as A1.
  pose proof (B h (upto_in 10 h ltac:(lia))) as B1.
  rewrite forallb_forall in A1, B1.
  pose proof (A1 m (upto_in 60 m ltac:(lia))) as A2.
  pose proof (B1 m (upto_in 60 m ltac:(lia))) as B2.
  unfold short_time_normalizes in A2. unfold time_key_plain in B2.
  cbv zeta in B2.
  destruct (normalized_time (fmt_d h ++ py ":" ++ fmt_02d m)) as [k|];
    [|discriminate].
  apply str_eqb_eq in A2. subst k. cbn [rbind].
  repeat (apply andb_true_iff in B2 as [B2 ?]).
  rewrite B2. cbn [andb].
  match goal with
  | K : char_at_is _ 2 _ = true |- _ => rewrite K
  end.
  reflexivity.
Qed.

Lemma load_line_short_time_witness :
  load_line [] (record_line (py "7:05") (py "Five ^past seven^.") (py "W")
                  (py "A") (py "t") ++ LF)
  = Ok (setdefault_append [] (fmt_02d 7 ++ py ":" ++ fmt_02d 5)
          (py "Five ^past seven^.", py "W", py "A", py "t")).
Proof.
  apply load_line_short_time; try lia; try reflexivity;
    vm_compute; intuition discriminate.
Defined.

Lemma split_max_aux_length (sep : char) (s : str) :
  forall (k : nat) (cur : str),
  List.length (split_max_aux sep k s cur) = S (Nat.min k (count_char sep s)).
Proof.
  induction s as [|x s IH]; intros k cur.
  - destruct k; reflexivity.
  - destruct k as [|k]; [reflexivity|].
    unfold count_char. simpl. destruct (char_eqb x sep) eqn:E; simpl.
    + rewrite IH. reflexivity.
    + rewrite IH. reflexivity.
Qed.

Lemma lstrip_by_suffix (p : char -> bool) (s : str) :
  exists t, s = t ++ lstrip_by p s.
Proof.
  induction s as [|x s [t IH]]; simpl.
  - exists []. reflexivity.
  - destruct (p x).
    + exists (x :: t). simpl. f_equal. exact IH.
    + exists []. reflexivity.
Qed.

Lemma rstrip_by_prefix (p : char -> bool) (s : str) :
  exists t, s = rstrip_by p s ++ t.
Proof.
  unfold rstrip_by. destruct (lstrip_by_suffix p (rev s)) as [t E].
  exists (rev t). rewrite <- rev_app_distr, <- E, rev_involutive. reflexivity.
Qed.

(** The three kinds of line that the loader passes over. *)
Lemma load_line_passes_over (mapping : dict) (raw : str) :
  forallb is_eol raw = true \/
  startswith_char raw (chr "#") = true \/
  (count_char (chr "|") raw < 4)%nat ->
  load_line mapping raw = Ok mapping.
Proof.
  intros [B | [C | S]]; unfold load_line.
  - assert (R : rstrip_chars raw [13%N; 10%N] = []).
    { unfold rstrip_chars. change (rstrip_by is_eol ([] ++ raw) = []).
      rewrite (rstrip_by_all is_eol [] raw B). reflexivity. }
    rewrite R. reflexivity.
  - destruct raw as [|c rest]; [discriminate|]. unfold startswith_char in C.
    apply char_eqb_eq in C. subst c.
    assert (R : rstrip_chars (chr "#" :: rest) [13%N; 10%N]
                = chr "#" :: rstrip_chars rest [13%N; 10%N]).
    { unfold rstrip_chars.
      apply (rstrip_by_stop _ [] (chr "#") rest). reflexivity. }
    rewrite R. reflexivity.
  - set (line := rstrip_chars raw [13%N; 10%N]).
    destruct ((match line with [] => true | _ => false end)
              || startswith_char line (chr "#")); [reflexivity|].
    assert (L : (len (split_max line (chr "|") 4) <? 5) = true).
    { apply Z.ltb_lt. unfold len, split_max. rewrite split_max_aux_length.
      destruct (rstrip_by_prefix (fun c => char_in c [13%N; 10%N]) raw)
        as [t E].
      fold (rstrip_chars raw [13%N; 10%N]) in E. fold line in E.
      rewrite E, count_char_app in S. lia. }
    rewrite L. reflexivity.
Qed.

(** X8.  A line made only of line-break characters, a line whose first
    character is [#], and a line with fewer than four pipes are passed
    over: whatever else they hold, the mapping stays as it was and nothing
    is raised. *)
Theorem load_line_skips (mapping : dict) (raw : str) :
  forallb is_eol raw = true \/
  startswith_char raw (chr "#") = true \/
  (count_char (chr "|") raw < 4)%nat ->
  load_line mapping raw = Ok mapping.
Proof. exact (load_line_passes_over mapping raw). Qed.

Lemma load_line_skips_witness :
  load_line fallback_quotes (py "#9:xx|a comment|that|would|raise")
  = Ok fallback_quotes.
Proof. apply load_line_skips. right. left. reflexivity. Defined.

(** X9.  When [/quotes.csv] is missing, or holds only blank lines, comment
    lines and lines with fewer than four pipes, the script runs with the
    built-in two-entry mapping. *)
Theorem nothing_loaded_gives_fallback (fs : filesystem) :
  (fs CSV_PATH = None \/
   exists lines,
     fs CSV_PATH = Some lines /\
     Forall (fun raw =>
               forallb is_eol raw = true \/
               startswith_char raw (chr "#") = true \/
               (count_char (chr "|") raw < 4)%nat) lines) ->
  load_quotes_csv fs CSV_PATH = Ok [] /\
  QUOTES_BY_HHMM fs = Ok fallback_quotes.
Proof.
  intros H.
  assert (L : load_quotes_csv fs CSV_PATH = Ok []).
  { unfold load_quotes_csv. destruct H as [-> | (lines & -> & F)].
    - reflexivity.
    - assert (E : load_lines lines [] = ([], None)).
      { induction F as [|raw lines Hr _ IH]; simpl; [reflexivity|].
        rewrite (load_line_passes_over [] raw Hr). exact IH. }
      rewrite E. reflexivity. }
  split; [exact L|]. unfold QUOTES_BY_HHMM. rewrite L. reflexivity.
Qed.

Lemma nothing_loaded_gives_fallback_witness :
  load_quotes_csv
    (quotes_file [py "# only a comment" ++ LF; CRLF; py "a|b|c" ++ LF])
    CSV_PATH = Ok [] /\
  QUOTES_BY_HHMM
    (quotes_file [py "# only a comment" ++ LF; CRLF; py "a|b|c" ++ LF])
  = Ok fallback_quotes.
Proof.
  apply nothing_loaded_gives_fallback. right. eexists. split; [reflexivity|].
  apply Forall_cons; [|apply Forall_cons; [|apply Forall_cons;
    [|apply Forall_nil]]].
  - right. left. reflexivity.
  - left. reflexivity.
  - right. right. vm_compute. lia.
Defined.

(* ================================================================== *)
(** * Further properties: loading, then selecting *)
(* ================================================================== *)

(** The exact-match path of [pick_for_time]. *)
Lemma pick_for_time_exact (Q : dict) (h m : Z) (lst : list quote) (q : quote) :
  dict_get Q (fmt_02d h ++ py ":" ++ fmt_02d m) = Some lst ->
  lst <> [] ->
  get_item lst (h mod len lst) = Some q ->
  pick_for_time Q h m = Ok q.
Proof.
  intros G Hl Hq. unfold pick_for_time. cbv zeta.
  rewrite G, (falsy_nonempty _ Hl). rewrite (falsy_nonempty _ Hl).
  unfold rbind. apply pick_tail; assumption.
Qed.

(** On a mapping with a key and a record under every key, [pick_for_time]
    returns a record of the mapping, for any two integers. *)
Lemma pick_for_time_returns (Q : dict) (h m : Z) :
  Q <> [] -> nonempty_lists Q ->
  exists k lst q,
    dict_get Q k = Some lst /\
    get_item lst (h mod len lst) = Some q /\
    pick_for_time Q h m = Ok q.
Proof.
  intros Hne Hwf.
  set (key := fmt_02d h ++ py ":" ++ fmt_02d m).
  set (bucket_key :=
         fmt_02d h ++ py ":" ++ fmt_02d (m / UPDATE_MINUTES * UPDATE_MINUTES)).
  destruct (dict_get Q key) as [lst|] eqn:G1.
  - pose proof (dict_get_nonempty _ _ _ Hwf G1) as Hl.
    destruct (rotate_in_range h lst Hl) as [q Hq].
    exists key, lst, q. repeat split; auto.
    apply (pick_for_time_exact Q h m lst q G1 Hl Hq).
  - destruct (dict_get Q bucket_key) as [lst|] eqn:G2.
    + pose proof (dict_get_nonempty _ _ _ Hwf G2) as Hl.
      destruct (rotate_in_range h lst Hl) as [q Hq].
      exists bucket_key, lst, q. repeat split; auto.
      unfold pick_for_time. cbv zeta. fold key. fold bucket_key.
      rewrite G1. simpl (falsy None). cbv iota.
      rewrite G2, (falsy_nonempty _ Hl).
      unfold rbind. apply pick_tail; assumption.
    + destruct Q as [|[k lst] Q']; [contradiction|].
      assert (Hl : lst <> []) by (inversion Hwf; assumption).
      destruct (rotate_in_range h lst Hl) as [q Hq]. exists k, lst, q.
      split; [simpl; rewrite str_eqb_refl; reflexivity|].
      split; [exact Hq|].
      unfold pick_for_time. cbv zeta. fold key. fold bucket_key.
      rewrite G1. simpl (falsy None). cbv iota.
      rewrite G2. simpl (falsy None). cbv iota.
      simpl dict_keys. cbv iota. simpl dict_get. rewrite str_eqb_refl.
      unfold rbind. apply pick_tail; assumption.
Qed.

Lemma get_item_in {A : Type} (l : list A) (i : Z) (x : A) :
  get_item l i = Some x -> In x l.
Proof.
  unfold get_item. destruct (i <? 0); [discriminate|]. apply nth_error_In.
Qed.

(** X10.  Whatever file the module was loaded with, if the load went
    through then [pick_for_time] returns, for any two integers [h] and
    [m], a record that is stored in the mapping; it raises nothing. *)
Theorem pick_for_time_after_load (fs : filesystem) (Q : dict) (h m : Z) :
  QUOTES_BY_HHMM fs = Ok Q ->
  exists k lst q,
    dict_get Q k = Some lst /\ In q lst /\ pick_for_time Q h m = Ok q.
Proof.
  intros H. apply QUOTES_BY_HHMM_well_formed in H as [Hne Hwf].
  destruct (pick_for_time_returns Q h m Hne Hwf) as (k & lst & q & G & I & P).
  exists k, lst, q. repeat split; auto. apply (get_item_in _ _ _ I).
Qed.

Lemma pick_for_time_after_load_witness :
  exists k lst q,
    dict_get fallback_quotes k = Some lst /\ In q lst /\
    pick_for_time fallback_quotes (-3) 1234 = Ok q.
Proof.
  apply (pick_for_time_after_load (fun _ => None)). reflexivity.
Defined.

(** X11.  Loader and selector agree on every time of day: a dataset holds
    one record line whose time field is [fmt_time(h, m)], its quote, work
    and author hold no pipe, and no other line raises or stores a record for
    that time; then [pick_for_time(h, m)] returns exactly that record. *)
Theorem load_then_pick_any_time (fs : filesystem) (before after : list str)
  (h m : Z) (quote work author tag eol : str) :
  0 <= h <= 23 -> 0 <= m <= 59 ->
  ~ In (chr "|") quote -> ~ In (chr "|") work -> ~ In (chr "|") author ->
  rstrip_chars tag [13%N; 10%N] = tag ->
  forallb is_eol eol = true ->
  fs CSV_PATH
  = Some (before
          ++ [record_line (fmt_time h m) quote work author tag ++ eol]
          ++ after) ->
  forallb (other_time (fmt_time h m)) (before ++ after) = true ->
  exists Q,
    QUOTES_BY_HHMM fs = Ok Q /\
    pick_for_time Q h m = Ok (quote, work, author, tag).
Proof.
  intros Hh Hm H1 H2 H3 Ht He Hfs Hothers.
  change (fmt_time h m) with (fmt_02d h ++ py ":" ++ fmt_02d m) in *.
  set (key := fmt_02d h ++ py ":" ++ fmt_02d m) in *.
  assert (B : forallb (fun h => forallb (time_key_plain h) (upto 60))
                (upto 24) = true) by (vm_compute; reflexivity).
  rewrite forallb_forall in B.
  pose proof (B h (upto_in 24 h ltac:(lia))) as B1.
  rewrite forallb_forall in B1.
  pose proof (B1 m (upto_in 60 m ltac:(lia))) as B2.
  unfold time_key_plain in B2. cbv zeta in B2. fold key in B2.
  apply andb_true_iff in B2 as [B2 K5]. apply negb_true_iff in K5.
  apply andb_true_iff in B2 as [B2 K4]. apply str_eqb_eq in K4.
  apply andb_true_iff in B2 as [B2 K3]. apply negb_true_iff in K3.
  apply andb_true_iff in B2 as [K1 K2]. apply Z.eqb_eq in K1.
  assert (K3' : ~ In (chr "|") key).
  { intros I. unfold char_in in K3.
    assert (E : existsb (char_eqb (chr "|")) key = true).
    { apply existsb_exists. exists (chr "|"). split; [exact I|].
      apply char_eqb_refl. }
    congruence. }
  assert (K2' : get_item (strip key) 2 = Some (chr ":")).
  { rewrite K4. unfold char_at_is in K2.
    destruct (get_item key 2) as [c|]; [|discriminate].
    apply char_eqb_eq in K2. congruence. }
  assert (St : forall mapping,
    load_line mapping (record_line key quote work author tag ++ eol)
    = Ok (setdefault_append mapping key (quote, work, author, tag))).
  { intros mapping. rewrite <- K4 at 2.
    apply load_line_stores; try assumption. rewrite K4. exact K1. }
  rewrite forallb_app in Hothers. apply andb_true_iff in Hothers as [Hb Ha].
  set (q := (quote, work, author, tag)) in *.
  destruct (load_lines_other _ before [] Hb) as (m1 & L1 & G1).
  destruct (load_lines_other _ after (setdefault_append m1 key q) Ha)
    as (m3 & L3 & G3).
  rewrite dict_get_setdefault_same, G1 in G3.
  change (dict_get [] key) with (@None (list (str * str * str * str))) in G3.
  cbv iota in G3.
  assert (L : load_quotes_csv fs CSV_PATH = Ok m3).
  { unfold load_quotes_csv. rewrite Hfs.
    rewrite load_lines_app, L1, load_lines_app. cbn [load_lines].
    rewrite St, L3. reflexivity. }
  exists m3. split.
  - unfold QUOTES_BY_HHMM, rbind. rewrite L.
    destruct m3; [discriminate | reflexivity].
  - apply (pick_for_time_exact m3 h m [q] q G3); [discriminate|].
    unfold len. simpl List.length. rewrite Z.mod_1_r. reflexivity.
Qed.

Lemma load_then_pick_any_time_witness :
  exists Q,
    QUOTES_BY_HHMM
      (quotes_file
         [ py "# header" ++ LF;
           record_line (fmt_time 23 59) (py "Almost ^midnight^.") (py "W")
             (py "A") (py "t") ++ LF;
           py "12:00|High ^noon^.|Book|Author|tag" ++ LF ]) = Ok Q /\
    pick_for_time Q 23 59
    = Ok (py "Almost ^midnight^.", py "W", py "A", py "t").
Proof.
  apply (load_then_pick_any_time _ [py "# header" ++ LF]
           [py "12:00|High ^noon^.|Book|Author|tag" ++ LF] 23 59
           (py "Almost ^midnight^.") (py "W") (py "A") (py "t") LF);
    try lia; try reflexivity; vm_compute; intuition discriminate.
Defined.

(* ================================================================== *)
(** * Further properties: line layout *)
(* ================================================================== *)

Section LayoutMore.

Variable measure : str -> Z * Z.
Variable display_width : Z.

Local Abbreviation place_line := (place_line measure).
Local Abbreviation layout_loop := (layout_loop measure display_width).
Local Abbreviation layout_quote_into_group :=
  (layout_quote_into_group measure display_width).

Lemma strikes_app (a b : list token) :
  strikes (a ++ b) = strikes a ++ strikes b.
Proof. unfold strikes. apply flat_map_app. Qed.

Lemma strikes_cons (tk : token) (rest : list token) :
  strikes (tk :: rest) = strikes [tk] ++ strikes rest.
Proof. apply (strikes_app [tk] rest). Qed.

Lemma place_line_texts (space_w x y : Z) (line : list token) :
  map lab_text (place_line space_w x y line) = strikes line.
Proof.
  revert x. induction line as [|[txt bold] line IH]; intros x; simpl.
  - reflexivity.
  - destruct bold; simpl; rewrite IH; reflexivity.
Qed.

(** Without a bound the loop places what is pending, then what is left. *)
Lemma layout_loop_texts (space_w line_h : Z) (tokens : list token) :
  forall (y : Z) (line : list token) (line_w : Z) (qgroup : list Label),
  map lab_text (layout_loop space_w line_h None tokens y line line_w qgroup)
  = map lab_text qgroup ++ strikes line ++ strikes tokens.
Proof.
  induction tokens as [|[txt bold] rest IH]; intros y line line_w qgroup.
  - rewrite layout_loop_nil. destruct line as [|tk line].
    + simpl. rewrite app_nil_r. reflexivity.
    + cbn [nonempty]. unfold flush_line. cbn [snd].
      rewrite map_app, place_line_texts, app_nil_r. reflexivity.
  - rewrite layout_loop_cons, (strikes_cons (txt, bold) rest). cbv zeta.
    destruct (nonempty line && _).
    + unfold flush_line. rewrite IH, map_app, place_line_texts.
      rewrite <- app_assoc. reflexivity.
    + rewrite IH, strikes_app, <- app_assoc. reflexivity.
Qed.

(** X12.  Without a bound the layout places every token of the quote, in
    reading order, once, and the highlighted token twice; with a bound it
    places a leading part of that sequence. *)
Theorem layout_places_tokens_in_order (quote_text : str) (y_start : Z) :
  map lab_text (layout_quote_into_group quote_text y_start None)
  = strikes (quote_tokens quote_text) /\
  forall y_max,
  exists cut,
    strikes (quote_tokens quote_text)
    = map lab_text (layout_quote_into_group quote_text y_start (Some y_max))
      ++ cut.
Proof.
  unfold layout_quote_into_group.
  destruct (measure (py " ")) as [sw lh].
  assert (A : map lab_text
                (layout_loop sw lh None (quote_tokens quote_text) y_start
                   [] 0 [])
              = strikes (quote_tokens quote_text))
    by (rewrite layout_loop_texts; reflexivity).
  split; [exact A|].
  intros y_max.
  destruct (layout_loop_prefix measure display_width sw lh y_max
              (quote_tokens quote_text) y_start [] 0) as [cut E].
  exists (map lab_text cut). rewrite <- A, E, map_app. reflexivity.
Qed.

Lemma line_width_snoc (space_w : Z) (line : list token) (tk : token) :
  line <> [] ->
  line_width measure space_w (line ++ [tk])
  = line_width measure space_w line + space_w + fst (measure (fst tk)).
Proof.
  induction line as [|a [|b rest] IH]; intros H.
  - contradiction.
  - reflexivity.
  - change (line_width measure space_w ((a :: b :: rest) ++ [tk]))
      with (fst (measure (fst a)) + space_w
            + line_width measure space_w ((b :: rest) ++ [tk])).
    rewrite IH by discriminate.
    change (line_width measure space_w (a :: b :: rest))
      with (fst (measure (fst a)) + space_w
            + line_width measure space_w (b :: rest)).
    lia.
Qed.

(** The loop as a whole: from a pending line that is a single token or
    fits, it appends whole lines, one row after the other.  The lines are
    the pending line and the tokens left, cut greedily; a refused flush
    ends them early. *)
Lemma layout_loop_wraps (space_w line_h : Z) (y_max : option Z)
  (tokens : list token) :
  forall (y : Z) (line : list token) (line_w : Z) (qgroup : list Label),
  (line = [] \/
   (line_w = line_width measure space_w line /\
    row_fits measure display_width space_w line)) ->
  exists rows,
    layout_loop space_w line_h y_max tokens y line line_w qgroup
    = qgroup ++ place_rows measure space_w line_h y rows /\
    Forall (fun row => row <> []) rows /\
    Forall (row_fits measure display_width space_w) rows /\
    filled_greedily measure display_width space_w rows /\
    (exists cut, line ++ tokens = List.concat rows ++ cut) /\
    (y_max = None -> line ++ tokens = List.concat rows) /\
    match rows with
    | row :: _ => exists more, row = line ++ more
    | [] => True
    end.
Proof.
  induction tokens as [|[txt bold] rest IH]; intros y line line_w qgroup I.
  - rewrite layout_loop_nil, app_nil_r. destruct line as [|tk line].
    + exists []. cbn. rewrite app_nil_r.
      repeat split; try constructor. exists []. reflexivity.
    + cbn [nonempty]. unfold flush_line.
      destruct I as [I | [_ I]]; [discriminate|].
      assert (P : exists rows,
                qgroup ++ place_line space_w MARGIN y (tk :: line)
                = qgroup ++ place_rows measure space_w line_h y rows /\
                Forall (fun row => row <> []) rows /\
                Forall (row_fits measure display_width space_w) rows /\
                filled_greedily measure display_width space_w rows /\
                (exists cut, tk :: line = List.concat rows ++ cut) /\
                (tk :: line = List.concat rows) /\
                match rows with
                | row :: _ => exists more, row = (tk :: line) ++ more
                | [] => True
                end).
      { exists [tk :: line]. cbn [place_rows List.concat]. rewrite !app_nil_r.
        repeat split; try (constructor; [|constructor]);
          try discriminate; try exact I.
        - exists []. rewrite app_nil_r. reflexivity.
        - exists []. rewrite app_nil_r. reflexivity. }
      destruct y_max as [ym|].
      * destruct (y + line_h >? ym); cbn [snd].
        -- exists []. cbn [place_rows List.concat app]. rewrite app_nil_r.
           split; [reflexivity|]. split; [constructor|].
           split; [constructor|]. split; [exact Logic.I|].
           split; [eexists; reflexivity|].
           split; [discriminate | exact Logic.I].
        -- destruct P as (rows & A & B & C & D & E & _ & F).
           exists rows. do 5 (split; [assumption|]).
           split; [discriminate | exact F].
      * cbn [snd]. destruct P as (rows & A & B & C & D & E & E' & F).
        exists rows. do 5 (split; [assumption|]).
        split; [intros _; exact E' | exact F].
  - rewrite layout_loop_cons. cbv zeta.
    destruct (nonempty line
              && (MARGIN
                  + (if nonempty line
                     then line_w + space_w + fst (measure txt)
                     else fst (measure txt))
                  + MARGIN >? display_width)) eqn:C.
    + destruct line as [|tk line]; [discriminate|].
      cbn [nonempty andb] in C.
      destruct I as [I | [-> I]]; [discriminate|].
      unfold flush_line.
      destruct (match y_max with
                | Some ym => y + line_h >? ym
                | None => false
                end) eqn:R.
      * exists []. cbn [place_rows List.concat app]. rewrite app_nil_r.
        split; [reflexivity|]. split; [constructor|].
        split; [constructor|]. split; [exact Logic.I|].
        split; [eexists; reflexivity|].
        split; [|exact Logic.I]. intros N. rewrite N in R. discriminate.
      * destruct (IH (y + (line_h + 2)) [(txt, bold)] (fst (measure txt))
                    (qgroup ++ place_line space_w MARGIN y (tk :: line)))
          as (rows & A & B & C' & D & (cut & E) & E' & F).
        { right. split; [reflexivity | left; reflexivity]. }
        exists ((tk :: line) :: rows). rewrite A.
        cbn [place_rows List.concat]. rewrite <- !app_assoc.
        split; [reflexivity|].
        split; [constructor; [discriminate | exact B]|].
        split; [constructor; [exact I | exact C']|].
        split.
        { cbn [filled_greedily]. split; [|exact D].
          destruct rows as [|[|t r] rows]; [exact Logic.I | exact Logic.I |].
          destruct F as [more F]. injection F as -> _.
          cbn [fst]. rewrite Z.gtb_ltb in C. apply Z.ltb_lt in C. lia. }
        split.
        { exists cut. cbn [app] in E. rewrite E, <- app_assoc. reflexivity. }
        split.
        { intros N. cbn [app] in E'. rewrite (E' N). reflexivity. }
        exists []. rewrite app_nil_r. reflexivity.
    + destruct (IH y (line ++ [(txt, bold)])
                  (if nonempty line
                   then line_w + space_w + fst (measure txt)
                   else fst (measure txt)) qgroup)
        as (rows & A & B & C' & D & (cut & E) & E' & F).
      { right. destruct line as [|tk line].
        - split; [reflexivity | left; reflexivity].
        - cbn [nonempty andb] in C. cbn [nonempty].
          destruct I as [I | [-> _]]; [discriminate|].
          split.
          + symmetry.
            apply (line_width_snoc space_w (tk :: line) (txt, bold)).
            discriminate.
          + right.
            pose proof (line_width_snoc space_w (tk :: line) (txt, bold)) as W.
            rewrite Z.gtb_ltb in C. apply Z.ltb_ge in C.
            unfold token in *. cbn [fst] in W. rewrite W by discriminate.
            lia. }
      exists rows. rewrite <- app_assoc in E, E'. cbn [app] in E, E'.
      split; [exact A|]. split; [exact B|]. split; [exact C'|].
      split; [exact D|]. split; [exists cut; exact E|].
      split; [exact E'|].
      destruct rows as [|row rows]; [exact Logic.I|].
      destruct F as [more F]. exists ((txt, bold) :: more).
      rewrite <- app_assoc in F. exact F.
Qed.

(** X13.  The quote is placed line by line: there are lines of tokens, none
    empty, that together are the tokens of the quote in order (all of
    them without a bound, a leading part with one), and the labels of the
    group are, in order, those of the first line placed from the left
    margin at [y_start], then those of each next line placed from the left
    margin exactly [line_h + 2] pixels below the line before. *)
Theorem layout_rows_evenly_spaced (quote_text : str) (y_start : Z)
  (y_max : option Z) :
  exists rows,
    layout_quote_into_group quote_text y_start y_max
    = place_rows measure (fst (measure (py " "))) (snd (measure (py " ")))
        y_start rows /\
    Forall (fun row => row <> []) rows /\
    (exists cut, quote_tokens quote_text = List.concat rows ++ cut) /\
    (y_max = None -> quote_tokens quote_text = List.concat rows).
Proof.
  unfold layout_quote_into_group.
  destruct (measure (py " ")) as [sw lh]. cbn [fst snd].
  destruct (layout_loop_wraps sw lh y_max (quote_tokens quote_text) y_start
              [] 0 []) as (rows & A & B & _ & _ & E & E' & _);
    [left; reflexivity|].
  exists rows. repeat split; assumption.
Qed.


End LayoutMore.

(* ================================================================== *)
(** * Further properties: clock, refresh and render *)
(* ================================================================== *)

Section RenderMore.

Variable measure : str -> Z * Z.
Variable display_width : Z.
Variable display_height : Z.
Variable monotonic : nat -> float.
Variable refresh_busy : nat -> bool.
Variable quotes_by_hhmm : dict.

Local Abbreviation render :=
  (render measure display_width display_height monotonic refresh_busy
     quotes_by_hhmm).

(** The time [render] works with, and whether it returns early. *)
Local Abbreviation render_time lpt s :=
  (match lpt with
   | Some hm => hm
   | None => (tm_hour (rtc_datetime s), tm_min (rtc_datetime s))
   end).
Local Abbreviation render_returns_early force lpt s :=
  (negb force && is_none lpt
   && bucket_eqb (snd (render_time lpt s) / UPDATE_MINUTES * UPDATE_MINUTES)
        (last_bucket s)).

Lemma render_early (force : bool) (lpt : option (Z * Z)) (s : State) :
  render_returns_early force lpt s = true ->
  render force lpt s = (Ok tt, s).
Proof.
  destruct s as [now lr lb qg tl ml md eh em nm nr tr].
  destruct force; [discriminate|].
  destruct lpt as [[h m]|]; [discriminate|].
  cbn [negb andb is_none rtc_datetime last_bucket snd]. intros H.
  run_render. unfold bucket_eqb in H.
  destruct lb as [b|]; [|discriminate]. rewrite H. reflexivity.
Qed.

Lemma render_pick_raises (force : bool) (lpt : option (Z * Z)) (s : State)
  (e : exn) :
  render_returns_early force lpt s = false ->
  pick_for_time quotes_by_hhmm (fst (render_time lpt s))
    (snd (render_time lpt s)) = Raise e ->
  render force lpt s = (Raise e, s).
Proof.
  destruct s as [now lr lb qg tl ml md eh em nm nr tr].
  destruct lpt as [[h m]|];
    cbn [negb andb is_none rtc_datetime last_bucket fst snd];
    intros H P; run_render.
  - rewrite P. destruct force; reflexivity.
  - rewrite P. destruct force; [reflexivity|].
    cbn [negb andb] in H. unfold bucket_eqb in H.
    destruct lb as [b|]; [rewrite H|]; reflexivity.
Qed.

(** What a render that does not return early leaves behind. *)
Lemma render_paints (force : bool) (lpt : option (Z * Z)) (s : State)
  (qt w a tg : str) :
  render_returns_early force lpt s = false ->
  pick_for_time quotes_by_hhmm (fst (render_time lpt s))
    (snd (render_time lpt s)) = Ok (qt, w, a, tg) ->
  let meta_text := sanitize_ascii (w ++ py " - " ++ a) in
  let time_text :=
    sanitize_ascii
      (py "Time: "
       ++ fmt_time (fst (render_time lpt s)) (snd (render_time lpt s))) in
  let meta_y := display_height - MARGIN in
  let time_y := meta_y - snd (measure meta_text) - 4 in
  exists lr' nm' nr' tr',
    render force lpt s
    = (Ok tt,
       mkState (rtc_datetime s) lr'
         (if is_none lpt
          then Some (snd (render_time lpt s) / UPDATE_MINUTES * UPDATE_MINUTES)
          else last_bucket s)
         (layout_quote_into_group measure display_width qt MARGIN
            (Some (time_y - 8)))
         (mkLabel time_text MARGIN time_y)
         (mkLabel meta_text MARGIN meta_y)
         (set_mode s) (edit_h s) (edit_m s) nm' nr' tr').
Proof.
  destruct s as [now lr lb qg tl ml md eh em nm nr tr].
  destruct lpt as [[h m]|];
    cbn [negb andb is_none rtc_datetime last_bucket set_mode edit_h edit_m
         fst snd];
    intros H P; cbv zeta; run_render.
  - rewrite P. destruct force; cbv beta iota; run_safe_refresh; run_render;
      do 4 eexists; reflexivity.
  - rewrite P.
    assert (G : (if force then false
                 else match lb with
                      | Some b =>
                          tm_min now / UPDATE_MINUTES * UPDATE_MINUTES =? b
                      | None => false
                      end) = false).
    { destruct force; [reflexivity|]. cbn [negb andb] in H. exact H. }
    destruct force.
    + cbv beta iota. run_safe_refresh. run_render.
      do 4 eexists. reflexivity.
    + destruct lb as [b|].
      * rewrite G. cbv beta iota. run_safe_refresh. run_render.
        do 4 eexists. reflexivity.
      * cbv beta iota. run_safe_refresh. run_render.
        do 4 eexists. reflexivity.
Qed.

(** The three outcomes of [render]. *)
Lemma render_cases (force : bool) (lpt : option (Z * Z)) (s : State) :
  render force lpt s = (Ok tt, s) \/
  (exists e, render force lpt s = (Raise e, s)) \/
  (exists qt w a tg lr' nm' nr' tr',
     render_returns_early force lpt s = false /\
     pick_for_time quotes_by_hhmm (fst (render_time lpt s))
       (snd (render_time lpt s)) = Ok (qt, w, a, tg) /\
     render force lpt s
     = (Ok tt,
        mkState (rtc_datetime s) lr'
          (if is_none lpt
           then Some (snd (render_time lpt s) / UPDATE_MINUTES
                      * UPDATE_MINUTES)
           else last_bucket s)
          (layout_quote_into_group measure display_width qt MARGIN
             (Some (display_height - MARGIN
                    - snd (measure (sanitize_ascii (w ++ py " - " ++ a)))
                    - 4 - 8)))
          (mkLabel
             (sanitize_ascii
                (py "Time: "
                 ++ fmt_time (fst (render_time lpt s))
                      (snd (render_time lpt s))))
             MARGIN
             (display_height - MARGIN
              - snd (measure (sanitize_ascii (w ++ py " - " ++ a))) - 4))
          (mkLabel (sanitize_ascii (w ++ py " - " ++ a)) MARGIN
             (display_height - MARGIN))
          (set_mode s) (edit_h s) (edit_m s) nm' nr' tr')).
Proof.
  destruct (render_returns_early force lpt s) eqn:C.
  - left. apply render_early. exact C.
  - destruct (pick_for_time quotes_by_hhmm (fst (render_time lpt s))
                (snd (render_time lpt s))) as [[[[qt w] a] tg]|e] eqn:P.
    + right. right.
      destruct (render_paints force lpt s qt w a tg C P)
        as (lr' & nm' & nr' & tr' & E).
      exists qt, w, a, tg, lr', nm', nr', tr'. auto.
    + right. left. exists e. apply render_pick_raises; assumption.
Qed.

(** [render] writes neither the clock nor the set-time fields. *)
Lemma render_frame (force : bool) (lpt : option (Z * Z)) (s : State) :
  let s' := snd (render force lpt s) in
  rtc_datetime s' = rtc_datetime s /\ set_mode s' = set_mode s /\
  edit_h s' = edit_h s /\ edit_m s' = edit_m s.
Proof.
  destruct (render_cases force lpt s)
    as [E | [(e & E) | (qt & w & a & tg & lr' & nm' & nr' & tr' & _ & _ & E)]];
    rewrite E; simpl; auto.
Qed.

Lemma render_total (force : bool) (lpt : option (Z * Z)) (s : State) :
  quotes_by_hhmm <> [] -> nonempty_lists quotes_by_hhmm ->
  exists s', render force lpt s = (Ok tt, s').
Proof.
  intros Hne Hwf.
  destruct (render_cases force lpt s)
    as [E | [(e & E) | (qt & w & a & tg & lr' & nm' & nr' & tr' & _ & _ & E)]];
    eauto.
  exfalso.
  destruct (render_returns_early force lpt s) eqn:C.
  - rewrite (render_early force lpt s C) in E. discriminate.
  - destruct (pick_for_time_returns quotes_by_hhmm (fst (render_time lpt s))
                (snd (render_time lpt s)) Hne Hwf)
      as (k & lst & [[[qt w] a] tg] & _ & _ & P).
    destruct (render_paints force lpt s qt w a tg C P)
      as (lr' & nm' & nr' & tr' & E').
    rewrite E' in E. discriminate.
Qed.

(** X15.  With a mapping that has a key and a record under every key (the
    script's always has), [render] raises nothing, forced or not, live
    preview or not, whatever the panel and the clocks answer. *)
Theorem render_never_raises (force : bool) (lpt : option (Z * Z)) (s : State) :
  quotes_by_hhmm <> [] -> nonempty_lists quotes_by_hhmm ->
  exists s', render force lpt s = (Ok tt, s').
Proof. exact (render_total force lpt s). Qed.

(** [safe_refresh] returns after reading the monotonic clock at least
    once; it writes nothing but [_last_refresh] and the hardware history. *)
Lemma safe_refresh_reads_clock (s : State) :
  exists lr nm nr tr,
    safe_refresh monotonic refresh_busy s
    = (Ok tt, with_hardware nm nr tr (with_last_refresh lr s)) /\
    (n_monotonic s < nm)%nat.
Proof.
  destruct (safe_refresh_runs monotonic refresh_busy s) as (A & B & C & D).
  destruct (PrimFloat.ltb
              (PrimFloat.sub (monotonic (n_monotonic s)) (last_refresh s))
              MIN_REFRESH_GAP).
  - rewrite (A eq_refl).
    exists (last_refresh s), (S (n_monotonic s)), (n_refresh s), (trace s).
    split; [destruct s; reflexivity | lia].
  - destruct (refresh_busy (n_refresh s)).
    + destruct (refresh_busy (S (n_refresh s))).
      * rewrite (D eq_refl eq_refl eq_refl).
        exists (last_refresh s), (S (n_monotonic s)), (S (S (n_refresh s))),
          (((trace s ++ [EvRefresh false]) ++ [EvSleep 0.5%float])
           ++ [EvRefresh false]).
        split; [destruct s; reflexivity | lia].
      * rewrite (C eq_refl eq_refl eq_refl).
        exists (monotonic (S (n_monotonic s))), (S (S (n_monotonic s))),
          (S (S (n_refresh s))),
          (((trace s ++ [EvRefresh false]) ++ [EvSleep 0.5%float])
           ++ [EvRefresh true]).
        split; [destruct s; reflexivity | lia].
    + rewrite (B eq_refl eq_refl).
      exists (monotonic (n_monotonic s)), (S (n_monotonic s)),
        (S (n_refresh s)), (trace s ++ [EvRefresh true]).
      split; [destruct s; reflexivity | lia].
Qed.

(** X16.  A live preview never takes the early return and never touches
    [_last_bucket].  Forced or not, and whatever bucket is remembered, a
    render with a preview time picks the record of that time.  When the
    pick raises, the render raises the same exception and leaves the state
    as it was.  Otherwise it returns after writing the footer for the
    previewed time, laying out the picked quote above it and going through
    [safe_refresh] (the monotonic clock has been read), with [_last_bucket]
    as it was. *)
Theorem live_preview_keeps_last_bucket (force : bool) (hm : Z * Z)
  (s : State) :
  match pick_for_time quotes_by_hhmm (fst hm) (snd hm) with
  | Ok (qt, w, a, tg) =>
      exists s',
        render force (Some hm) s = (Ok tt, s') /\
        last_bucket s' = last_bucket s /\
        lab_text (time_label s')
        = sanitize_ascii (py "Time: " ++ fmt_time (fst hm) (snd hm)) /\
        lab_text (meta_label s') = sanitize_ascii (w ++ py " - " ++ a) /\
        quote_group s'
        = layout_quote_into_group measure display_width qt MARGIN
            (Some (lab_y (time_label s') - 8)) /\
        (n_monotonic s < n_monotonic s')%nat
  | Raise e => render force (Some hm) s = (Raise e, s)
  end.
Proof.
  destruct s as [now lr lb qg tl ml md eh em nm nr tr].
  destruct hm as [h m]. cbn [fst snd].
  destruct (pick_for_time quotes_by_hhmm h m) as [[[[qt w] a] tg]|e] eqn:P.
  - run_render. rewrite P.
    destruct force; cbv beta iota;
      match goal with
      | |- context [safe_refresh ?mono ?busy ?st] =>
          destruct (safe_refresh_reads_clock st)
            as (lr' & nm' & nr' & tr' & E & L);
          rewrite E; clear E
      end;
      run_render; eexists; (split; [reflexivity|]);
      cbn [last_bucket time_label meta_label quote_group n_monotonic
           lab_text lab_y set_text set_anchored_position] in *;
      repeat split; exact L.
  - run_render. rewrite P. destruct force; reflexivity.
Qed.

(** The labels of a bounded layout are all within the bound. *)
Lemma layout_quote_bounded (quote_text : str) (y_start y_max : Z) :
  Forall (fun l => lab_y l + snd (measure (py " ")) <= y_max)
    (layout_quote_into_group measure display_width quote_text y_start
       (Some y_max)).
Proof.
  unfold layout_quote_into_group.
  destruct (measure (py " ")) as [sw lh]. simpl.
  apply layout_loop_bounded. constructor.
Qed.

(** X17.  Where a render that paints (a forced one, a live preview, or one
    in a new bucket) leaves the quote and the footer.  The two footer
    labels are anchored at their bottom-left corner: the meta label at
    [(MARGIN, display.height - MARGIN)], the time label at [MARGIN], 4
    pixels above the top of the meta label.  Every quote label, anchored at
    its top, ends (at [y + line_h]) at least 8 pixels above the bottom edge
    of the time label, hence at least 12 pixels above the top of the meta
    label.  The 8 pixels are counted from the bottom edge of the time
    label, not from its top: the bound keeps the quote out of the meta
    line, not out of the rows of the time line. *)
Theorem render_bounds_quote_rows (force : bool)
  (lpt : option (Z * Z)) (s s' : State) :
  render_returns_early force lpt s = false ->
  render force lpt s = (Ok tt, s') ->
  let line_h := snd (measure (py " ")) in
  let meta_top :=
    lab_y (meta_label s') - snd (measure (lab_text (meta_label s'))) in
  Forall (fun l => lab_y l + line_h <= lab_y (time_label s') - 8)
    (quote_group s') /\
  Forall (fun l => lab_y l + line_h + 12 <= meta_top) (quote_group s') /\
  lab_y (time_label s') = meta_top - 4 /\
  lab_y (meta_label s') = display_height - MARGIN /\
  lab_x (time_label s') = MARGIN /\ lab_x (meta_label s') = MARGIN.
Proof.
  intros C H.
  destruct (pick_for_time quotes_by_hhmm (fst (render_time lpt s))
              (snd (render_time lpt s))) as [[[[qt w] a] tg]|e] eqn:P.
  - destruct (render_paints force lpt s qt w a tg C P)
      as (lr' & nm' & nr' & tr' & E).
    cbv zeta in E. rewrite E in H. injection H as <-. cbv zeta.
    cbn [quote_group time_label meta_label lab_y lab_x lab_text].
    split; [apply layout_quote_bounded|].
    split; [|repeat split; reflexivity].
    eapply Forall_impl; [|apply layout_quote_bounded].
    cbv beta. intros l B. lia.
  - rewrite (render_pick_raises force lpt s e C P) in H. discriminate.
Qed.

(** X18.  After a render that paints, the two footer labels hold only
    characters below 128: the meta line is the sanitised ["work - author"]
    and the time line the sanitised ["Time: "] and [fmt_time]. *)
Theorem render_footer_is_ascii (force : bool) (lpt : option (Z * Z))
  (s s' : State) :
  render_returns_early force lpt s = false ->
  render force lpt s = (Ok tt, s') ->
  is_ascii (lab_text (meta_label s')) /\
  is_ascii (lab_text (time_label s')) /\
  exists qt w a tg,
    pick_for_time quotes_by_hhmm (fst (render_time lpt s))
      (snd (render_time lpt s)) = Ok (qt, w, a, tg) /\
    lab_text (meta_label s') = sanitize_ascii (w ++ py " - " ++ a).
Proof.
  intros C H.
  destruct (pick_for_time quotes_by_hhmm (fst (render_time lpt s))
              (snd (render_time lpt s))) as [[[[qt w] a] tg]|e] eqn:P.
  - destruct (render_paints force lpt s qt w a tg C P)
      as (lr' & nm' & nr' & tr' & E).
    cbv zeta in E. rewrite E in H. injection H as <-.
    cbn [time_label meta_label lab_text].
    split; [apply sanitize_ascii_range|].
    split; [apply sanitize_ascii_range|].
    exists qt, w, a, tg. split; reflexivity.
  - rewrite (render_pick_raises force lpt s e C P) in H. discriminate.
Qed.

End RenderMore.

Lemma render_never_raises_witness :
  exists s',
    render fixed_font 296 128 sample_monotonic always_busy sample_quotes
      true (Some (8, 15)) sample_state = (Ok tt, s').
Proof.
  destruct (QUOTES_BY_HHMM_well_formed fs_sample sample_quotes) as [Hne Hwf];
    [vm_compute; reflexivity|].
  apply render_never_raises; assumption.
Defined.

Lemma render_bounds_quote_rows_witness :
  let s' :=
    snd (render fixed_font 296 128 sample_monotonic always_busy sample_quotes
           true None sample_state) in
  let line_h := snd (fixed_font (py " ")) in
  let meta_top :=
    lab_y (meta_label s') - snd (fixed_font (lab_text (meta_label s'))) in
  Forall (fun l => lab_y l + line_h <= lab_y (time_label s') - 8)
    (quote_group s') /\
  Forall (fun l => lab_y l + line_h + 12 <= meta_top) (quote_group s') /\
  lab_y (time_label s') = meta_top - 4 /\
  lab_y (meta_label s') = 128 - MARGIN /\
  lab_x (time_label s') = MARGIN /\ lab_x (meta_label s') = MARGIN.
Proof.
  apply (render_bounds_quote_rows fixed_font 296 128 sample_monotonic
           always_busy sample_quotes true None sample_state);
    vm_compute; reflexivity.
Defined.

(** The bound on the quote at work on a 296 x 128 panel with a font 14
    pixels high: a line of a long quote ends 8 pixels or more above the
    bottom edge of the time label, and below the top of that label (its
    bottom edge less its height). *)
Example quote_row_reaches_time_line :
  let s' :=
    snd (render fixed_font 296 128 sample_monotonic always_busy
           crowded_quotes true None sample_state) in
  let line_h := snd (fixed_font (py " ")) in
  let time_top :=
    lab_y (time_label s') - snd (fixed_font (lab_text (time_label s'))) in
  exists l,
    In l (quote_group s') /\
    lab_y l + line_h <= lab_y (time_label s') - 8 /\
    time_top < lab_y l + line_h.
Proof.
  cbv zeta.
  set (s' := snd (render fixed_font 296 128 sample_monotonic always_busy
                    crowded_quotes true None sample_state)).
  assert (H : existsb
                (fun l =>
                   (lab_y l + snd (fixed_font (py " "))
                    <=? lab_y (time_label s') - 8)
                   && (lab_y (time_label s')
                       - snd (fixed_font (lab_text (time_label s')))
                       <? lab_y l + snd (fixed_font (py " "))))
                (quote_group s') = true)
    by (vm_compute; reflexivity).
  apply existsb_exists in H as (l & Hin & Hl).
  apply andb_true_iff in Hl as [H1 H2].
  apply Z.leb_le in H1. apply Z.ltb_lt in H2.
  exists l. auto.
Qed.

Lemma render_footer_is_ascii_witness :
  let s' :=
    snd (render fixed_font 296 128 sample_monotonic always_busy sample_quotes
           true None sample_state) in
  is_ascii (lab_text (meta_label s')) /\
  is_ascii (lab_text (time_label s')) /\
  exists qt w a tg,
    pick_for_time sample_quotes
      (fst (tm_hour (rtc_datetime sample_state),
            tm_min (rtc_datetime sample_state)))
      (snd (tm_hour (rtc_datetime sample_state),
            tm_min (rtc_datetime sample_state))) = Ok (qt, w, a, tg) /\
    lab_text (meta_label s') = sanitize_ascii (w ++ py " - " ++ a).
Proof.
  apply (render_footer_is_ascii fixed_font 296 128 sample_monotonic
           always_busy sample_quotes true None sample_state);
    vm_compute; reflexivity.
Defined.

Section RefreshMore.

Variable monotonic : nat -> float.
Variable refresh_busy : nat -> bool.

(** X19.  One call of [safe_refresh] refreshes the panel at most once and
    attempts it at most twice; after a successful refresh it neither sleeps
    nor refreshes again.  [_last_refresh] moves exactly when the panel was
    refreshed, and then to a reading of the monotonic clock taken during
    the call. *)
Theorem safe_refresh_accounts (s : State) :
  let s' := snd (safe_refresh monotonic refresh_busy s) in
  exists evs,
    trace s' = trace s ++ evs /\
    (n_refresh s <= n_refresh s' <= n_refresh s + 2)%nat /\
    ((~ In (EvRefresh true) evs /\ last_refresh s' = last_refresh s) \/
     (exists before,
        evs = before ++ [EvRefresh true] /\
        ~ In (EvRefresh true) before /\
        exists k, (n_monotonic s <= k < n_monotonic s')%nat /\
                  last_refresh s' = monotonic k)).
Proof.
  destruct (safe_refresh_runs monotonic refresh_busy s) as (A & B & C & D).
  destruct (PrimFloat.ltb
              (PrimFloat.sub (monotonic (n_monotonic s)) (last_refresh s))
              MIN_REFRESH_GAP).
  - rewrite (A eq_refl). destruct s as [now lr lb qg tl ml md eh em nm nr tr].
    exists []. cbn. rewrite app_nil_r. repeat split; try lia.
    left. split; [intros [] | reflexivity].
  - destruct (refresh_busy (n_refresh s)).
    + destruct (refresh_busy (S (n_refresh s))).
      * rewrite (D eq_refl eq_refl eq_refl).
        destruct s as [now lr lb qg tl ml md eh em nm nr tr].
        exists [EvRefresh false; EvSleep 0.5%float; EvRefresh false]. cbn.
        rewrite <- !app_assoc. repeat split; try lia.
        left. split; [|reflexivity].
        intros [H | [H | [H | []]]]; discriminate.
      * rewrite (C eq_refl eq_refl eq_refl).
        destruct s as [now lr lb qg tl ml md eh em nm nr tr].
        exists [EvRefresh false; EvSleep 0.5%float; EvRefresh true]. cbn.
        rewrite <- !app_assoc. repeat split; try lia.
        right. exists [EvRefresh false; EvSleep 0.5%float].
        split; [reflexivity|]. split.
        -- intros [H | [H | []]]; discriminate.
        -- exists (S nm). split; [lia | reflexivity].
    + rewrite (B eq_refl eq_refl).
      destruct s as [now lr lb qg tl ml md eh em nm nr tr].
      exists [EvRefresh true]. cbn. repeat split; try lia.
      right. exists []. split; [reflexivity|]. split; [intros []|].
      exists nm. split; [lia | reflexivity].
Qed.

End RefreshMore.

Section StartUp.

Variable measure : str -> Z * Z.
Variable display_width : Z.
Variable display_height : Z.
Variable monotonic : nat -> float.
Variable refresh_busy : nat -> bool.

Local Abbreviation init :=
  (module_init measure display_width display_height monotonic refresh_busy).

(** X20.  Loading the module can only fail in the loader: when the load
    raises, start-up raises the same exception; when it goes through,
    start-up returns the mapping, which has a key and a record under every
    key, with the first paint recorded in [_last_bucket] and a clock that
    reads 2023 or later (a clock before 2023 is set to noon on the first of
    January 2025, a later one is left alone). *)
Theorem module_init_outcome (fs : filesystem) (s : State) :
  (forall e, QUOTES_BY_HHMM fs = Raise e -> fst (init fs s) = Raise e) /\
  (forall Q, QUOTES_BY_HHMM fs = Ok Q ->
     let s' := snd (init fs s) in
     fst (init fs s) = Ok Q /\
     Q <> [] /\ nonempty_lists Q /\
     rtc_datetime s'
     = (if tm_year (rtc_datetime s) <? 2023
        then mkTime 2025 1 1 12 0 0 (-1) (-1) (-1)
        else rtc_datetime s) /\
     2023 <= tm_year (rtc_datetime s') /\
     last_bucket s'
     = Some (tm_min (rtc_datetime s') / UPDATE_MINUTES * UPDATE_MINUTES)).
Proof.
  destruct s as [now lr lb qg tl ml md eh em nm nr tr]. split.
  - intros e H. unfold module_init.
    cbv beta iota zeta delta
      [bind ret gets modify lift get_now set_now ensure_default_time_if_unset
       with_rtc rtc_datetime].
    rewrite H. destruct (tm_year now <? 2023); reflexivity.
  - intros Q H. pose proof (QUOTES_BY_HHMM_well_formed fs Q H) as [Hne Hwf].
    cbv zeta. unfold module_init.
    cbv beta iota zeta delta
      [bind ret gets modify lift get_now set_now ensure_default_time_if_unset
       with_rtc rtc_datetime last_refresh last_bucket quote_group time_label
       meta_label set_mode edit_h edit_m n_monotonic n_refresh trace].
    rewrite H.
    destruct (tm_year now <? 2023) eqn:Y; cbv beta iota;
      match goal with
      | |- context [render _ _ _ _ _ Q true None ?st] =>
          destruct (pick_for_time_returns Q (tm_hour (rtc_datetime st))
                      (tm_min (rtc_datetime st)) Hne Hwf)
            as (k & lst & [[[qt w] a] tg] & _ & _ & P);
          destruct (render_paints measure display_width display_height
                      monotonic refresh_busy Q true None st qt w a tg
                      eq_refl P)
            as (lr' & nm' & nr' & tr' & E);
          cbv zeta in E; rewrite E
      end; cbn; repeat split; auto.
    + lia.
    + apply Z.ltb_ge in Y. exact Y.
Qed.

End StartUp.

(* ================================================================== *)
(** * Further properties: set-time and the main loop *)
(* ================================================================== *)

(** Run one turn of the loop on a state given by its fields, leaving the
    calls of [render] as they are. *)
Ltac run_loop :=
  cbv beta iota zeta delta
    [loop_body edit_key enter_set cycle_field commit_time
     bind ret gets modify lift raise get_now set_now time_sleep
     is_none negb andb set_text set_anchored_position
     with_rtc with_last_refresh with_last_bucket with_quote_group
     with_time_label with_meta_label with_set_mode with_edit with_hardware
     rtc_datetime last_refresh last_bucket quote_group time_label meta_label
     set_mode edit_h edit_m n_monotonic n_refresh trace
     key_number pressed lab_text lab_x lab_y fst snd].

(** Replace one call of [render] in the goal by one of its outcomes. *)
Ltac run_render_call :=
  match goal with
  | |- context [render ?m ?dw ?dh ?mono ?busy ?Q ?f ?lpt ?st] =>
      let E := fresh "E" in
      destruct (render_cases m dw dh mono busy Q f lpt st)
        as [E | [(? & E) | (? & ? & ? & ? & ? & ? & ? & ? & _ & _ & E)]];
      rewrite E; clear E; run_loop
  end.

Section LoopFacts.

Variable measure : str -> Z * Z.
Variable display_width : Z.
Variable display_height : Z.
Variable monotonic : nat -> float.
Variable refresh_busy : nat -> bool.
Variable quotes_by_hhmm : dict.

Local Abbreviation turn :=
  (loop_body measure display_width display_height monotonic refresh_busy
     quotes_by_hhmm).

(** X21.  Button A walks the set-time fields in a circle, hour, minute,
    save, hour: one call of [cycle_field] moves to another field and stays
    in set mode, three calls come back to the same field, and none of them
    touches the edited time, the clock, the quote or the hardware. *)
Theorem cycle_field_cycles (s : State) :
  set_mode s <> SET_NONE ->
  let s1 := snd (cycle_field s) in
  let s3 := snd (cycle_field (snd (cycle_field s1))) in
  set_mode s1 <> SET_NONE /\ set_mode s1 <> set_mode s /\
  set_mode s3 = set_mode s /\
  edit_h s3 = edit_h s /\ edit_m s3 = edit_m s /\
  rtc_datetime s3 = rtc_datetime s /\ quote_group s3 = quote_group s /\
  last_bucket s3 = last_bucket s /\ trace s3 = trace s.
Proof.
  destruct s as [now lr lb qg tl ml md eh em nm nr tr].
  cbn [set_mode]. intros H. destruct md; [contradiction| | |];
    cbv zeta; run_loop; repeat split; discriminate.
Qed.

Lemma cycle_field_cycles_witness :
  let s1 := snd (cycle_field sample_state) in
  let s3 := snd (cycle_field (snd (cycle_field s1))) in
  set_mode s1 <> SET_NONE /\ set_mode s1 <> set_mode sample_state /\
  set_mode s3 = set_mode sample_state /\
  edit_h s3 = edit_h sample_state /\ edit_m s3 = edit_m sample_state /\
  rtc_datetime s3 = rtc_datetime sample_state /\
  quote_group s3 = quote_group sample_state /\
  last_bucket s3 = last_bucket sample_state /\ trace s3 = trace sample_state.
Proof. apply (cycle_field_cycles sample_state). discriminate. Defined.

(** X22.  Outside set mode only a press of button A does anything: a
    release of any button, and a press of B, C or D (or any other key
    number), give the same turn of the loop as no event at all. *)
Theorem idle_keys_are_inert (e : key_event) (last_minute_seen : Z)
  (s : State) :
  set_mode s = SET_NONE ->
  pressed e = false \/ key_number e <> 0 ->
  turn (Some e) last_minute_seen s = turn None last_minute_seen s.
Proof.
  destruct s as [now lr lb qg tl ml md eh em nm nr tr].
  destruct e as [k p]. cbn [set_mode pressed key_number]. intros -> H.
  destruct p; [|reflexivity].
  destruct H as [H | H]; [discriminate|].
  apply Z.eqb_neq in H.
  unfold loop_body at 1. cbn [pressed key_number].
  unfold bind at 2. unfold gets at 1. cbn [set_mode]. rewrite H.
  reflexivity.
Qed.

(** X23.  A turn with no key press only sleeps when a set mode is on
    (the periodic repaint is suspended while editing) or when the clock's
    minute is the one already seen: the state is as before but for the
    0.1 s sleep, and [last_minute_seen] stays. *)
Theorem quiet_turn_only_sleeps (evt : option key_event)
  (last_minute_seen : Z) (s : State) :
  evt = None \/ (exists e, evt = Some e /\ pressed e = false) ->
  set_mode s <> SET_NONE \/ tm_min (rtc_datetime s) = last_minute_seen ->
  turn evt last_minute_seen s
  = (Ok last_minute_seen,
     with_hardware (n_monotonic s) (n_refresh s)
       (trace s ++ [EvSleep 0x1.999999999999ap-4%float]) s).
Proof.
  destruct s as [now lr lb qg tl ml md eh em nm nr tr].
  cbn [set_mode rtc_datetime n_monotonic n_refresh trace].
  intros He Hq.
  assert (E : turn evt last_minute_seen
                (mkState now lr lb qg tl ml md eh em nm nr tr)
              = turn None last_minute_seen
                  (mkState now lr lb qg tl ml md eh em nm nr tr)).
  { destruct He as [-> | (e & -> & Hp)]; [reflexivity|].
    unfold loop_body. rewrite Hp. reflexivity. }
  rewrite E. run_loop.
  destruct md; try reflexivity.
  destruct Hq as [Hq | Hq]; [contradiction|].
  rewrite Hq, Z.eqb_refl. reflexivity.
Qed.

(** X24.  A press of button A outside set mode enters it: the edit fields
    take the clock's hour and minute, the mode is "set hour", the meta
    label holds the prompt, and the turn ends without a render or a
    refresh, so the panel shows the prompt only after the next key. *)
Theorem press_a_enters_set_mode (last_minute_seen : Z) (s : State) :
  set_mode s = SET_NONE ->
  turn (Some (mkEvent 0 true)) last_minute_seen s
  = (Ok last_minute_seen,
     mkState (rtc_datetime s) (last_refresh s) (last_bucket s)
       (quote_group s) (time_label s)
       (mkLabel (py "Set H  (A next  B+  C-  D save)")
          (lab_x (meta_label s)) (lab_y (meta_label s)))
       SET_H (tm_hour (rtc_datetime s)) (tm_min (rtc_datetime s))
       (n_monotonic s) (n_refresh s)
       (trace s ++ [EvSleep 0x1.999999999999ap-4%float])).
Proof.
  destruct s as [now lr lb qg tl ml md eh em nm nr tr].
  cbn [set_mode]. intros ->. reflexivity.
Qed.

(** Decide the tests on a given button number. *)
Ltac decide_key_tests :=
  change (0 =? 0) with true;
  change (1 =? 0) with false; change (1 =? 1) with true;
  change (2 =? 0) with false; change (2 =? 1) with false;
  change (2 =? 2) with true;
  change (3 =? 0) with false; change (3 =? 1) with false;
  change (3 =? 2) with false; change (3 =? 3) with true;
  cbv beta iota.

(** Split the tests left in the goal, replacing calls of [render] by their
    outcomes on the way. *)
Ltac split_turn :=
  repeat first
    [ run_render_call
    | match goal with
      | |- context [if ?c then _ else _] => destruct c eqn:?
      end ].

(** X25.  A press of button D in set mode commits: whatever the renders of
    that turn do, the turn ends outside set mode with the clock holding the
    edited hour and minute, zero seconds and the date it had, and the edit
    fields as they were. *)
Theorem press_d_commits (last_minute_seen : Z) (s : State) :
  set_mode s <> SET_NONE ->
  let s' := snd (turn (Some (mkEvent 3 true)) last_minute_seen s) in
  set_mode s' = SET_NONE /\
  rtc_datetime s'
  = mkTime (tm_year (rtc_datetime s)) (tm_mon (rtc_datetime s))
      (tm_mday (rtc_datetime s)) (edit_h s) (edit_m s) 0 (-1) (-1) (-1) /\
  edit_h s' = edit_h s /\ edit_m s' = edit_m s.
Proof.
  destruct s as [now lr lb qg tl ml md eh em nm nr tr].
  cbn [set_mode]. intros H. cbv zeta.
  destruct md; [contradiction| | |];
    run_loop; decide_key_tests; split_turn; repeat split; reflexivity.
Qed.

(** X26.  The hours and minutes stay those of a time of day: if the clock
    and the edit fields hold an hour in 0..23 and a minute in 0..59 before
    a turn of the loop, they do after it, whatever the event and whatever
    the renders do.  B and C wrap around, and D writes only what the edit
    fields hold. *)
Theorem turn_keeps_times_in_range (evt : option key_event)
  (last_minute_seen : Z) (s : State) :
  times_in_range s ->
  times_in_range (snd (turn evt last_minute_seen s)).
Proof.
  destruct s as [now lr lb qg tl ml md eh em nm nr tr].
  unfold times_in_range. cbn [rtc_datetime edit_h edit_m].
  intros (H1 & H2 & H3 & H4).
  pose proof (Z.mod_pos_bound (eh + 1) 24 ltac:(lia)).
  pose proof (Z.mod_pos_bound (eh - 1) 24 ltac:(lia)).
  pose proof (Z.mod_pos_bound (em + 1) 60 ltac:(lia)).
  pose proof (Z.mod_pos_bound (em - 1) 60 ltac:(lia)).
  destruct evt as [[k p]|]; [destruct p|]; destruct md;
    run_loop; split_turn; cbn [tm_hour tm_min]; lia.
Qed.

(** X27.  In the hour and minute fields, B then C, and C then B, give the
    edited time back: the two buttons undo each other, wrap-around at
    23/0 and 59/0 included, whatever the live-preview renders do in
    between. *)
Theorem plus_then_minus_restores (lms1 lms2 : Z) (s : State) :
  set_mode s = SET_H \/ set_mode s = SET_M ->
  0 <= edit_h s <= 23 -> 0 <= edit_m s <= 59 ->
  let plus := Some (mkEvent 1 true) in
  let minus := Some (mkEvent 2 true) in
  let s_pm := snd (turn minus lms2 (snd (turn plus lms1 s))) in
  let s_mp := snd (turn plus lms2 (snd (turn minus lms1 s))) in
  (edit_h s_pm = edit_h s /\ edit_m s_pm = edit_m s /\
   set_mode s_pm = set_mode s) /\
  (edit_h s_mp = edit_h s /\ edit_m s_mp = edit_m s /\
   set_mode s_mp = set_mode s).
Proof.
  destruct s as [now lr lb qg tl ml md eh em nm nr tr].
  cbn [set_mode edit_h edit_m]. intros Hm Hh Hmi.
  assert (A1 : ((eh + 1) mod 24 - 1) mod 24 = eh)
    by (Z.div_mod_to_equations; lia).
  assert (A2 : ((eh - 1) mod 24 + 1) mod 24 = eh)
    by (Z.div_mod_to_equations; lia).
  assert (A3 : ((em + 1) mod 60 - 1) mod 60 = em)
    by (Z.div_mod_to_equations; lia).
  assert (A4 : ((em - 1) mod 60 + 1) mod 60 = em)
    by (Z.div_mod_to_equations; lia).
  cbv zeta.
  destruct Hm as [-> | ->]; split;
    run_loop; decide_key_tests; split_turn; decide_key_tests; split_turn;
    repeat split; auto.
Qed.

(** X28.  The footer never holds a character outside ASCII: if the meta and
    time labels hold only characters below 128 before a turn of the loop,
    they do after it; the prompts are plain text and every render writes
    sanitised text. *)
Theorem turn_keeps_footer_ascii (evt : option key_event)
  (last_minute_seen : Z) (s : State) :
  footer_is_ascii s ->
  footer_is_ascii (snd (turn evt last_minute_seen s)).
Proof.
  destruct s as [now lr lb qg tl ml md eh em nm nr tr].
  unfold footer_is_ascii. cbn [meta_label time_label].
  intros [H1 H2].
  assert (P1 : is_ascii (py "Set H  (A next  B+  C-  D save)"))
    by (unfold is_ascii; repeat constructor).
  assert (P2 : is_ascii (py "Set M  (A next  B+  C-  D save)"))
    by (unfold is_ascii; repeat constructor).
  assert (P3 : is_ascii (py "Press D to Save (A cycles)"))
    by (unfold is_ascii; repeat constructor).
  assert (P4 : is_ascii (py "")) by constructor.
  destruct evt as [[k p]|]; [destruct p|]; destruct md;
    run_loop; split_turn;
    (split; first [assumption | apply sanitize_ascii_range]).
Qed.

(** X29.  Whenever a turn of the loop makes a refresh attempt, the meta
    label ends the turn holding the sanitised ["work - author"] line of a
    record that [pick_for_time] returned: every refresh comes from a render,
    and a render writes that line over whatever prompt the set-time code
    had put in the label. *)
Theorem refresh_shows_meta_line (evt : option key_event)
  (last_minute_seen : Z) (s : State) :
  let s' := snd (turn evt last_minute_seen s) in
  n_refresh s' <> n_refresh s ->
  exists h m qt w a tg,
    pick_for_time quotes_by_hhmm h m = Ok (qt, w, a, tg) /\
    lab_text (meta_label s') = sanitize_ascii (w ++ py " - " ++ a).
Proof.
  destruct s as [now lr lb qg tl ml md eh em nm nr tr].
  cbv zeta. cbn [n_refresh].
  destruct evt as [[k p]|]; [destruct p|]; destruct md; run_loop;
    repeat first
      [ match goal with
        | |- context [render ?m ?dw ?dh ?mono ?busy ?Q ?f ?lpt ?st] =>
            let E := fresh "E" in
            let P := fresh "P" in
            destruct (render_cases m dw dh mono busy Q f lpt st)
              as [E | [(? & E)
                      | (? & ? & ? & ? & ? & ? & ? & ? & _ & P & E)]];
            rewrite E; clear E; run_loop
        end
      | match goal with
        | |- context [if ?c then _ else _] => destruct c eqn:?
        end ];
    intros N; try (exfalso; apply N; reflexivity);
    repeat match goal with
           | P : pick_for_time _ _ _ = Ok _ |- _ =>
               solve [do 6 eexists; split; [exact P | reflexivity]]
           | P : pick_for_time _ _ _ = Ok _ |- _ => clear P
           end.
Qed.

End LoopFacts.

Lemma idle_keys_are_inert_witness :
  loop_body fixed_font 296 128 sample_monotonic always_busy sample_quotes
    (Some (mkEvent 3 true)) 47 (with_set_mode SET_NONE sample_state)
  = loop_body fixed_font 296 128 sample_monotonic always_busy sample_quotes
      None 47 (with_set_mode SET_NONE sample_state).
Proof.
  apply idle_keys_are_inert; [reflexivity | right; discriminate].
Defined.

Lemma quiet_turn_only_sleeps_witness :
  loop_body fixed_font 296 128 sample_monotonic always_busy sample_quotes
    None 12 sample_state
  = (Ok 12,
     with_hardware (n_monotonic sample_state) (n_refresh sample_state)
       (trace sample_state ++ [EvSleep 0x1.999999999999ap-4%float])
       sample_state).
Proof.
  apply quiet_turn_only_sleeps; [left; reflexivity | left; discriminate].
Defined.

Lemma press_a_enters_set_mode_witness :
  loop_body fixed_font 296 128 sample_monotonic always_busy sample_quotes
    (Some (mkEvent 0 true)) 47 (with_set_mode SET_NONE sample_state)
  = (Ok 47,
     mkState sample_now 0%float (Some 45) [] (mkLabel [] 0 0)
       (mkLabel (py "Set H  (A next  B+  C-  D save)") 0 0)
       SET_H 17 47 O O [EvSleep 0x1.999999999999ap-4%float]).
Proof.
  apply (press_a_enters_set_mode fixed_font 296 128 sample_monotonic
           always_busy sample_quotes 47
           (with_set_mode SET_NONE sample_state)).
  reflexivity.
Defined.


Lemma press_d_commits_witness :
  let s' :=
    snd (loop_body fixed_font 296 128 sample_monotonic always_busy
           sample_quotes (Some (mkEvent 3 true)) 47 sample_state) in
  set_mode s' = SET_NONE /\
  rtc_datetime s'
  = mkTime (tm_year (rtc_datetime sample_state))
      (tm_mon (rtc_datetime sample_state))
      (tm_mday (rtc_datetime sample_state)) (edit_h sample_state)
      (edit_m sample_state) 0 (-1) (-1) (-1) /\
  edit_h s' = edit_h sample_state /\ edit_m s' = edit_m sample_state.
Proof.
  apply (press_d_commits fixed_font 296 128 sample_monotonic always_busy
           sample_quotes 47 sample_state).
  discriminate.
Defined.

Lemma turn_keeps_times_in_range_witness :
  times_in_range
    (snd (loop_body fixed_font 296 128 sample_monotonic always_busy
            sample_quotes (Some (mkEvent 2 true)) 47
            (with_edit 0 0 (with_set_mode SET_H sample_state)))).
Proof.
  apply turn_keeps_times_in_range.
  unfold times_in_range. cbn. lia.
Defined.

Lemma plus_then_minus_restores_witness :
  let s := with_edit 23 59 (with_set_mode SET_H sample_state) in
  let plus := Some (mkEvent 1 true) in
  let minus := Some (mkEvent 2 true) in
  let s_pm :=
    snd (loop_body fixed_font 296 128 sample_monotonic always_busy
           sample_quotes minus 47
           (snd (loop_body fixed_font 296 128 sample_monotonic always_busy
                   sample_quotes plus 47 s))) in
  let s_mp :=
    snd (loop_body fixed_font 296 128 sample_monotonic always_busy
           sample_quotes plus 47
           (snd (loop_body fixed_font 296 128 sample_monotonic always_busy
                   sample_quotes minus 47 s))) in
  (edit_h s_pm = edit_h s /\ edit_m s_pm = edit_m s /\
   set_mode s_pm = set_mode s) /\
  (edit_h s_mp = edit_h s /\ edit_m s_mp = edit_m s /\
   set_mode s_mp = set_mode s).
Proof.
  apply (plus_then_minus_restores fixed_font 296 128 sample_monotonic
           always_busy sample_quotes 47 47
           (with_edit 23 59 (with_set_mode SET_H sample_state)));
    cbn; [left; reflexivity | lia | lia].
Defined.

Lemma turn_keeps_footer_ascii_witness :
  footer_is_ascii
    (snd (loop_body fixed_font 296 128 sample_monotonic always_busy
            sample_quotes (Some (mkEvent 0 true)) 47 sample_state)).
Proof.
  apply turn_keeps_footer_ascii. split; constructor.
Defined.

Lemma refresh_shows_meta_line_witness :
  let s' :=
    snd (loop_body fixed_font 296 128 sample_monotonic (fun _ => false)
           sample_quotes (Some (mkEvent 0 true)) 47
           (with_set_mode SET_H sample_state)) in
  exists h m qt w a tg,
    pick_for_time sample_quotes h m = Ok (qt, w, a, tg) /\
    lab_text (meta_label s') = sanitize_ascii (w ++ py " - " ++ a).
Proof.
  apply (refresh_shows_meta_line fixed_font 296 128 sample_monotonic
           (fun _ => false) sample_quotes (Some (mkEvent 0 true)) 47
           (with_set_mode SET_H sample_state)).
  vm_compute. discriminate.
Defined.

(* ================================================================== *)
(** * Further properties: grouping by key *)
(* ================================================================== *)

Lemma load_lines_groups (k : str) (lines : list str) :
  forall mapping,
  forallb loads_alone lines = true ->
  exists m',
    load_lines lines mapping = (m', None) /\
    dict_get m' k
    = match dict_get mapping k, records_for k lines with
      | None, [] => None
      | None, l => Some l
      | Some l0, l => Some (l0 ++ l)
      end.
Proof.
  induction lines as [|raw lines IH]; intros mapping H.
  - exists mapping. split; [reflexivity|]. simpl.
    destruct (dict_get mapping k); [rewrite app_nil_r|]; reflexivity.
  - simpl in H. apply andb_true_iff in H as [H1 H2].
    unfold loads_alone in H1. cbn [load_lines].
    unfold records_for. cbn [flat_map]. fold (records_for k lines).
    destruct (load_line_cases raw) as [E | [(k' & q & _ & E) | (e & E)]].
    + rewrite (E mapping), (E []). simpl. apply IH. exact H2.
    + rewrite (E mapping), (E []).
      destruct (IH (setdefault_append mapping k' q) H2) as (m' & L & G).
      exists m'. split; [exact L|]. rewrite G. simpl.
      destruct (str_eqb k' k) eqn:K.
      * apply str_eqb_eq in K. subst k'.
        rewrite dict_get_setdefault_same.
        destruct (dict_get mapping k) as [l0|]; simpl.
        -- rewrite <- app_assoc. reflexivity.
        -- reflexivity.
      * rewrite (dict_get_setdefault_other mapping k' k q K). reflexivity.
    + rewrite (E []) in H1. discriminate.
Qed.

(** X30.  The loader groups the records by time and keeps the file order
    inside each group: when no line raises, the list stored under a key is
    the records of that key in the order of their lines, and a key without
    a record is absent. *)
Theorem load_groups_in_file_order (fs : filesystem) (path : str)
  (lines : list str) :
  fs path = Some lines ->
  forallb loads_alone lines = true ->
  exists Q,
    load_quotes_csv fs path = Ok Q /\
    forall k,
      dict_get Q k
      = match records_for k lines with
        | [] => None
        | l => Some l
        end.
Proof.
  intros Hfs H.
  destruct (load_lines_groups (py "") lines [] H) as (Q & L & _).
  exists Q. split.
  - unfold load_quotes_csv. rewrite Hfs, L. reflexivity.
  - intros k. destruct (load_lines_groups k lines [] H) as (Q' & L' & G).
    rewrite L in L'. injection L' as <-. exact G.
Qed.

Lemma load_groups_in_file_order_witness :
  exists Q,
    load_quotes_csv fs_sample CSV_PATH = Ok Q /\
    forall k,
      dict_get Q k
      = match
          records_for k
            [ py "# time|quote|work|author|tag" ++ LF;
              LF;
              py "12:00|High ^noon^.|Book|Author|tag" ++ LF;
              py "9:00|Hello ^world^.|Book|Author|tag" ++ LF;
              py "no fields here" ++ LF;
              py "12:00|Midday ^again^|Other|Writer|tag" ++ LF;
              py "17:45|A ^quarter to six^ it was.|Third|Someone|tag" ]
        with
        | [] => None
        | l => Some l
        end.
Proof.
  apply load_groups_in_file_order; reflexivity.
Defined.
